(** * GraphRAG web platform: indexing pipeline, progress tracker and query dispatch

    A shallow embedding of the backend services
    ([app/services/graphrag_service.py], [app/services/file_service.py]) and of
    the API handlers that drive them ([app/api/indexing.py], [app/api/chat.py]),
    followed by the properties of the progress state machine, the failure
    handling of the pipeline and the two search modes.

    Conventions of the embedding:
    - Python [str] is [string]; [str.lower] and [str.strip] act on ASCII.
    - The percentages the code uses are the float literals 0.0, 5.0, ...,
      100.0; they are integers and are kept in [Z].
    - [datetime] values are opaque time stamps in [Z].
    - The JSON and parquet files are kept by their decoded content; the
      progress file may also hold content that does not decode.
    - In [FileService] and [GraphRAGService], writes to the service's own
      data directories (metadata file, progress files, creation of the
      output directory) succeed and what is raised is an instance of
      [Exception]. What the external collaborators do (configuration dump,
      text extraction, the child process, the search engines) is given from
      outside and may raise. [Pipeline] gives the pipeline task without
      these conventions.
    - Exceptions are values; a computation is a function from a state to a
      [result] and the next state. *)

From Stdlib Require Import ZArith String Ascii List Lia Sorted.
From stdpp Require Import base strings gmap list.

Open Scope string_scope.
Open Scope Z_scope.

(** ** Text helpers *)

Module Text.

Definition lower_ascii (c : ascii) : ascii :=
  let n := nat_of_ascii c in
  if (Nat.leb 65 n && Nat.leb n 90)%bool then ascii_of_nat (n + 32) else c.

(** [s.lower()] *)
Fixpoint lower (s : string) : string :=
  match s with
  | EmptyString => EmptyString
  | String c r => String (lower_ascii c) (lower r)
  end.

(** [needle in hay] *)
Fixpoint contains (needle hay : string) : bool :=
  (String.prefix needle hay
   || match hay with
      | EmptyString => false
      | String _ r => contains needle r
      end)%bool.

Definition is_space (c : ascii) : bool :=
  let n := nat_of_ascii c in
  (Nat.eqb n 32 || (Nat.leb 9 n && Nat.leb n 13) || (Nat.leb 28 n && Nat.leb n 31))%bool.

Fixpoint lstrip (s : string) : string :=
  match s with
  | EmptyString => EmptyString
  | String c r => if is_space c then lstrip r else s
  end.

Fixpoint rstrip (s : string) : string :=
  match s with
  | EmptyString => EmptyString
  | String c r =>
      match rstrip r with
      | EmptyString => if is_space c then EmptyString else String c EmptyString
      | r' => String c r'
      end
  end.

(** [s.strip()] *)
Definition strip (s : string) : string := rstrip (lstrip s).

(** [s[:n]] *)
Definition take (n : nat) (s : string) : string := String.substring 0 n s.

(** [[s[i:i+size] for i in range(0, len(s), size)]] *)
Definition slices (size : nat) (s : string) : list string :=
  List.map (fun k => String.substring (k * size) size s)
           (List.seq 0 ((String.length s + size - 1) / size)%nat).

End Text.

(** ** Data model ([app/models/file.py], [app/models/chat.py]) *)

Definition Time := Z.

Module FileMetadata.
Record t := mk {
  id : string;
  filename : string;
  original_filename : string;
  size : Z;
  content_type : string;
  upload_date : Time;
  status : string;
  error_message : option string;
  chunks_count : option Z;
  entities_count : option Z;
  relationships_count : option Z;
  communities_count : option Z;
  file_path : string;
  output_path : option string
}.

(** The keyword arguments the callers of [update_file_status] in this code
    base pass: [error_message], [output_path] and the four counts; each one
    overwrites the field of that name. The function writes any key it is
    given; a call with another key is not covered. *)
Inductive kwarg :=
| kw_error_message (v : option string)
| kw_output_path (v : string)
| kw_chunks_count (v : Z)
| kw_entities_count (v : Z)
| kw_relationships_count (v : Z)
| kw_communities_count (v : Z).

Definition set_status (s : string) (m : t) : t :=
  mk (id m) (filename m) (original_filename m) (size m) (content_type m)
     (upload_date m) s (error_message m) (chunks_count m) (entities_count m)
     (relationships_count m) (communities_count m) (file_path m) (output_path m).

Definition set_kwarg (m : t) (k : kwarg) : t :=
  match k with
  | kw_error_message v =>
      mk (id m) (filename m) (original_filename m) (size m) (content_type m)
         (upload_date m) (status m) v (chunks_count m) (entities_count m)
         (relationships_count m) (communities_count m) (file_path m) (output_path m)
  | kw_output_path v =>
      mk (id m) (filename m) (original_filename m) (size m) (content_type m)
         (upload_date m) (status m) (error_message m) (chunks_count m) (entities_count m)
         (relationships_count m) (communities_count m) (file_path m) (Some v)
  | kw_chunks_count v =>
      mk (id m) (filename m) (original_filename m) (size m) (content_type m)
         (upload_date m) (status m) (error_message m) (Some v) (entities_count m)
         (relationships_count m) (communities_count m) (file_path m) (output_path m)
  | kw_entities_count v =>
      mk (id m) (filename m) (original_filename m) (size m) (content_type m)
         (upload_date m) (status m) (error_message m) (chunks_count m) (Some v)
         (relationships_count m) (communities_count m) (file_path m) (output_path m)
  | kw_relationships_count v =>
      mk (id m) (filename m) (original_filename m) (size m) (content_type m)
         (upload_date m) (status m) (error_message m) (chunks_count m) (entities_count m)
         (Some v) (communities_count m) (file_path m) (output_path m)
  | kw_communities_count v =>
      mk (id m) (filename m) (original_filename m) (size m) (content_type m)
         (upload_date m) (status m) (error_message m) (chunks_count m) (entities_count m)
         (relationships_count m) (Some v) (file_path m) (output_path m)
  end.
End FileMetadata.

Module IndexingProgress.
Record t := mk {
  file_id : string;
  status : string;
  current_step : string;
  progress_percentage : Z;
  estimated_remaining : option Z;
  error_message : option string;
  started_at : option Time;
  completed_at : option Time
}.

Definition set_status (s : string) (p : t) : t :=
  mk (file_id p) s (current_step p) (progress_percentage p) (estimated_remaining p)
     (error_message p) (started_at p) (completed_at p).
Definition set_current_step (s : string) (p : t) : t :=
  mk (file_id p) (status p) s (progress_percentage p) (estimated_remaining p)
     (error_message p) (started_at p) (completed_at p).
Definition set_progress_percentage (x : Z) (p : t) : t :=
  mk (file_id p) (status p) (current_step p) x (estimated_remaining p)
     (error_message p) (started_at p) (completed_at p).
Definition set_error_message (e : option string) (p : t) : t :=
  mk (file_id p) (status p) (current_step p) (progress_percentage p) (estimated_remaining p)
     e (started_at p) (completed_at p).
Definition set_completed_at (d : option Time) (p : t) : t :=
  mk (file_id p) (status p) (current_step p) (progress_percentage p) (estimated_remaining p)
     (error_message p) (started_at p) d.
End IndexingProgress.

Inductive ChatMode := LOCAL | GLOBAL.

(** ** Exceptions and computations *)

(** A Python exception, kept by its class name and by [str(e)]. *)
Record exn := mkExn { exn_class : string; str : string }.

Definition Exception (msg : string) : exn := mkExn "Exception" msg.

Inductive result (E A : Type) :=
| Return (a : A)
| Raise (e : E).
Arguments Return {E A} a.
Arguments Raise {E A} e.

Definition M (E S A : Type) := S -> result E A * S.

Definition ret {E S A} (a : A) : M E S A := fun s => (Return a, s).
Definition raise {E S A} (e : E) : M E S A := fun s => (Raise e, s).
Definition bind {E S A B} (m : M E S A) (k : A -> M E S B) : M E S B :=
  fun s => match m s with
           | (Return a, s') => k a s'
           | (Raise e, s') => (Raise e, s')
           end.
Definition get_state {E S} : M E S S := fun s => (Return s, s).
Definition modify {E S} (f : S -> S) : M E S unit := fun s => (Return tt, f s).
Definition lift_result {E S A} (r : result E A) : M E S A := fun s => (r, s).

(** [try: body  except Exception as e: handler e] *)
Definition try_except {E E' S A} (body : M E S A) (handler : E -> M E' S A) : M E' S A :=
  fun s => match body s with
           | (Return a, s') => (Return a, s')
           | (Raise e, s') => handler e s'
           end.

(** [try: body  finally: fin] *)
Definition try_finally {E S A} (body : M E S A) (fin : M E S unit) : M E S A :=
  fun s => let '(r, s') := body s in
           match fin s' with
           | (Return _, s'') => (r, s'')
           | (Raise e, s'') => (Raise e, s'')
           end.

Declare Scope comp_scope.
Delimit Scope comp_scope with comp.
Notation "x <- c1 ;; c2" := (bind c1 (fun x => c2))
  (at level 100, c1 at next level, right associativity) : comp_scope.
Notation "c1 ;; c2" := (bind c1 (fun _ => c2))
  (at level 100, right associativity) : comp_scope.

(** Python dictionaries whose order matters are association lists. *)
Fixpoint dict_get {V : Type} (key : string) (d : list (string * V)) : option V :=
  match d with
  | [] => None
  | (k, v) :: rest => if String.eqb key k then Some v else dict_get key rest
  end.

(** ** The stores on disk *)

(** A parquet table, by its rows. *)
Definition Row := list (string * string).
Definition DataFrame := list Row.

(** [output_dir/<file_id>/output/artifacts]; a table that is [None] is a file
    that does not exist. *)
Record ArtifactDir := mkArtifactDir {
  create_final_entities : option DataFrame;
  create_final_relationships : option DataFrame;
  create_final_communities : option DataFrame;
  create_final_text_units : option DataFrame;
  create_final_community_reports : option DataFrame
}.

(** [cache_dir/indexing_status_<file_id>.json] *)
Inductive status_file :=
| Json (p : IndexingProgress.t)
| Garbled (raw : string)
| Unreadable.

(** A task handed to [asyncio.create_task] that has not run yet. *)
Record Task := mkTask {
  task_file : FileMetadata.t;
  task_progress : IndexingProgress.t
}.

Record World := mkWorld {
  files_data : gmap string FileMetadata.t;
  cache : gmap string status_file;
  artifacts : gmap string ArtifactDir;
  written : list IndexingProgress.t;
  tasks : list Task
}.

(** [written] is the history of the progress records [_save_progress] wrote,
    oldest first; [cache] holds the last one per document. *)

Definition set_files_data (f : gmap string FileMetadata.t) (w : World) : World :=
  mkWorld f (cache w) (artifacts w) (written w) (tasks w).
Definition set_artifacts (a : gmap string ArtifactDir) (w : World) : World :=
  mkWorld (files_data w) (cache w) a (written w) (tasks w).
Definition write_status_file (p : IndexingProgress.t) (w : World) : World :=
  mkWorld (files_data w) (<[IndexingProgress.file_id p := Json p]> (cache w))
          (artifacts w) (written w ++ [p]) (tasks w).
Definition add_task (t : Task) (w : World) : World :=
  mkWorld (files_data w) (cache w) (artifacts w) (written w) (tasks w ++ [t]).

(** ** [app/services/file_service.py] *)

Module FileService.

(** [_load_metadata]: the decoded [files.json]; a missing or corrupt file is
    the empty dictionary. *)
Definition _load_metadata {E} : M E World (gmap string FileMetadata.t) :=
  fun w => (Return (files_data w), w).

Definition _save_metadata_dict {E} (d : gmap string FileMetadata.t) : M E World unit :=
  modify (set_files_data d).

Definition get_file_by_id {E} (file_id : string) : M E World (option FileMetadata.t) :=
  (d <- _load_metadata ;; ret (d !! file_id))%comp.

Definition update_file_status {E} (file_id status : string)
    (kwargs : list FileMetadata.kwarg) : M E World (option FileMetadata.t) :=
  (d <- _load_metadata ;;
   match d !! file_id with
   | None => ret None
   | Some m =>
       let m' := fold_left FileMetadata.set_kwarg kwargs (FileMetadata.set_status status m) in
       _save_metadata_dict (<[file_id := m']> d) ;;
       ret (Some m')
   end)%comp.

End FileService.

(** ** [app/services/graphrag_service.py] *)

(** One read of the child's standard output: a line, decoded (the empty
    string is the end of the stream), or the one second time-out, with
    whether the child had exited by then. After the last read of a list the
    stream is at its end. [Pipeline.read] has the reads that fail. *)
Inductive stdout_event :=
| Line (line : string)
| Timeout (exited : bool).

(** The child process [python -m graphrag.index]: what it prints, how it
    ends and what it does to the artifact directories. *)
Record Process := mkProcess {
  stdout : list stdout_event;
  returncode : Z;
  stderr : string;
  leaves : gmap string ArtifactDir -> gmap string ArtifactDir
}.

(** What the collaborators of one pipeline run do: [_create_config_file],
    [input_dir.mkdir], [extract_text_content], the write of the input file,
    [asyncio.create_subprocess_exec] and the clock of the success branch. *)
Record Outcomes := mkOutcomes {
  config_file : result exn string;
  input_dir_made : result exn unit;
  text_content : result exn string;
  input_written : result exn unit;
  subprocess : result exn Process;
  utcnow : Time
}.

(** The result of a search: [result.response] and [result.context_data]. *)
Inductive context :=
| CtxDict (items : list (string * string))
| CtxOther (as_dict : option (list (string * string))).

Record SearchResult := mkSearchResult {
  sr_response : string;
  sr_context_data : context
}.

(** [LocalSearch.asearch] and [GlobalSearch.asearch] over the merged tables. *)
Record Engines := mkEngines {
  local_asearch : string -> DataFrame -> DataFrame -> DataFrame -> result exn SearchResult;
  global_asearch : string -> DataFrame -> DataFrame -> result exn SearchResult
}.

(** The dictionary [_local_search] and [_global_search] return; the key
    [context] is absent from the fixed answers. *)
Record SearchDict := mkSearchDict {
  sd_response : string;
  sd_context : option context;
  sd_sources : list (list (string * string))
}.

Record GraphRAGQueryResult := mkQueryResult {
  response : string;
  context_data : list (string * string);
  sources : list (list (string * string));
  processing_time : Z;
  mode : ChatMode
}.

(** The state of a pipeline run: the stores and the progress object the run
    mutates. *)
Record PState := mkPState {
  world : World;
  progress : IndexingProgress.t
}.

Definition on_world {E A} (m : M E World A) : M E PState A :=
  fun st => let '(r, w) := m (world st) in (r, mkPState w (progress st)).
Definition on_progress {E} (f : IndexingProgress.t -> IndexingProgress.t) : M E PState unit :=
  modify (fun st => mkPState (world st) (f (progress st))).

Module GraphRAGService.

Import Text.

Definition output_dir : string := "data/output".

(** The record [start_indexing] creates. *)
Definition initial_progress (now : Time) (file_metadata : FileMetadata.t)
  : IndexingProgress.t :=
  IndexingProgress.mk (FileMetadata.id file_metadata) "indexing" "preparing" 0
                      None None (Some now) None.

Definition start_indexing (now : Time) (file_metadata : FileMetadata.t)
  : M exn World IndexingProgress.t :=
  (let progress := initial_progress now file_metadata in
   modify (add_task (mkTask file_metadata progress)) ;;
   ret progress)%comp.

(** [open], [json.load] and the model constructor, one after the other. *)
Definition load_status_file (f : status_file) : result exn IndexingProgress.t :=
  match f with
  | Json p => Return p
  | Garbled raw => Raise (mkExn "JSONDecodeError" raw)
  | Unreadable => Raise (mkExn "OSError" "cannot open status file")
  end.

(** The bare [except: pass] falls through to the final [return None]. *)
Definition get_indexing_status (file_id : string)
  : M exn World (option IndexingProgress.t) :=
  (w <- get_state ;;
   match cache w !! file_id with
   | Some f =>
       try_except
         (p <- lift_result (load_status_file f) ;; ret (Some p))
         (fun _ : exn => ret None)
   | None => ret None
   end)%comp.

(** [_save_progress] on a disk that takes the write; [Pipeline._save_progress]
    has the writes that fail. *)
Definition _save_progress : M exn PState unit :=
  modify (fun st => mkPState (write_status_file (progress st) (world st)) (progress st)).

Definition _update_progress (step : string) (percentage : Z) : M exn PState unit :=
  (on_progress (IndexingProgress.set_current_step step) ;;
   on_progress (IndexingProgress.set_progress_percentage percentage) ;;
   _save_progress)%comp.

Definition step_progress : list (string * Z) :=
  [("chunking", 30); ("entity_extraction", 60);
   ("relationship_extraction", 80); ("community_detection", 90)].

(** The [if]/[elif] chain over the lower-cased line; a line without a
    keyword leaves [current_step] as it is. *)
Definition next_step (line_str current_step : string) : string :=
  if contains "entity" (lower line_str) then "entity_extraction"
  else if contains "relationship" (lower line_str) then "relationship_extraction"
  else if contains "community" (lower line_str) then "community_detection"
  else current_step.

(** The [while True] loop of [_monitor_indexing_process]; the events are the
    successive results of [readline] under [wait_for]. *)
Fixpoint monitor_loop (events : list stdout_event) (current_step : string)
  : M exn PState unit :=
  match events with
  | [] => ret tt
  | Line line :: rest =>
      if String.eqb line "" then ret tt
      else
        let line_str := strip line in
        let current_step := next_step line_str current_step in
        ((match dict_get current_step step_progress with
          | Some percentage => _update_progress current_step percentage
          | None => ret tt
          end) ;;
         monitor_loop rest current_step)%comp
  | Timeout true :: _ => ret tt
  | Timeout false :: rest => monitor_loop rest current_step
  end.

(** [process.wait()]: the child has ended and its files are in place. *)
Definition process_wait (process : Process) : M exn PState Z :=
  (on_world (modify (fun w => set_artifacts (leaves process (artifacts w)) w)) ;;
   ret (returncode process))%comp.

Definition _monitor_indexing_process (process : Process) : M exn PState unit :=
  (monitor_loop (stdout process) "chunking" ;;
   return_code <- process_wait process ;;
   if Z.eqb return_code 0 then ret tt
   else
     let error_msg :=
       if String.eqb (stderr process) "" then "Unknown error" else stderr process in
     raise (Exception ("GraphRAG indexing failed: " ++ error_msg)))%comp.

Definition table_len (t : option DataFrame) : Z :=
  match t with
  | Some df => Z.of_nat (List.length df)
  | None => 0
  end.

(** The [stats] dictionary, in the order of its keys. *)
Definition _calculate_indexing_stats (artifacts_dir : ArtifactDir)
  : list FileMetadata.kwarg :=
  [FileMetadata.kw_chunks_count (table_len (create_final_text_units artifacts_dir));
   FileMetadata.kw_entities_count (table_len (create_final_entities artifacts_dir));
   FileMetadata.kw_relationships_count (table_len (create_final_relationships artifacts_dir));
   FileMetadata.kw_communities_count (table_len (create_final_communities artifacts_dir))].

(** The body of the [try] block of [_run_indexing_pipeline]. *)
Definition pipeline_body (oc : Outcomes) (file_metadata : FileMetadata.t)
  : M exn PState unit :=
  (let file_id := FileMetadata.id file_metadata in
   _update_progress "preparing" 5 ;;
   config_file <- lift_result (config_file oc) ;;
   _update_progress "copying_file" 10 ;;
   lift_result (input_dir_made oc) ;;
   text_content <- lift_result (text_content oc) ;;
   lift_result (input_written oc) ;;
   _update_progress "chunking" 20 ;;
   process <- lift_result (subprocess oc) ;;
   _monitor_indexing_process process ;;
   _update_progress "finalizing" 95 ;;
   st <- get_state ;;
   match artifacts (world st) !! file_id with
   | Some artifacts_dir =>
       let stats := _calculate_indexing_stats artifacts_dir in
       on_progress (IndexingProgress.set_status "completed") ;;
       on_progress (IndexingProgress.set_progress_percentage 100) ;;
       on_progress (IndexingProgress.set_completed_at (Some (utcnow oc))) ;;
       on_world (FileService.update_file_status file_id "completed"
                   (FileMetadata.kw_output_path (output_dir ++ "/" ++ file_id) :: stats)) ;;
       ret tt
   | None => raise (Exception "Indexing completed but no artifacts found")
   end)%comp.

(** The [except Exception as e] handler. *)
Definition pipeline_handler (file_metadata : FileMetadata.t) (e : exn)
  : M exn PState unit :=
  (on_progress (IndexingProgress.set_status "error") ;;
   on_progress (IndexingProgress.set_error_message (Some (str e))) ;;
   on_world (FileService.update_file_status (FileMetadata.id file_metadata) "error"
               [FileMetadata.kw_error_message (Some (str e))]) ;;
   ret tt)%comp.

(** [_run_indexing_pipeline] from its [try] statement on, with the output
    directory made; [Pipeline._run_indexing_pipeline] has the [mkdir] before
    it. *)
Definition _run_indexing_pipeline (oc : Outcomes) (file_metadata : FileMetadata.t)
  : M exn PState unit :=
  try_finally
    (try_except (pipeline_body oc file_metadata) (pipeline_handler file_metadata))
    _save_progress.

(** The event loop runs a created task: the pipeline on the task's progress
    object, from the stores as they are then. *)
Definition run_task (oc : Outcomes) (t : Task) (w : World) : result exn unit * World :=
  let '(r, st) := _run_indexing_pipeline oc (task_file t) (mkPState w (task_progress t)) in
  (r, world st).

(** [_extract_sources_from_context] *)
Definition source_content (value : string) : string :=
  if Nat.ltb 200 (String.length value) then take 200 value ++ "..." else value.

Definition is_source_key (key : string) : bool :=
  (contains "source" (lower key) || contains "chunk" (lower key))%bool.

Definition _extract_sources_from_context (context_data : context)
  : list (list (string * string)) :=
  match context_data with
  | CtxDict items =>
      flat_map (fun '(key, value) =>
                  if is_source_key key
                  then [[("type", key); ("content", source_content value)]]
                  else [])
               items
  | CtxOther _ => []
  end.

Definition found (t : option DataFrame) : list DataFrame :=
  match t with
  | Some df => [df]
  | None => []
  end.

(** [pd.concat(frames, ignore_index=True)] *)
Definition pd_concat (frames : list DataFrame) : DataFrame := List.concat frames.

(** The loading loop of [_local_search]: the entity, relationship and text
    unit tables found for the listed files. *)
Fixpoint load_local (arts : gmap string ArtifactDir) (file_ids : list string)
    (acc : list DataFrame * list DataFrame * list DataFrame)
  : list DataFrame * list DataFrame * list DataFrame :=
  match file_ids with
  | [] => acc
  | file_id :: rest =>
      match arts !! file_id with
      | None => load_local arts rest acc
      | Some artifacts_dir =>
          let '(all_entities, all_relationships, all_text_units) := acc in
          load_local arts rest
            ((all_entities ++ found (create_final_entities artifacts_dir))%list,
             (all_relationships ++ found (create_final_relationships artifacts_dir))%list,
             (all_text_units ++ found (create_final_text_units artifacts_dir))%list)
      end
  end.

Definition _local_search (eng : Engines) (query : string) (file_ids : list string)
  : M exn World SearchDict :=
  (w <- get_state ;;
   let '(all_entities, all_relationships, all_text_units) :=
     load_local (artifacts w) file_ids ([], [], []) in
   match all_entities with
   | [] => ret (mkSearchDict "No indexed data found for the specified files." None [])
   | _ :: _ =>
       let entities_df := pd_concat all_entities in
       let relationships_df := pd_concat all_relationships in
       let text_units_df := pd_concat all_text_units in
       result <- lift_result (local_asearch eng query entities_df relationships_df text_units_df) ;;
       ret (mkSearchDict (sr_response result) (Some (sr_context_data result))
              (_extract_sources_from_context (sr_context_data result)))
   end)%comp.

(** The loading loop of [_global_search]. *)
Fixpoint load_global (arts : gmap string ArtifactDir) (file_ids : list string)
    (acc : list DataFrame * list DataFrame) : list DataFrame * list DataFrame :=
  match file_ids with
  | [] => acc
  | file_id :: rest =>
      match arts !! file_id with
      | None => load_global arts rest acc
      | Some artifacts_dir =>
          let '(all_communities, all_entities) := acc in
          load_global arts rest
            ((all_communities ++ found (create_final_community_reports artifacts_dir))%list,
             (all_entities ++ found (create_final_entities artifacts_dir))%list)
      end
  end.

Definition _global_search (eng : Engines) (query : string) (file_ids : list string)
  : M exn World SearchDict :=
  (w <- get_state ;;
   let '(all_communities, all_entities) :=
     load_global (artifacts w) file_ids ([], []) in
   match all_communities with
   | [] => ret (mkSearchDict "No community data found for global search." None [])
   | _ :: _ =>
       let communities_df := pd_concat all_communities in
       let entities_df := pd_concat all_entities in
       result <- lift_result (global_asearch eng query communities_df entities_df) ;;
       ret (mkSearchDict (sr_response result) (Some (sr_context_data result))
              (_extract_sources_from_context (sr_context_data result)))
   end)%comp.

(** [str(e)] of the [ValidationError] of pydantic for a [context_data] that
    is no dictionary. *)
Definition context_data_error : exn :=
  mkExn "ValidationError"
        ("1 validation error for GraphRAGQueryResult" ++ String "010"%char "context_data"
         ++ String "010"%char "  value is not a valid dict (type=type_error.dict)").

(** The [Dict[str, Any]] field of the result model: a dictionary passes, any
    other value passes only if [dict(v)] accepts it. *)
Definition validate_context_data (c : option context)
  : result exn (list (string * string)) :=
  match c with
  | None => Return []
  | Some (CtxDict items) => Return items
  | Some (CtxOther (Some items)) => Return items
  | Some (CtxOther None) => Raise context_data_error
  end.

(** [query_graph]; [start_time] and [end_time] are the two clock reads. *)
Definition query_graph (eng : Engines) (start_time end_time : Time)
    (query : string) (mode : ChatMode) (file_ids : list string)
  : M exn World GraphRAGQueryResult :=
  try_except
    (result <- match mode with
               | LOCAL => _local_search eng query file_ids
               | GLOBAL => _global_search eng query file_ids
               end ;;
     let processing_time := end_time - start_time in
     context_data <- lift_result (validate_context_data (sd_context result)) ;;
     ret (mkQueryResult (sd_response result) context_data (sd_sources result)
            processing_time mode))%comp
    (fun e : exn => raise (Exception ("Error querying graph: " ++ str e))).

End GraphRAGService.

(** ** The API handlers *)

(** [fastapi.HTTPException] *)
Record HTTPException := mkHTTPException {
  status_code : Z;
  detail : string
}.

(** An exception no handler catches leaves the request with a 500. *)
Definition unhandled {S A} (m : M exn S A) : M HTTPException S A :=
  try_except m (fun _ : exn => raise (mkHTTPException 500 "Internal Server Error")).

(** *** [app/api/indexing.py] *)

Module IndexingApi.

Definition get_indexing_status (now : Time) (file_id : string)
  : M HTTPException World IndexingProgress.t :=
  (file_metadata <- FileService.get_file_by_id file_id ;;
   match file_metadata with
   | None => raise (mkHTTPException 404 "File not found")
   | Some file_metadata =>
       progress <- unhandled (GraphRAGService.get_indexing_status file_id) ;;
       match progress with
       | Some progress => ret progress
       | None =>
           if String.eqb (FileMetadata.status file_metadata) "uploaded" then
             ret (IndexingProgress.mk file_id "uploaded" "waiting" 0 None None None None)
           else if String.eqb (FileMetadata.status file_metadata) "completed" then
             ret (IndexingProgress.mk file_id "completed" "finished" 100 None None None (Some now))
           else if String.eqb (FileMetadata.status file_metadata) "error" then
             ret (IndexingProgress.mk file_id "error" "failed" 0 None
                    (FileMetadata.error_message file_metadata) None None)
           else
             ret (IndexingProgress.mk file_id "unknown" "unknown" 0 None None None None)
       end
   end)%comp.

(** The body of the JSON answer of [cancel_indexing]. *)
Definition cancelled_content (file_id : string) : list (string * string) :=
  [("message", "Indexing cancelled"); ("file_id", file_id); ("status", "cancelled")].

Definition cancel_indexing (file_id : string)
  : M HTTPException World (list (string * string)) :=
  (file_metadata <- FileService.get_file_by_id file_id ;;
   match file_metadata with
   | None => raise (mkHTTPException 404 "File not found")
   | Some file_metadata =>
       if negb (String.eqb (FileMetadata.status file_metadata) "indexing") then
         raise (mkHTTPException 400
                  ("Cannot cancel indexing. File status: " ++ FileMetadata.status file_metadata))
       else
         try_except
           (FileService.update_file_status (E := exn) file_id "cancelled"
              [FileMetadata.kw_error_message (Some "Indexing cancelled by user")] ;;
            ret (cancelled_content file_id))
           (fun e : exn => raise (mkHTTPException 500 (str e)))
   end)%comp.

(** [JSONResponse(content=...)] renders its content with [json.dumps] when it
    is built. The dictionary of a progress record carries [started_at] and
    [completed_at] as [datetime] values, which [json.dumps] refuses. *)
Definition json_dumps_progress (p : IndexingProgress.t) : result exn unit :=
  match IndexingProgress.started_at p, IndexingProgress.completed_at p with
  | None, None => Return tt
  | _, _ => Raise (mkExn "TypeError" "Object of type datetime is not JSON serializable")
  end.

(** The JSON answer of [retry_indexing]. *)
Record Restarted := mkRestarted {
  restarted_message : string;
  restarted_file_id : string;
  restarted_status : string;
  restarted_progress : IndexingProgress.t
}.

Definition retry_indexing (now : Time) (file_id : string)
  : M HTTPException World Restarted :=
  (file_metadata <- FileService.get_file_by_id file_id ;;
   match file_metadata with
   | None => raise (mkHTTPException 404 "File not found")
   | Some file_metadata =>
       if negb (String.eqb (FileMetadata.status file_metadata) "error"
                || String.eqb (FileMetadata.status file_metadata) "cancelled") then
         raise (mkHTTPException 400
                  ("Cannot retry indexing. File status: " ++ FileMetadata.status file_metadata))
       else
         try_except
           (FileService.update_file_status (E := exn) file_id "indexing"
              [FileMetadata.kw_error_message None] ;;
            progress <- GraphRAGService.start_indexing now file_metadata ;;
            lift_result (json_dumps_progress progress) ;;
            ret (mkRestarted "Indexing restarted" file_id "indexing" progress))
           (fun e : exn =>
              FileService.update_file_status file_id "error"
                [FileMetadata.kw_error_message (Some (str e))] ;;
              raise (mkHTTPException 500 (str e)))
   end)%comp.

End IndexingApi.

(** *** [app/api/chat.py] *)

Module ChatQuery.
Record t := mk {
  message : string;
  mode : ChatMode;
  file_ids : list string;
  conversation_id : option string
}.
End ChatQuery.

Module ChatSource.
Record t := mk {
  file_id : string;
  filename : string;
  chunk_id : option string;
  relevance_score : option string
}.
End ChatSource.

Module ChatResponse.
Record t := mk {
  message_id : string;
  response : string;
  mode : ChatMode;
  sources : list ChatSource.t;
  processing_time : Z;
  conversation_id : string
}.
End ChatResponse.

Module ChatStreamChunk.
Record t := mk {
  chunk_id : string;
  content : string;
  is_final : bool;
  sources : list ChatSource.t;
  error : option string
}.
End ChatStreamChunk.

Module ChatApi.

(** What a request draws from outside: the search engines, the two clock
    reads around the search and the fresh identifiers. *)
Record Env := mkEnv {
  engines : Engines;
  start_time : Time;
  end_time : Time;
  message_uuid : string;
  conversation_uuid : string;
  chunk_uuid : string
}.

Definition is_local (m : ChatMode) : bool :=
  match m with
  | LOCAL => true
  | GLOBAL => false
  end.

(** The loop that keeps the listed files that exist and are completed. *)
Fixpoint valid_file_ids {E} (file_ids : list string) : M E World (list string) :=
  match file_ids with
  | [] => ret []
  | file_id :: rest =>
      (file_metadata <- FileService.get_file_by_id file_id ;;
       tail <- valid_file_ids rest ;;
       match file_metadata with
       | Some m =>
           if String.eqb (FileMetadata.status m) "completed"
           then ret (file_id :: tail) else ret tail
       | None => ret tail
       end)%comp
  end.

(** The list both handlers pass to [query_graph]:
    [valid_file_ids if query.mode == ChatMode.LOCAL else []]. *)
Definition dispatched_file_ids (m : ChatMode) (valid : list string) : list string :=
  if is_local m then valid else [].

(** The conversion of the sources of a result into [ChatSource] values. *)
Fixpoint convert_sources {E} (valid : list string)
    (sources : list (list (string * string))) : M E World (list ChatSource.t) :=
  match sources with
  | [] => ret []
  | source_data :: rest =>
      (source_file <- match valid with
                      | first :: _ => FileService.get_file_by_id first
                      | [] => ret None
                      end ;;
       let source :=
         ChatSource.mk
           (match valid with first :: _ => first | [] => "unknown" end)
           (match source_file with
            | Some f => FileMetadata.original_filename f
            | None => "unknown"
            end)
           (dict_get "chunk_id" source_data)
           (dict_get "score" source_data) in
       tail <- convert_sources valid rest ;;
       ret (source :: tail))%comp
  end.

(** [a or b] on an optional string. *)
Definition or_else (a : option string) (b : string) : string :=
  match a with
  | Some s => if String.eqb s "" then b else s
  | None => b
  end.

Definition chat_query (env : Env) (query : ChatQuery.t)
  : M HTTPException World ChatResponse.t :=
  if (is_local (ChatQuery.mode query)
      && bool_decide (ChatQuery.file_ids query = []))%bool then
    raise (mkHTTPException 400 "Local mode requires at least one file_id")
  else
    (valid <- valid_file_ids (ChatQuery.file_ids query) ;;
     if (is_local (ChatQuery.mode query) && bool_decide (valid = []))%bool then
       raise (mkHTTPException 400 "No valid completed files found for local search")
     else
       try_except
         (result <- GraphRAGService.query_graph (engines env) (start_time env) (end_time env)
                      (ChatQuery.message query) (ChatQuery.mode query)
                      (dispatched_file_ids (ChatQuery.mode query) valid) ;;
          sources <- convert_sources valid (sources result) ;;
          ret (ChatResponse.mk (message_uuid env) (response result) (ChatQuery.mode query)
                 sources (processing_time result)
                 (or_else (ChatQuery.conversation_id query) (conversation_uuid env))))
         (fun e : exn =>
            raise (mkHTTPException 500 ("Chat query failed: " ++ str e))))%comp.

(** The chunks [generate_stream] yields, in order. *)
Definition generate_stream (env : Env) (query : ChatQuery.t) (valid : list string)
    (w : World) : list ChatStreamChunk.t :=
  let chunk_id := chunk_uuid env in
  let failed (e : exn) := [ChatStreamChunk.mk chunk_id "" true [] (Some (str e))] in
  ChatStreamChunk.mk chunk_id "" false [] None
  :: match GraphRAGService.query_graph (engines env) (start_time env) (end_time env)
             (ChatQuery.message query) (ChatQuery.mode query)
             (dispatched_file_ids (ChatQuery.mode query) valid) w with
     | (Return result, w1) =>
         (List.map (fun chunk_text => ChatStreamChunk.mk chunk_id chunk_text false [] None)
                   (Text.slices 50 (response result))
          ++ match convert_sources (E := exn) valid (sources result) w1 with
             | (Return sources, _) => [ChatStreamChunk.mk chunk_id "" true sources None]
             | (Raise e, _) => failed e
             end)%list
     | (Raise e, _) => failed e
     end.

Definition chat_stream (env : Env) (query : ChatQuery.t)
  : M HTTPException World (list ChatStreamChunk.t) :=
  if (is_local (ChatQuery.mode query)
      && bool_decide (ChatQuery.file_ids query = []))%bool then
    raise (mkHTTPException 400 "Local mode requires at least one file_id")
  else
    (valid <- valid_file_ids (ChatQuery.file_ids query) ;;
     if (is_local (ChatQuery.mode query) && bool_decide (valid = []))%bool then
       raise (mkHTTPException 400 "No valid completed files found for local search")
     else
       w <- get_state ;;
       ret (generate_stream env query valid w))%comp.

End ChatApi.

(** ** The trace of a pipeline run *)

Module Trace.

Import GraphRAGService.

(** The record after [progress.current_step = step] and
    [progress.progress_percentage = percentage]. *)
Definition updated (u : string * Z) (p : IndexingProgress.t) : IndexingProgress.t :=
  IndexingProgress.set_progress_percentage u.2 (IndexingProgress.set_current_step u.1 p).

(** The record after a sequence of updates. *)
Definition after (us : list (string * Z)) (p : IndexingProgress.t) : IndexingProgress.t :=
  fold_left (fun p u => updated u p) us p.

(** The record the success branch leaves, and the one the handler leaves. *)
Definition completed_record (now : Time) (p : IndexingProgress.t) : IndexingProgress.t :=
  IndexingProgress.set_completed_at (Some now)
    (IndexingProgress.set_progress_percentage 100
       (IndexingProgress.set_status "completed" p)).

Definition failed_record (e : exn) (p : IndexingProgress.t) : IndexingProgress.t :=
  IndexingProgress.set_error_message (Some (str e)) (IndexingProgress.set_status "error" p).

(** The state [_update_progress step percentage] leaves. *)
Definition push (u : string * Z) (st : PState) : PState :=
  let p := updated u (progress st) in
  mkPState (write_status_file p (world st)) p.

Definition pushes (us : list (string * Z)) (st : PState) : PState :=
  fold_left (fun st u => push u st) us st.

(** The records a sequence of updates writes, starting from the record [p]. *)
Fixpoint records (us : list (string * Z)) (p : IndexingProgress.t)
  : list IndexingProgress.t :=
  match us with
  | [] => []
  | u :: rest => updated u p :: records rest (updated u p)
  end.

(** The updates [monitor_loop] pushes, in order. *)
Fixpoint monitor_updates (events : list stdout_event) (current_step : string)
  : list (string * Z) :=
  match events with
  | [] => []
  | Line line :: rest =>
      if String.eqb line "" then []
      else
        let current_step := next_step (Text.strip line) current_step in
        (match dict_get current_step step_progress with
         | Some percentage => [(current_step, percentage)]
         | None => []
         end ++ monitor_updates rest current_step)%list
  | Timeout true :: _ => []
  | Timeout false :: rest => monitor_updates rest current_step
  end.

(** The updates the [try] block pushes, in order, up to the point where it
    raises or completes. *)
Definition pipeline_updates (oc : Outcomes) : list (string * Z) :=
  ("preparing", 5)
  :: match config_file oc with
     | Raise _ => []
     | Return _ =>
         ("copying_file", 10)
         :: match input_dir_made oc, text_content oc, input_written oc with
            | Return _, Return _, Return _ =>
                ("chunking", 20)
                :: match subprocess oc with
                   | Raise _ => []
                   | Return process =>
                       (monitor_updates (stdout process) "chunking"
                        ++ (if Z.eqb (returncode process) 0
                            then [("finalizing", 95)] else []))%list
                   end
            | _, _, _ => []
            end
     end.

(** The (step, percentage) pairs the code pushes: the literal arguments of
    the calls in [_run_indexing_pipeline] around the table of the monitor. *)
Definition code_checkpoints : list (string * Z) :=
  ([("preparing", 5); ("copying_file", 10); ("chunking", 20)]
   ++ step_progress ++ [("finalizing", 95)])%list.

(** The checkpoints as the specification lists them. *)
Definition spec_checkpoints : list (string * Z) :=
  [("preparing", 5); ("copying_file", 10); ("chunking", 20);
   ("entity_extraction", 60); ("relationship_extraction", 80);
   ("community_detection", 90); ("finalizing", 95); ("completed", 100)].

(** The percentage of the keyword a line carries, by the same chain of tests
    as [next_step]; [None] for a line without a keyword. *)
Definition keyword_percentage (line_str : string) : option Z :=
  if Text.contains "entity" (Text.lower line_str) then Some 60
  else if Text.contains "relationship" (Text.lower line_str) then Some 80
  else if Text.contains "community" (Text.lower line_str) then Some 90
  else None.

(** The keyword percentages of the lines of a stream, in order. *)
Fixpoint line_percentages (events : list stdout_event) : list Z :=
  match events with
  | [] => []
  | Line line :: rest =>
      match keyword_percentage (Text.strip line) with
      | Some x => x :: line_percentages rest
      | None => line_percentages rest
      end
  | Timeout _ :: rest => line_percentages rest
  end.

Fixpoint nondecreasing (l : list Z) : bool :=
  match l with
  | x :: (y :: _) as rest => (Z.leb x y && nondecreasing rest)%bool
  | _ => true
  end.

Definition is_indexing (p : IndexingProgress.t) : bool :=
  String.eqb (IndexingProgress.status p) "indexing".

(** The percentages of the records written with status indexing. *)
Definition indexing_percentages (recs : list IndexingProgress.t) : list Z :=
  List.map IndexingProgress.progress_percentage (List.filter is_indexing recs).

(** The run of the task [start_indexing] created for [file_metadata], from
    the stores [w], on a working disk. *)
Definition indexing_run (oc : Outcomes) (now : Time) (file_metadata : FileMetadata.t)
    (w : World) : result exn unit * World :=
  run_task oc (mkTask file_metadata (initial_progress now file_metadata)) w.

(** The run ended normally with the message on the progress record and on
    the document record, both in status error. *)
Definition error_recorded (file_id msg : string) (out : result exn unit * World) : Prop :=
  out.1 = Return tt
  /\ exists p m,
       cache out.2 !! file_id = Some (Json p)
       /\ last (written out.2) = Some p
       /\ IndexingProgress.status p = "error"
       /\ IndexingProgress.error_message p = Some msg
       /\ files_data out.2 !! file_id = Some m
       /\ FileMetadata.status m = "error"
       /\ FileMetadata.error_message m = Some msg.

End Trace.

(** ** The pipeline task with the failures of its own operations

    [GraphRAGService] gives [_run_indexing_pipeline] for a task that has
    its output directory, on a disk that takes every write, for a child
    whose output decodes and ends. [Pipeline] gives the same functions
    without those conventions: the creation of the output directory, each
    write of the progress file and each use of the file service may raise, a
    read of the child's output may raise or yield bytes that do not decode,
    an awaited call may never return, and what is raised need not be an
    instance of [Exception]. The time-out of a read is the event [Expired];
    the exceptions given here are not instances of [asyncio.TimeoutError]. *)

Module Pipeline.

Import Text.

(** How a call ends when it gives no result. *)
Inductive signal :=
| Exc (e : exn)      (* an instance of Exception *)
| Base (e : exn)     (* a BaseException that is not one: CancelledError, KeyboardInterrupt *)
| Never.             (* the call never returns *)

(** One result of [asyncio.wait_for(process.stdout.readline(), timeout=1.0)]. *)
Inductive read :=
| Data (decoded : result exn string)   (* a line that is not empty, with what line.decode() gives *)
| Eof                                  (* the empty bytes: the stream is at its end *)
| Expired (exited : bool)              (* the time-out, with process.returncode is not None *)
| Broke (e : exn).                     (* readline raised, as on a line longer than the limit *)

(** The child process: its reads in order (after the last one every further
    read times out with the child still running), its exit code ([None] for
    a child that never exits), the decoded standard error (the empty text
    for no bytes) and what it does to the artifact directories. *)
Record Child := mkChild {
  reads : list read;
  exit_code : option Z;
  stderr_text : result exn string;
  child_leaves : gmap string ArtifactDir -> gmap string ArtifactDir
}.

(** What [open(status_file, 'w')] followed by [json.dump] does: the record is
    written, or [open] raises and the file stays as it was, or the write
    raises and leaves the file cut short. *)
Inductive save_outcome :=
| Saved
| NotOpened (e : exn)
| Broken (e : exn) (raw : string).

(** What one run meets: [file_output_dir.mkdir] before the [try], the write
    of a progress record in given stores, [FileService()] with its write of
    the metadata file in given stores, and the collaborators of the [try]
    block. *)
Record Environment := mkEnvironment {
  env_output_dir_made : result signal unit;
  env_save : IndexingProgress.t -> World -> save_outcome;
  env_file_service : World -> option exn;
  env_config_file : result signal string;
  env_input_dir_made : result signal unit;
  env_text_content : result signal string;
  env_input_written : result signal unit;
  env_subprocess : result signal Child;
  env_utcnow : Time
}.

(** [try: body  except Exception as e: handler e]: only an instance of
    [Exception] reaches the handler. *)
Definition try_except_Exception {S A} (body : M signal S A) (handler : exn -> M signal S A)
  : M signal S A :=
  fun s => match body s with
           | (Raise (Exc e), s') => handler e s'
           | out => out
           end.

(** [try: body  finally: fin] in a coroutine: the [finally] block of a body
    that never returns is never reached. *)
Definition try_finally_task {S A} (body : M signal S A) (fin : M signal S unit)
  : M signal S A :=
  fun s => match body s with
           | (Raise Never, s') => (Raise Never, s')
           | (r, s') =>
               match fin s' with
               | (Return _, s'') => (r, s'')
               | (Raise e, s'') => (Raise e, s'')
               end
           end.

(** The progress file of [file_id] cut short. *)
Definition break_status_file (file_id raw : string) (w : World) : World :=
  mkWorld (files_data w) (<[file_id := Garbled raw]> (cache w))
          (artifacts w) (written w) (tasks w).

Definition _save_progress (env : Environment) : M signal PState unit :=
  fun st =>
    match env_save env (progress st) (world st) with
    | Saved =>
        (Return tt, mkPState (write_status_file (progress st) (world st)) (progress st))
    | NotOpened e => (Raise (Exc e), st)
    | Broken e raw =>
        (Raise (Exc e),
         mkPState (break_status_file (IndexingProgress.file_id (progress st)) raw (world st))
                  (progress st))
    end.

Definition _update_progress (env : Environment) (step : string) (percentage : Z)
  : M signal PState unit :=
  (on_progress (IndexingProgress.set_current_step step) ;;
   on_progress (IndexingProgress.set_progress_percentage percentage) ;;
   _save_progress env)%comp.

(** The [while True] loop of [_monitor_indexing_process]. The [try] inside
    the loop catches the time-out only: a failed read, bytes that do not
    decode and a failed write of the progress file leave the loop as
    exceptions. *)
Fixpoint monitor_loop (env : Environment) (reads : list read) (current_step : string)
  : M signal PState unit :=
  match reads with
  | [] => raise Never
  | Data (Return text) :: rest =>
      let line_str := strip text in
      let current_step := GraphRAGService.next_step line_str current_step in
      ((match dict_get current_step GraphRAGService.step_progress with
        | Some percentage => _update_progress env current_step percentage
        | None => ret tt
        end) ;;
       monitor_loop env rest current_step)%comp
  | Data (Raise e) :: _ => raise (Exc e)
  | Eof :: _ => ret tt
  | Expired true :: _ => ret tt
  | Expired false :: rest => monitor_loop env rest current_step
  | Broke e :: _ => raise (Exc e)
  end.

(** [await process.wait()] *)
Definition process_wait (child : Child) : M signal PState Z :=
  match exit_code child with
  | Some return_code =>
      (on_world (modify (fun w => set_artifacts (child_leaves child (artifacts w)) w)) ;;
       ret return_code)%comp
  | None => raise Never
  end.

Definition _monitor_indexing_process (env : Environment) (child : Child)
  : M signal PState unit :=
  (monitor_loop env (reads child) "chunking" ;;
   return_code <- process_wait child ;;
   if Z.eqb return_code 0 then ret tt
   else
     match stderr_text child with
     | Return text =>
         let error_msg := if String.eqb text "" then "Unknown error" else text in
         raise (Exc (Exception ("GraphRAG indexing failed: " ++ error_msg)))
     | Raise e => raise (Exc e)
     end)%comp.

(** [FileService()] followed by [update_file_status]. *)
Definition update_file_status (env : Environment) (file_id status : string)
    (kwargs : list FileMetadata.kwarg) : M signal PState (option FileMetadata.t) :=
  fun st =>
    match env_file_service env (world st) with
    | Some e => (Raise (Exc e), st)
    | None => on_world (FileService.update_file_status file_id status kwargs) st
    end.

(** The body of the [try] block. *)
Definition pipeline_body (env : Environment) (file_metadata : FileMetadata.t)
  : M signal PState unit :=
  (let file_id := FileMetadata.id file_metadata in
   _update_progress env "preparing" 5 ;;
   config_file <- lift_result (env_config_file env) ;;
   _update_progress env "copying_file" 10 ;;
   lift_result (env_input_dir_made env) ;;
   text_content <- lift_result (env_text_content env) ;;
   lift_result (env_input_written env) ;;
   _update_progress env "chunking" 20 ;;
   process <- lift_result (env_subprocess env) ;;
   _monitor_indexing_process env process ;;
   _update_progress env "finalizing" 95 ;;
   st <- get_state ;;
   match artifacts (world st) !! file_id with
   | Some artifacts_dir =>
       let stats := GraphRAGService._calculate_indexing_stats artifacts_dir in
       on_progress (IndexingProgress.set_status "completed") ;;
       on_progress (IndexingProgress.set_progress_percentage 100) ;;
       on_progress (IndexingProgress.set_completed_at (Some (env_utcnow env))) ;;
       update_file_status env file_id "completed"
         (FileMetadata.kw_output_path (GraphRAGService.output_dir ++ "/" ++ file_id)
          :: stats) ;;
       ret tt
   | None => raise (Exc (Exception "Indexing completed but no artifacts found"))
   end)%comp.

(** The [except Exception as e] handler. *)
Definition pipeline_handler (env : Environment) (file_metadata : FileMetadata.t) (e : exn)
  : M signal PState unit :=
  (on_progress (IndexingProgress.set_status "error") ;;
   on_progress (IndexingProgress.set_error_message (Some (str e))) ;;
   update_file_status env (FileMetadata.id file_metadata) "error"
     [FileMetadata.kw_error_message (Some (str e))] ;;
   ret tt)%comp.

(** [_run_indexing_pipeline]: the directory is made before the [try]. *)
Definition _run_indexing_pipeline (env : Environment) (file_metadata : FileMetadata.t)
  : M signal PState unit :=
  (lift_result (env_output_dir_made env) ;;
   try_finally_task
     (try_except_Exception (pipeline_body env file_metadata)
                           (pipeline_handler env file_metadata))
     (_save_progress env))%comp.

(** The event loop runs a created task. What the task raises goes to the
    task object, which no code awaits. *)
Definition run_task (env : Environment) (t : Task) (w : World)
  : result signal unit * World :=
  let '(r, st) := _run_indexing_pipeline env (task_file t) (mkPState w (task_progress t)) in
  (r, world st).

(** The run of the task [start_indexing] created for [file_metadata]. *)
Definition indexing_run (env : Environment) (now : Time) (file_metadata : FileMetadata.t)
    (w : World) : result signal unit * World :=
  run_task env (mkTask file_metadata (GraphRAGService.initial_progress now file_metadata)) w.

(** The run ended normally with the message on the progress record and on
    the document record, both in status error. *)
Definition error_recorded (file_id msg : string) (out : result signal unit * World) : Prop :=
  out.1 = Return tt
  /\ exists p m,
       cache out.2 !! file_id = Some (Json p)
       /\ last (written out.2) = Some p
       /\ IndexingProgress.status p = "error"
       /\ IndexingProgress.error_message p = Some msg
       /\ files_data out.2 !! file_id = Some m
       /\ FileMetadata.status m = "error"
       /\ FileMetadata.error_message m = Some msg.

(** *** The run on a working disk *)

(** A result of [GraphRAGService] as a result here. *)
Definition lift_out {A S} (out : result exn A * S) : result signal A * S :=
  match out with
  | (Return a, s) => (Return a, s)
  | (Raise e, s) => (Raise (Exc e), s)
  end.

(** The computation [c] does what [c'] of [GraphRAGService] does. *)
Definition same {A S} (c : M signal S A) (c' : M exn S A) : Prop :=
  forall s, c s = lift_out (c' s).

(** A call that returns or raises an instance of [Exception]. *)
Definition calm {A} (r : result signal A) : Prop :=
  match r with
  | Return _ | Raise (Exc _) => True
  | Raise _ => False
  end.

Definition settle {A} (r : result signal A) : result exn A :=
  match r with
  | Return a => Return a
  | Raise (Exc e) | Raise (Base e) => Raise e
  | Raise Never => Raise (mkExn "" "")
  end.

(** Reads that end the loop normally: up to the first end of the stream, or
    the first time-out that finds the child exited, every line decodes to a
    text that is not empty and no read raises. *)
Fixpoint clean (reads : list read) : bool :=
  match reads with
  | [] => false
  | Data (Return text) :: rest => (negb (String.eqb text "") && clean rest)%bool
  | Data (Raise _) :: _ => false
  | Eof :: _ => true
  | Expired true :: _ => true
  | Expired false :: rest => clean rest
  | Broke _ :: _ => false
  end.

Definition event_of (r : read) : stdout_event :=
  match r with
  | Data (Return text) => Line text
  | Expired exited => Timeout exited
  | _ => Line ""
  end.

Definition process_of (child : Child) : Process :=
  mkProcess (List.map event_of (reads child))
            (match exit_code child with Some code => code | None => 0 end)
            (match stderr_text child with Return text => text | Raise _ => "" end)
            (child_leaves child).

(** The collaborators as [GraphRAGService] takes them. *)
Definition outcomes_of (env : Environment) : Outcomes :=
  mkOutcomes (settle (env_config_file env)) (settle (env_input_dir_made env))
             (settle (env_text_content env)) (settle (env_input_written env))
             (match env_subprocess env with
              | Return child => Return (process_of child)
              | Raise s => settle (Raise s)
              end)
             (env_utcnow env).

(** The child's output ends cleanly, the child exits, and its standard
    error decodes when it is read. *)
Definition child_ends (child : Child) : Prop :=
  clean (reads child) = true
  /\ match exit_code child with
     | Some code => code = 0 \/ exists text, stderr_text child = Return text
     | None => False
     end.

(** The conventions of [GraphRAGService]: the directory is made, every write
    succeeds, every call returns or raises an instance of [Exception], and
    the child ends. *)
Definition working (env : Environment) : Prop :=
  env_output_dir_made env = Return tt
  /\ (forall p w, env_save env p w = Saved)
  /\ (forall w, env_file_service env w = None)
  /\ calm (env_config_file env) /\ calm (env_input_dir_made env)
  /\ calm (env_text_content env) /\ calm (env_input_written env)
  /\ match env_subprocess env with
     | Return child => child_ends child
     | Raise (Exc _) => True
     | Raise _ => False
     end.

(** *** Reasoning about a run that may fail *)

(** From a state that satisfies [pre], [c] ends in a result and a state that
    satisfy [post]. *)
Definition holds {A} (pre : PState -> Prop) (c : M signal PState A)
    (post : result signal A -> PState -> Prop) : Prop :=
  forall st, pre st -> post (c st).1 (c st).2.

(** A progress record in one of the two final statuses. *)
Definition terminal (p : IndexingProgress.t) : Prop :=
  IndexingProgress.status p = "completed" \/ IndexingProgress.status p = "error".

(** The registry and the file the progress object names. *)
Definition kept (f0 : gmap string FileMetadata.t) (file_id : string) (st : PState) : Prop :=
  files_data (world st) = f0 /\ IndexingProgress.file_id (progress st) = file_id.

(** [c] keeps the registry and the progress object's file, however it ends. *)
Definition keeps {A} (c : M signal PState A) : Prop :=
  forall f0 file_id, holds (kept f0 file_id) c (fun _ => kept f0 file_id).

(** The [try] block ended with the success branch done. *)
Definition done (file_id : string) (st : PState) : Prop :=
  IndexingProgress.file_id (progress st) = file_id
  /\ IndexingProgress.status (progress st) = "completed"
  /\ IndexingProgress.progress_percentage (progress st) = 100
  /\ exists m, files_data (world st) !! file_id = Some m
               /\ FileMetadata.status m = "completed".

(** A read after which the loop goes on: a line that decodes, or a time-out
    that finds the child running. *)
Definition readable (r : read) : bool :=
  match r with
  | Data (Return _) | Expired false => true
  | _ => false
  end.

(** The exception of a read that fails, or whose bytes do not decode. *)
Definition read_error (r : read) : option exn :=
  match r with
  | Data (Raise e) | Broke e => Some e
  | _ => None
  end.

(** The environment in which the collaborators do what [oc] says and
    nothing of the service's own fails. *)
Definition of_outcomes (oc : Outcomes) : Environment :=
  let up {A} (r : result exn A) : result signal A :=
    match r with Return a => Return a | Raise e => Raise (Exc e) end in
  mkEnvironment (Return tt) (fun _ _ => Saved) (fun _ => None)
    (up (config_file oc)) (up (input_dir_made oc)) (up (text_content oc))
    (up (input_written oc))
    (match subprocess oc with
     | Return process =>
         Return (mkChild
                   (List.map (fun ev => match ev with
                                        | Line "" => Eof
                                        | Line line => Data (Return line)
                                        | Timeout exited => Expired exited
                                        end) (stdout process)
                    ++ [Eof])
                   (Some (returncode process)) (Return (stderr process))
                   (leaves process))
     | Raise e => Raise (Exc e)
     end)
    (utcnow oc).

End Pipeline.

(** ** Python built-ins used by the remaining code *)

Module Py.

(** [s[n:]] *)
Fixpoint str_drop (n : nat) (s : string) : string :=
  match n, s with
  | O, _ => s
  | S n', EmptyString => EmptyString
  | S n', String _ r => str_drop n' r
  end.

(** ["".join(parts)] *)
Definition join (parts : list string) : string :=
  fold_right String.append EmptyString parts.

(** [l[start:stop]] for integers of either sign. *)
Definition slice {A} (start stop : Z) (l : list A) : list A :=
  let n := Z.of_nat (List.length l) in
  let clamp i := if Z.ltb i 0 then Z.max 0 (i + n) else Z.min i n in
  List.firstn (Z.to_nat (clamp stop - clamp start)) (List.skipn (Z.to_nat (clamp start)) l).

(** One step of a stable sort in descending order of [key]: [x] goes before
    the first element whose key is not above its own. *)
Fixpoint insert_desc {A} (key : A -> Z) (x : A) (l : list A) : list A :=
  match l with
  | [] => [x]
  | y :: rest => if Z.ltb (key x) (key y) then y :: insert_desc key x rest else x :: l
  end.

(** [sorted(l, key=key, reverse=True)]: descending, elements of equal key in
    their original order. *)
Definition sorted_desc {A} (key : A -> Z) (l : list A) : list A :=
  fold_right (insert_desc key) [] l.

End Py.

(** ** Validators of [app/models/chat.py] *)

Module ChatModels.

(** [ChatQuery.validate_message] *)
Definition validate_message (v : string) : result exn string :=
  if (String.eqb v "" || Nat.eqb (String.length (Text.strip v)) 0)%bool then
    Raise (mkExn "ValueError" "Message cannot be empty")
  else if Nat.ltb 2000 (String.length v) then
    Raise (mkExn "ValueError" "Message too long (max 2000 characters)")
  else Return (Text.strip v).

(** [ChatQuery.validate_file_ids]; [mode] is [values.get('mode')]. *)
Definition validate_file_ids (v : list string) (mode : option ChatMode)
  : result exn (list string) :=
  match mode, v with
  | Some LOCAL, [] => Raise (mkExn "ValueError" "Local mode requires at least one file_id")
  | _, _ => Return v
  end.

(** [ChatQuery(message=..., mode=..., file_ids=..., conversation_id=...)]:
    the validators run in the order of the fields and the errors of all
    fields are reported together. A validator runs on a supplied value only:
    when [file_ids] is left out ([None] here) the field takes its default
    [[]] unchecked. *)
Definition make_chat_query (message : string) (mode : ChatMode)
    (file_ids : option (list string)) (conversation_id : option string)
  : result (list exn) ChatQuery.t :=
  let checked_ids :=
    match file_ids with
    | Some v => validate_file_ids v (Some mode)
    | None => Return []
    end in
  match validate_message message, checked_ids with
  | Return m, Return ids => Return (ChatQuery.mk m mode ids conversation_id)
  | Raise e, Return _ => Raise [e]
  | Return _, Raise e => Raise [e]
  | Raise e1, Raise e2 => Raise [e1; e2]
  end.

End ChatModels.

(** The test of the validation loops of the chat and graph handlers:
    [file_metadata and file_metadata.status == "completed"]. *)
Definition is_completed (w : World) (file_id : string) : bool :=
  match files_data w !! file_id with
  | Some m => String.eqb (FileMetadata.status m) "completed"
  | None => false
  end.

(** ** The remaining operations of [app/services/file_service.py] *)

(** [get_file_list]. The argument [all_files] is [list(files_data.values())]:
    the stored records in the order of the metadata file. The stored upload
    dates are compared as the dates they stand for. *)
Module FileCatalog.

Record Listing := mkListing {
  files : list FileMetadata.t;
  total : Z;
  page : Z;
  per_page : Z;
  total_pages : Z
}.

(** The records the listing is cut from: filtered by status when a
    non-empty filter is given, then newest first. *)
Definition listed (all_files : list FileMetadata.t) (status_filter : option string)
  : list FileMetadata.t :=
  let all_files :=
    match status_filter with
    | Some f =>
        if String.eqb f "" then all_files
        else List.filter (fun m => String.eqb (FileMetadata.status m) f) all_files
    | None => all_files
    end in
  Py.sorted_desc FileMetadata.upload_date all_files.

Definition get_file_list (all_files : list FileMetadata.t) (page per_page : Z)
    (status_filter : option string) : result exn Listing :=
  let all_files := listed all_files status_filter in
  let total := Z.of_nat (List.length all_files) in
  let start_idx := (page - 1) * per_page in
  let end_idx := start_idx + per_page in
  let page_files := Py.slice start_idx end_idx all_files in
  if Z.eqb per_page 0 then
    Raise (mkExn "ZeroDivisionError" "integer division or modulo by zero")
  else
    Return (mkListing page_files total page per_page ((total + per_page - 1) / per_page)).

(** The files of one page; empty when the call raises. *)
Definition page_files (all_files : list FileMetadata.t) (page per_page : Z)
    (status_filter : option string) : list FileMetadata.t :=
  match get_file_list all_files page per_page status_filter with
  | Return listing => files listing
  | Raise _ => []
  end.

End FileCatalog.

(** What the file operations take from libraries and from the outside:
    [Path(p).suffix], [magic.from_buffer], a fresh [uuid4], the clock, the
    exception pydantic raises for a list of validator messages, [str(e)] of
    an [HTTPException], and the three readers of file content. *)
Record Platform := mkPlatform {
  path_suffix : string -> string;
  magic_from_buffer : string -> result exn string;
  uuid4 : string;
  upload_time : Time;
  validation_error : list string -> exn;
  http_str : HTTPException -> string;
  read_utf8 : string -> result exn string;
  pdf_pages : string -> result exn (list string);
  docx_paragraphs : string -> result exn (list string)
}.

(** [fastapi.UploadFile] *)
Module UploadFile.
Record t := mk {
  filename : string;
  size : option Z;
  content_type : option string;
  content : string
}.
End UploadFile.

(** The stores together with the upload directory: the content of each
    stored file under its path. *)
Record Disk := mkDisk {
  disk_world : World;
  uploads : gmap string string
}.

Definition in_world {E A} (m : M E World A) : M E Disk A :=
  fun d => let '(r, w) := m (disk_world d) in (r, mkDisk w (uploads d)).

(** An exception of either kind, as [extract_text_content] raises them. *)
Inductive raised :=
| Plain (e : exn)
| Http (h : HTTPException).

Module FileStore.

Definition upload_max_size : Z := 104857600.
Definition upload_dir : string := "data/uploads".

Definition SUPPORTED_FILE_TYPES : list (string * list string) :=
  [("text/plain", [".txt"]);
   ("application/pdf", [".pdf"]);
   ("application/vnd.openxmlformats-officedocument.wordprocessingml.document", [".docx"]);
   ("application/msword", [".doc"])].

Definition allowed_extensions : list string :=
  List.flat_map snd SUPPORTED_FILE_TYPES.

Definition is_supported_type (mime : string) : bool :=
  List.existsb (fun entry => String.eqb mime (fst entry)) SUPPORTED_FILE_TYPES.

Definition is_allowed_extension (ext : string) : bool :=
  List.existsb (String.eqb ext) allowed_extensions.

(** The block that checks the MIME type: what it raises, before the bare
    [except: pass] around the detection. *)
Definition detect_type (pf : Platform) (file : UploadFile.t) : result raised unit :=
  match magic_from_buffer pf (Text.take 1024 (UploadFile.content file)) with
  | Return detected_mime =>
      if is_supported_type detected_mime then Return tt
      else Raise (Http (mkHTTPException 400
                          ("File MIME type " ++ detected_mime ++ " not supported")))
  | Raise e => Raise (Plain e)
  end.

Definition _validate_file (pf : Platform) (file : UploadFile.t) : result HTTPException unit :=
  if match UploadFile.size file with
     | Some s => (negb (Z.eqb s 0) && Z.ltb upload_max_size s)%bool
     | None => false
     end
  then Raise (mkHTTPException 413 "File too large. Max size: 104857600 bytes")
  else
    let file_extension := Text.lower (path_suffix pf (UploadFile.filename file)) in
    if negb (is_allowed_extension file_extension) then
      Raise (mkHTTPException 400
               ("File type " ++ file_extension
                ++ " not supported. Allowed: ['.txt', '.pdf', '.docx', '.doc']"))
    else
      match UploadFile.content_type file with
      | Some ct =>
          if (negb (String.eqb ct "") && negb (is_supported_type ct))%bool then
            match detect_type pf file with
            | Return _ => Return tt
            | Raise _ => Return tt
            end
          else Return tt
      | None => Return tt
      end.

(** [FileMetadata(...)] as [upload_file] calls it: the two validators of the
    model, and the required string [content_type]. The messages of all
    failing fields go into one exception. *)
Definition new_file_metadata (pf : Platform) (id filename original_filename : string)
    (size : Z) (content_type : option string) (upload_date : Time)
    (status file_path : string) : result exn FileMetadata.t :=
  let errors :=
    ((if (String.eqb filename "" || Nat.eqb (String.length (Text.strip filename)) 0)%bool
      then ["Filename cannot be empty"] else [])
     ++ (if Z.leb size 0 then ["File size must be positive"] else [])
     ++ (match content_type with
         | Some _ => []
         | None => ["none is not an allowed value"]
         end))%list in
  match errors, content_type with
  | [], Some ct =>
      Return (FileMetadata.mk id (Text.strip filename) original_filename size ct
                upload_date status None None None None None file_path None)
  | _, _ => Raise (validation_error pf errors)
  end.

Definition write_file (path content : string) : M exn Disk unit :=
  modify (fun d => mkDisk (disk_world d) (<[path := content]> (uploads d))).

(** [if file_path.exists(): file_path.unlink()] *)
Definition unlink_if_exists {E} (path : string) : M E Disk unit :=
  modify (fun d => mkDisk (disk_world d) (delete path (uploads d))).

Definition _save_metadata {E} (file_metadata : FileMetadata.t) : M E World unit :=
  (files_data <- FileService._load_metadata ;;
   FileService._save_metadata_dict
     (<[FileMetadata.id file_metadata := file_metadata]> files_data))%comp.

Definition upload_file (pf : Platform) (file : UploadFile.t)
  : M HTTPException Disk FileMetadata.t :=
  match _validate_file pf file with
  | Raise h => raise h
  | Return _ =>
      let file_id := uuid4 pf in
      let file_extension := path_suffix pf (UploadFile.filename file) in
      let stored_filename := file_id ++ file_extension in
      let file_path := upload_dir ++ "/" ++ stored_filename in
      try_except
        (let content := UploadFile.content file in
         write_file file_path content ;;
         file_metadata <-
           lift_result
             (new_file_metadata pf file_id stored_filename (UploadFile.filename file)
                (Z.of_nat (String.length content)) (UploadFile.content_type file)
                (upload_time pf) "uploaded" file_path) ;;
         in_world (_save_metadata file_metadata) ;;
         ret file_metadata)%comp
        (fun e : exn =>
           unlink_if_exists file_path ;;
           raise (mkHTTPException 500 ("Error saving file: " ++ str e)))%comp
  end.

Definition delete_file (file_id : string) : M HTTPException Disk bool :=
  (file_metadata <- in_world (FileService.get_file_by_id file_id) ;;
   match file_metadata with
   | None => ret false
   | Some file_metadata =>
       try_except
         (unlink_if_exists (E := exn) (FileMetadata.file_path file_metadata) ;;
          in_world (modify (fun w => set_artifacts (delete file_id (artifacts w)) w)) ;;
          in_world
            (files_data <- FileService._load_metadata ;;
             match files_data !! file_id with
             | Some _ => FileService._save_metadata_dict (delete file_id files_data)
             | None => ret tt
             end) ;;
          ret true)
         (fun e : exn =>
            raise (mkHTTPException 500 ("Error deleting file: " ++ str e)))
   end)%comp.

(** [_extract_pdf_text] and [_extract_docx_text]: the pieces, each followed
    by a line feed, put together and stripped; any failure becomes a
    [ValueError]. *)
Definition lines_text (pieces : list string) : string :=
  Text.strip (Py.join (List.map (fun piece => piece ++ String "010"%char EmptyString) pieces)).

Definition _extract_pdf_text (pf : Platform) (content : string) : result exn string :=
  match pdf_pages pf content with
  | Return pages => Return (lines_text pages)
  | Raise e => Raise (mkExn "ValueError" ("Error reading PDF: " ++ str e))
  end.

Definition _extract_docx_text (pf : Platform) (content : string) : result exn string :=
  match docx_paragraphs pf content with
  | Return paragraphs => Return (lines_text paragraphs)
  | Raise e => Raise (mkExn "ValueError" ("Error reading DOCX: " ++ str e))
  end.

Definition extract_text_content (pf : Platform) (stored : gmap string string)
    (file_metadata : FileMetadata.t) : result raised string :=
  let file_path := FileMetadata.file_path file_metadata in
  match stored !! file_path with
  | None => Raise (Plain (mkExn "FileNotFoundError" ("File not found: " ++ file_path)))
  | Some content =>
      let file_extension := Text.lower (path_suffix pf file_path) in
      let body : result exn string :=
        if String.eqb file_extension ".txt" then read_utf8 pf content
        else if String.eqb file_extension ".pdf" then _extract_pdf_text pf content
        else if (String.eqb file_extension ".docx" || String.eqb file_extension ".doc")%bool
        then _extract_docx_text pf content
        else Raise (mkExn "ValueError" ("Unsupported file type: " ++ file_extension)) in
      match body with
      | Return text => Return text
      | Raise e =>
          Raise (Http (mkHTTPException 500 ("Error extracting text: " ++ str e)))
      end
  end.

End FileStore.

(** ** [app/api/files.py] *)

Module FilesApi.

(** [_start_indexing_background]; the inner [try] with its bare [except]
    guards the write of the error status. *)
Definition _start_indexing_background (now : Time) (file_id : string) : M exn World unit :=
  try_except
    (file_metadata <- FileService.get_file_by_id file_id ;;
     match file_metadata with
     | None => raise (Exception "File not found")
     | Some file_metadata =>
         FileService.update_file_status file_id "indexing" [] ;;
         progress <- GraphRAGService.start_indexing now file_metadata ;;
         ret tt
     end)%comp
    (fun e : exn =>
       try_except
         (FileService.update_file_status (E := exn) file_id "error"
            [FileMetadata.kw_error_message (Some (str e))] ;;
          ret tt)%comp
         (fun _ : exn => ret tt)).

(** The body of the answer of [reindex_file], and the background jobs the
    request leaves to run after the answer (the file ids handed to
    [_start_indexing_background]). *)
Definition reindex_file (file_id : string)
  : M HTTPException World (list (string * string) * list string) :=
  (file_metadata <- FileService.get_file_by_id file_id ;;
   match file_metadata with
   | None => raise (mkHTTPException 404 "File not found")
   | Some _ =>
       FileService.update_file_status file_id "indexing"
         [FileMetadata.kw_error_message None] ;;
       ret ([("message", "Reindexing started"); ("file_id", file_id);
             ("status", "indexing")], [file_id])
   end)%comp.

Record FileUploadResponse := mkFileUploadResponse {
  fur_file_id : string;
  fur_filename : string;
  fur_size : Z;
  fur_status : string;
  fur_upload_date : Time;
  fur_message : string
}.

(** [upload_file] of the API: every exception of the service, its own
    HTTP errors included, is answered with status 400. *)
Definition upload_file (pf : Platform) (file : UploadFile.t)
  : M HTTPException Disk (FileUploadResponse * list string) :=
  try_except
    (file_metadata <- FileStore.upload_file pf file ;;
     ret (mkFileUploadResponse (FileMetadata.id file_metadata)
            (FileMetadata.original_filename file_metadata)
            (FileMetadata.size file_metadata) (FileMetadata.status file_metadata)
            (FileMetadata.upload_date file_metadata)
            "File uploaded successfully. Indexing started.",
          [FileMetadata.id file_metadata]))%comp
    (fun h : HTTPException => raise (mkHTTPException 400 (http_str pf h))).

Record FileDeleteResponse := mkFileDeleteResponse {
  fdr_file_id : string;
  fdr_filename : string;
  fdr_deleted : bool;
  fdr_message : string
}.

(** [delete_file] of the API; the [raise] for a false result sits inside the
    [try] and is caught by its [except] like any other exception. *)
Definition delete_file (pf : Platform) (file_id : string)
  : M HTTPException Disk FileDeleteResponse :=
  (file_metadata <- in_world (FileService.get_file_by_id file_id) ;;
   match file_metadata with
   | None => raise (mkHTTPException 404 "File not found")
   | Some file_metadata =>
       try_except
         (success <- FileStore.delete_file file_id ;;
          if success : bool then
            ret (mkFileDeleteResponse file_id (FileMetadata.original_filename file_metadata)
                   true "File deleted successfully")
          else raise (mkHTTPException 500 "Failed to delete file"))
         (fun h : HTTPException => raise (mkHTTPException 500 (http_str pf h)))
   end)%comp.

End FilesApi.

(** ** Graph data ([app/models/graph.py], [get_graph_data], [app/api/graph.py]) *)

(** The models, by the fields the code below reads or sets from the tables;
    the layout coordinates, the attribute dictionaries, the weights and the
    embeddings are left out. *)
Module Entity.
Record t := mk {
  id : string;
  name : string;
  type : string;
  description : option string;
  degree : Z;
  community_id : option string
}.
End Entity.

Module Relationship.
Record t := mk {
  id : string;
  source_id : string;
  target_id : string;
  relationship_type : string;
  description : option string
}.
End Relationship.

Module Community.
Record t := mk {
  id : string;
  title : string;
  description : option string;
  level : Z;
  size : Z
}.
End Community.

Module TextChunk.
Record t := mk {
  id : string;
  text : string;
  file_id : string;
  start_index : Z;
  end_index : Z
}.
End TextChunk.

Module GraphData.
Record t := mk {
  entities : list Entity.t;
  relationships : list Relationship.t;
  communities : list Community.t;
  chunks : list TextChunk.t;
  generated_at : Time
}.
End GraphData.

(** How a row of each table becomes a model: the calls [Entity(...)],
    [Relationship(...)], [Community(...)] and [TextChunk(...)] with their
    conversions of the cells, which may raise. *)
Record Decoders := mkDecoders {
  entity_of_row : Row -> result exn Entity.t;
  relationship_of_row : Row -> result exn Relationship.t;
  community_of_row : Row -> result exn Community.t;
  chunk_of_row : string -> Row -> result exn TextChunk.t
}.

Module GraphService.

(** One [for _, row in df.iterrows()] loop: the models of the rows appended
    in order, up to the first row that raises. *)
Fixpoint append_rows {A} (decode : Row -> result exn A) (rows : list Row) (acc : list A)
  : result exn (list A) :=
  match rows with
  | [] => Return acc
  | row :: rest =>
      match decode row with
      | Return a => append_rows decode rest (acc ++ [a])
      | Raise e => Raise e
      end
  end.

(** A table that does not exist is passed over. *)
Definition append_table {A} (decode : Row -> result exn A) (table : option DataFrame)
    (acc : list A) : result exn (list A) :=
  match table with
  | Some df => append_rows decode df acc
  | None => Return acc
  end.

Definition Acc : Type :=
  list Entity.t * list Relationship.t * list Community.t * list TextChunk.t.

(** The body of the loop over the files for one file that has a directory. *)
Definition load_file (dec : Decoders) (file_id : string) (dir : ArtifactDir) (acc : Acc)
  : result exn Acc :=
  let '(entities, relationships, communities, chunks) := acc in
  match append_table (entity_of_row dec) (create_final_entities dir) entities with
  | Raise e => Raise e
  | Return entities =>
      match append_table (relationship_of_row dec) (create_final_relationships dir)
              relationships with
      | Raise e => Raise e
      | Return relationships =>
          match append_table (community_of_row dec) (create_final_communities dir)
                  communities with
          | Raise e => Raise e
          | Return communities =>
              match append_table (chunk_of_row dec file_id) (create_final_text_units dir)
                      chunks with
              | Raise e => Raise e
              | Return chunks => Return (entities, relationships, communities, chunks)
              end
          end
      end
  end.

Fixpoint load_files (dec : Decoders) (dirs : gmap string ArtifactDir)
    (file_ids : list string) (acc : Acc) : result exn Acc :=
  match file_ids with
  | [] => Return acc
  | file_id :: rest =>
      match dirs !! file_id with
      | None => load_files dec dirs rest acc
      | Some dir =>
          match load_file dec file_id dir acc with
          | Return acc' => load_files dec dirs rest acc'
          | Raise e => Raise e
          end
      end
  end.

(** [get_graph_data]; [dirs] are the directories [output_dir/<file_id>/artifacts]
    this function looks into. *)
Definition get_graph_data (dec : Decoders) (dirs : gmap string ArtifactDir) (now : Time)
    (file_ids : list string) : result exn GraphData.t :=
  match load_files dec dirs file_ids ([], [], [], []) with
  | Return (entities, relationships, communities, chunks) =>
      Return (GraphData.mk entities relationships communities chunks now)
  | Raise e => Raise e
  end.

End GraphService.

Module GraphApi.

(** The validation loop of [get_graph_data]: an unknown file stops the
    request, a file that is not completed is passed over. *)
Fixpoint known_completed (file_ids : list string) (valid : list string)
  : M HTTPException World (list string) :=
  match file_ids with
  | [] => ret valid
  | file_id :: rest =>
      (file_metadata <- FileService.get_file_by_id file_id ;;
       match file_metadata with
       | Some m =>
           if String.eqb (FileMetadata.status m) "completed"
           then known_completed rest (valid ++ [file_id])
           else known_completed rest valid
       | None => raise (mkHTTPException 404 ("File not found: " ++ file_id))
       end)%comp
  end.

Definition get_graph_data (dec : Decoders) (dirs : gmap string ArtifactDir) (now : Time)
    (file_ids : list string) (include_chunks : bool)
  : M HTTPException World GraphData.t :=
  (valid_file_ids <- known_completed file_ids [] ;;
   match valid_file_ids with
   | [] => raise (mkHTTPException 400 "No valid completed files found")
   | _ :: _ =>
       match GraphService.get_graph_data dec dirs now valid_file_ids with
       | Return graph_data =>
           if include_chunks then ret graph_data
           else ret (GraphData.mk (GraphData.entities graph_data)
                       (GraphData.relationships graph_data)
                       (GraphData.communities graph_data) [] (GraphData.generated_at graph_data))
       | Raise e => raise (mkHTTPException 500 ("Error getting graph data: " ++ str e))
       end
   end)%comp.

(** The score of an entity for the lower-cased query: two for the name, one
    for a description that is there and not empty. *)
Definition score (query_lower : string) (entity : Entity.t) : Z :=
  (if Text.contains query_lower (Text.lower (Entity.name entity)) then 2 else 0)
  + match Entity.description entity with
    | Some d =>
        if (negb (String.eqb d "") && Text.contains query_lower (Text.lower d))%bool
        then 1 else 0
    | None => 0
    end.

(** [entity_types and entity.type not in entity_types] *)
Definition type_excluded (entity_types : option (list string)) (entity : Entity.t) : bool :=
  match entity_types with
  | Some (t :: ts) => negb (List.existsb (String.eqb (Entity.type entity)) (t :: ts))
  | _ => false
  end.

(** The loop over the entities of [search_graph]. *)
Definition matching (query : string) (entity_types : option (list string))
    (entities : list Entity.t) : list (Entity.t * Z) :=
  let query_lower := Text.lower query in
  List.flat_map
    (fun entity =>
       if type_excluded entity_types entity then []
       else
         let s := score query_lower entity in
         if Z.ltb 0 s then [(entity, s)] else [])
    entities.

Definition touches (ids : list string) (rel : Relationship.t) : bool :=
  (List.existsb (String.eqb (Relationship.source_id rel)) ids
   || List.existsb (String.eqb (Relationship.target_id rel)) ids)%bool.

Record SearchContent := mkSearchContent {
  sc_query : string;
  sc_total_matches : Z;
  sc_entities : list (Entity.t * Z);
  sc_relationships : list Relationship.t;
  sc_file_ids : list string
}.

Definition search_graph (dec : Decoders) (dirs : gmap string ArtifactDir) (now : Time)
    (query : string) (file_ids : list string) (entity_types : option (list string))
    (limit : Z) : M HTTPException World SearchContent :=
  (valid_file_ids <- ChatApi.valid_file_ids file_ids ;;
   match valid_file_ids with
   | [] => raise (mkHTTPException 400 "No valid completed files found")
   | _ :: _ =>
       match GraphService.get_graph_data dec dirs now valid_file_ids with
       | Return graph_data =>
           let matching_entities :=
             matching query entity_types (GraphData.entities graph_data) in
           let matching_entities := Py.sorted_desc snd matching_entities in
           let matching_entities :=
             Py.slice 0 limit matching_entities in
           let entity_ids := List.map (fun item => Entity.id (fst item)) matching_entities in
           let related_relationships :=
             List.filter (touches entity_ids) (GraphData.relationships graph_data) in
           ret (mkSearchContent query (Z.of_nat (List.length matching_entities))
                  matching_entities related_relationships valid_file_ids)
       | Raise e => raise (mkHTTPException 500 ("Error searching graph: " ++ str e))
       end
   end)%comp.

(** The filtering block of [export_graph]: with a non-empty list of types
    only the entities of those types are kept, and only the relationships
    between kept entities; then the chunks are dropped unless asked for. *)
Definition export_filter (filter_entities : option (list string)) (include_chunks : bool)
    (graph_data : GraphData.t) : GraphData.t :=
  let filtered :=
    match filter_entities with
    | Some (t :: ts) =>
        let entities :=
          List.filter (fun entity => List.existsb (String.eqb (Entity.type entity)) (t :: ts))
                      (GraphData.entities graph_data) in
        let entity_ids := List.map Entity.id entities in
        let relationships :=
          List.filter
            (fun rel =>
               (List.existsb (String.eqb (Relationship.source_id rel)) entity_ids
                && List.existsb (String.eqb (Relationship.target_id rel)) entity_ids)%bool)
            (GraphData.relationships graph_data) in
        GraphData.mk entities relationships (GraphData.communities graph_data)
          (GraphData.chunks graph_data) (GraphData.generated_at graph_data)
    | _ => graph_data
    end in
  if include_chunks then filtered
  else GraphData.mk (GraphData.entities filtered) (GraphData.relationships filtered)
         (GraphData.communities filtered) [] (GraphData.generated_at filtered).

End GraphApi.

(** ** Sample data *)

Definition sample_file (file_id status : string) (error_message : option string)
  : FileMetadata.t :=
  FileMetadata.mk file_id (file_id ++ ".txt") "notes.txt" 12 "text/plain" 0 status
                  error_message None None None None ("data/uploads/" ++ file_id ++ ".txt") None.

(** A registry that holds the one document [doc1]. *)
Definition sample_world (status : string) (error_message : option string) : World :=
  mkWorld {[ "doc1" := sample_file "doc1" status error_message ]} ∅ ∅ [] [].

(** [doc1] completed, with all five tables among its artifacts. *)
Definition indexed_world : World :=
  mkWorld {[ "doc1" := sample_file "doc1" "completed" None ]} ∅
          {[ "doc1" := mkArtifactDir (Some [[("name", "X")]]) (Some []) (Some [])
                         (Some [[("text", "X is a person")]])
                         (Some [[("title", "People")]]) ]}
          [] [].

Definition sample_engines : Engines :=
  mkEngines
    (fun _ _ _ _ => Return (mkSearchResult "local answer" (CtxDict [("sources", "chunk text")])))
    (fun _ _ _ => Return (mkSearchResult "global answer" (CtxDict []))).

(** A child that prints the given lines and ends with the given code,
    leaving the artifact directories as they were. *)
Definition sample_process (lines : list string) (code : Z) (err : string) : Process :=
  mkProcess (List.map Line lines) code err (fun arts => arts).

Definition sample_artifacts : ArtifactDir :=
  mkArtifactDir (Some [[("name", "X")]; [("name", "Y")]]) (Some [[("source", "X")]])
                (Some []) (Some [[("text", "X knows Y")]]) None.

(** A child that prints the given lines, leaves artifacts for [doc1] and
    exits with zero. *)
Definition indexing_process (lines : list string) : Process :=
  mkProcess (List.map Line lines) 0 "" (fun arts => <["doc1" := sample_artifacts]> arts).

Definition ordered_lines : list string :=
  ["Loading input"; "Extracting entity descriptions"; "Building relationship table";
   "Detecting community structure"; "Writing output"].

Definition backwards_lines : list string :=
  ["Detecting community structure"; "Summarizing entity descriptions"].

Definition sample_outcomes (process : Process) : Outcomes :=
  mkOutcomes (Return "settings.yml") (Return tt) (Return "some text") (Return tt)
             (Return process) 42.

Definition sample_env : ChatApi.Env :=
  ChatApi.mkEnv sample_engines 10 12 "m-1" "c-1" "k-1".

(** ** Helpers of the statements *)

(** The sum of two accumulators of [GraphService.load_files], table by
    table. *)
Definition merge_acc (a b : GraphService.Acc) : GraphService.Acc :=
  ((a.1.1.1 ++ b.1.1.1)%list, (a.1.1.2 ++ b.1.1.2)%list, (a.1.2 ++ b.1.2)%list,
   (a.2 ++ b.2)%list).

(** ** More sample data *)

(** Library functions for the samples: the suffix of a name that holds
    [".txt"], a detector that always answers [text/plain], and readers that
    hand the content back. *)
Definition sample_platform : Platform :=
  mkPlatform (fun name => if Text.contains ".txt" name then ".txt" else "")
             (fun _ => Return "text/plain") "u-1" 7
             (fun errors => mkExn "ValidationError" (Py.join errors))
             detail
             (fun content => Return content)
             (fun content => Return [content])
             (fun content => Return [content]).

Definition sample_upload (content : string) (content_type : option string) : UploadFile.t :=
  UploadFile.mk "notes.txt" (Some (Z.of_nat (String.length content))) content_type content.

(** The stores of [sample_world] with the file of [doc1] in the upload
    directory. *)
Definition sample_disk : Disk :=
  mkDisk (sample_world "completed" None) {[ "data/uploads/doc1.txt" := "some text" ]}.

Definition empty_disk : Disk := mkDisk (mkWorld ∅ ∅ ∅ [] []) ∅.

(** Engines whose searches raise. *)
Definition failing_engines : Engines :=
  mkEngines (fun _ _ _ _ => Raise (mkExn "RuntimeError" "engine down"))
            (fun _ _ _ => Raise (mkExn "RuntimeError" "engine down")).

Definition failing_env : ChatApi.Env :=
  ChatApi.mkEnv failing_engines 10 12 "m-1" "c-1" "k-1".

Definition cell (key : string) (row : Row) : string :=
  match dict_get key row with Some v => v | None => "" end.

(** Decoders that copy the cells they find. *)
Definition sample_decoders : Decoders :=
  mkDecoders
    (fun row => Return (Entity.mk (cell "id" row) (cell "name" row) (cell "type" row)
                          (dict_get "description" row) 0 None))
    (fun row => Return (Relationship.mk (cell "id" row) (cell "source" row)
                          (cell "target" row) (cell "description" row)
                          (dict_get "description" row)))
    (fun row => Return (Community.mk (cell "id" row) (cell "title" row)
                          (dict_get "full_content" row) 0 0))
    (fun file_id row => Return (TextChunk.mk (cell "id" row) (cell "text" row) file_id 0 0)).

(** The directories [get_graph_data] looks into, for two documents. *)
Definition sample_dirs : gmap string ArtifactDir :=
  {[ "doc1" := mkArtifactDir
                 (Some [[("id", "e1"); ("name", "Ada"); ("type", "person")];
                        [("id", "e2"); ("name", "Analytical Engine"); ("type", "machine");
                         ("description", "designed with ada in mind")]])
                 (Some [[("id", "r1"); ("source", "e1"); ("target", "e2")]])
                 None None None;
     "doc2" := mkArtifactDir
                 (Some [[("id", "e3"); ("name", "Babbage"); ("type", "person")]])
                 (Some [[("id", "r2"); ("source", "e3"); ("target", "e2")]])
                 None None None ]}.

(** A value of 210 characters. *)
Definition long_value : string :=
  Py.join (List.repeat "0123456789" 21).

(** ** Sample environments of the pipeline task *)

(** A child that prints the given lines, closes its output and exits with
    the given code, leaving the artifact directories as they were. *)
Definition sample_child (lines : list string) (code : Z) (err : string) : Pipeline.Child :=
  Pipeline.mkChild
    (List.map (fun line => Pipeline.Data (Return line)) lines ++ [Pipeline.Eof])
    (Some code) (Return err) (fun arts => arts).

(** A child that prints the given lines, leaves artifacts for [doc1] and
    exits with zero. *)
Definition indexing_child (lines : list string) : Pipeline.Child :=
  Pipeline.mkChild
    (List.map (fun line => Pipeline.Data (Return line)) lines ++ [Pipeline.Eof])
    (Some 0) (Return "") (fun arts => <["doc1" := sample_artifacts]> arts).

(** As [indexing_child], with one line in between that does not decode. *)
Definition garbling_child : Pipeline.Child :=
  Pipeline.mkChild
    [Pipeline.Data (Return "Loading input");
     Pipeline.Data (Raise (mkExn "UnicodeDecodeError"
                             "'utf-8' codec can't decode byte 0xff in position 0: invalid start byte"));
     Pipeline.Eof]
    (Some 0) (Return "") (fun arts => <["doc1" := sample_artifacts]> arts).

(** Nothing of the service's own fails. *)
Definition sample_environment (child : Pipeline.Child) : Pipeline.Environment :=
  Pipeline.mkEnvironment (Return tt) (fun _ _ => Pipeline.Saved) (fun _ => None)
    (Return "settings.yml") (Return tt) (Return "some text") (Return tt) (Return child) 42.

(** The output directory cannot be made. *)
Definition no_directory : Pipeline.Environment :=
  Pipeline.mkEnvironment
    (Raise (Pipeline.Exc (mkExn "PermissionError" "[Errno 13] Permission denied")))
    (fun _ _ => Pipeline.Saved) (fun _ => None)
    (Return "settings.yml") (Return tt) (Return "some text") (Return tt)
    (Return (indexing_child ordered_lines)) 42.

(** The task is cancelled while the text is extracted. *)
Definition cancelled_task : Pipeline.Environment :=
  Pipeline.mkEnvironment (Return tt) (fun _ _ => Pipeline.Saved) (fun _ => None)
    (Return "settings.yml") (Return tt)
    (Raise (Pipeline.Base (mkExn "CancelledError" ""))) (Return tt)
    (Return (indexing_child ordered_lines)) 42.

(** The uploaded file is gone, and the progress file can no longer be
    opened for writing once the record is in status error. *)
Definition closed_cache : Pipeline.Environment :=
  Pipeline.mkEnvironment (Return tt)
    (fun p _ => if String.eqb (IndexingProgress.status p) "error"
                then Pipeline.NotOpened (mkExn "OSError" "[Errno 28] No space left on device")
                else Pipeline.Saved)
    (fun _ => None)
    (Return "settings.yml") (Return tt)
    (Raise (Pipeline.Exc (mkExn "FileNotFoundError"
                            "File not found: data/uploads/doc1.txt"))) (Return tt)
    (Return (indexing_child ordered_lines)) 42.

(** The uploaded file is gone. *)
Definition missing_upload : Pipeline.Environment :=
  Pipeline.mkEnvironment (Return tt) (fun _ _ => Pipeline.Saved) (fun _ => None)
    (Return "settings.yml") (Return tt)
    (Raise (Pipeline.Exc (mkExn "FileNotFoundError"
                            "File not found: data/uploads/doc1.txt"))) (Return tt)
    (Return (indexing_child ordered_lines)) 42.

(** * Properties *)

(** ** Running computations *)

Ltac run :=
  repeat (progress (cbv beta iota delta
            [bind ret raise get_state modify lift_result try_except try_finally
             on_world on_progress unhandled
             FileService._load_metadata FileService._save_metadata_dict
             FileService.get_file_by_id FileService.update_file_status]; cbn [fst snd])).

Lemma string_eqb_neq (a b : string) : a <> b -> String.eqb a b = false.
Proof. intros H. apply String.eqb_neq. exact H. Qed.

(** ** Progress tracker *)

(** C8. A progress file that cannot be opened or decoded is treated as
    absent: [get_indexing_status] returns [None] normally and leaves the
    stores as they are. *)
Theorem corrupt_status_file_is_absent (file_id : string) (w : World)
    (f : status_file) (e : exn) :
  cache w !! file_id = Some f ->
  GraphRAGService.load_status_file f = Raise e ->
  GraphRAGService.get_indexing_status file_id w = (Return None, w).
Proof.
  intros Hf He. unfold GraphRAGService.get_indexing_status. run.
  rewrite Hf. run. rewrite He. reflexivity.
Qed.

Lemma corrupt_status_file_is_absent_witness :
  GraphRAGService.get_indexing_status "doc1"
    (mkWorld ∅ {[ "doc1" := Garbled "{file_id: " ]} ∅ [] [])
  = (Return None, mkWorld ∅ {[ "doc1" := Garbled "{file_id: " ]} ∅ [] []).
Proof.
  apply (corrupt_status_file_is_absent "doc1" _ (Garbled "{file_id: ")
           (mkExn "JSONDecodeError" "{file_id: ")); reflexivity.
Defined.

(** C4. When the service finds no stored progress record (none on disk, or
    one it treats as absent), the status endpoint derives the answer from
    the document's status: uploaded gives 0%, completed gives 100% at step
    finished, error gives 0% with the document's error message, and any
    other status gives the unknown record at 0%. *)
Theorem synthetic_progress_from_status (now : Time) (file_id : string)
    (w : World) (fm : FileMetadata.t) :
  files_data w !! file_id = Some fm ->
  GraphRAGService.get_indexing_status file_id w = (Return None, w) ->
  (FileMetadata.status fm = "uploaded" ->
   IndexingApi.get_indexing_status now file_id w =
   (Return (IndexingProgress.mk file_id "uploaded" "waiting" 0 None None None None), w))
  /\ (FileMetadata.status fm = "completed" ->
      IndexingApi.get_indexing_status now file_id w =
      (Return (IndexingProgress.mk file_id "completed" "finished" 100 None None None (Some now)), w))
  /\ (FileMetadata.status fm = "error" ->
      IndexingApi.get_indexing_status now file_id w =
      (Return (IndexingProgress.mk file_id "error" "failed" 0 None
                 (FileMetadata.error_message fm) None None), w))
  /\ (FileMetadata.status fm <> "uploaded" ->
      FileMetadata.status fm <> "completed" ->
      FileMetadata.status fm <> "error" ->
      IndexingApi.get_indexing_status now file_id w =
      (Return (IndexingProgress.mk file_id "unknown" "unknown" 0 None None None None), w)).
Proof.
  intros Hfm Hnone.
  unfold IndexingApi.get_indexing_status.
  run. rewrite Hfm. run. rewrite Hnone. run.
  repeat split.
  - intros ->. reflexivity.
  - intros ->. reflexivity.
  - intros ->. reflexivity.
  - intros H1 H2 H3. rewrite !string_eqb_neq by assumption. reflexivity.
Qed.

Lemma synthetic_progress_from_status_witness :
  IndexingApi.get_indexing_status 7 "doc1" (sample_world "error" (Some "boom"))
  = (Return (IndexingProgress.mk "doc1" "error" "failed" 0 None (Some "boom") None None),
     sample_world "error" (Some "boom")).
Proof.
  apply (synthetic_progress_from_status 7 "doc1" (sample_world "error" (Some "boom"))
           (sample_file "doc1" "error" (Some "boom"))); reflexivity.
Defined.

(** ** Cancel and retry *)

(** C2. [cancel_indexing] goes through only for a document whose status is
    indexing and [retry_indexing] only for one whose status is error or
    cancelled; from any other status the call ends in the 400 precondition
    error and the stores (document record, progress record, everything
    else) are left as they were. *)
Theorem cancel_retry_gated (now : Time) (file_id : string) (w : World)
    (fm : FileMetadata.t) :
  files_data w !! file_id = Some fm ->
  (FileMetadata.status fm <> "indexing" ->
   IndexingApi.cancel_indexing file_id w =
   (Raise (mkHTTPException 400
             ("Cannot cancel indexing. File status: " ++ FileMetadata.status fm)), w))
  /\ (forall r w', IndexingApi.cancel_indexing file_id w = (Return r, w') ->
                   FileMetadata.status fm = "indexing")
  /\ (FileMetadata.status fm <> "error" ->
      FileMetadata.status fm <> "cancelled" ->
      IndexingApi.retry_indexing now file_id w =
      (Raise (mkHTTPException 400
                ("Cannot retry indexing. File status: " ++ FileMetadata.status fm)), w))
  /\ (forall r w', IndexingApi.retry_indexing now file_id w = (Return r, w') ->
                   FileMetadata.status fm = "error" \/ FileMetadata.status fm = "cancelled").
Proof.
  intros Hfm.
  unfold IndexingApi.cancel_indexing, IndexingApi.retry_indexing. run. rewrite Hfm. run.
  repeat split.
  - intros Hs. rewrite (string_eqb_neq _ _ Hs). reflexivity.
  - intros r w'. destruct (String.eqb_spec (FileMetadata.status fm) "indexing") as [Heq | Hne].
    + intros _. exact Heq.
    + cbn. discriminate.
  - intros H1 H2. rewrite (string_eqb_neq _ _ H1), (string_eqb_neq _ _ H2). reflexivity.
  - intros r w'. destruct (String.eqb_spec (FileMetadata.status fm) "error") as [Heq | Hne].
    + intros _. left. exact Heq.
    + destruct (String.eqb_spec (FileMetadata.status fm) "cancelled") as [Heq' | Hne'].
      * intros _. right. exact Heq'.
      * cbn. discriminate.
Qed.

Lemma cancel_retry_gated_witness :
  IndexingApi.cancel_indexing "doc1" (sample_world "completed" None)
  = (Raise (mkHTTPException 400 "Cannot cancel indexing. File status: completed"),
     sample_world "completed" None)
  /\ IndexingApi.retry_indexing 7 "doc1" (sample_world "completed" None)
     = (Raise (mkHTTPException 400 "Cannot retry indexing. File status: completed"),
        sample_world "completed" None).
Proof.
  pose proof (cancel_retry_gated 7 "doc1" (sample_world "completed" None)
                (sample_file "doc1" "completed" None) eq_refl) as (Hc & _ & Hr & _).
  split.
  - apply Hc. discriminate.
  - apply Hr; discriminate.
Defined.

(** An accepted cancel marks the document cancelled with the fixed message. *)
Lemma cancel_indexing_accepted (file_id : string) (w : World) (fm : FileMetadata.t) :
  files_data w !! file_id = Some fm ->
  FileMetadata.status fm = "indexing" ->
  exists w',
    IndexingApi.cancel_indexing file_id w = (Return (IndexingApi.cancelled_content file_id), w')
    /\ (FileMetadata.status <$> files_data w' !! file_id) = Some "cancelled"
    /\ (FileMetadata.error_message <$> files_data w' !! file_id)
       = Some (Some "Indexing cancelled by user").
Proof.
  intros Hfm Hs. unfold IndexingApi.cancel_indexing. run. rewrite Hfm. run.
  rewrite Hs. cbn. rewrite Hfm. cbn. eexists. split; [reflexivity |].
  cbn. rewrite lookup_insert_eq. split; reflexivity.
Qed.

(** X27. A retry that passes the status test always fails: the task of the
    pipeline is created, then the JSON answer cannot be built from the
    progress record, whose [started_at] is a time stamp, and the handler
    puts the document into status error with the message of that
    [TypeError] and answers 500. *)
Theorem accepted_retry_fails_after_starting (now : Time) (file_id : string) (w : World)
    (fm : FileMetadata.t) :
  files_data w !! file_id = Some fm ->
  FileMetadata.status fm = "error" \/ FileMetadata.status fm = "cancelled" ->
  exists w',
    IndexingApi.retry_indexing now file_id w
    = (Raise (mkHTTPException 500 "Object of type datetime is not JSON serializable"), w')
    /\ (FileMetadata.status <$> files_data w' !! file_id) = Some "error"
    /\ (FileMetadata.error_message <$> files_data w' !! file_id)
       = Some (Some "Object of type datetime is not JSON serializable")
    /\ tasks w' = (tasks w ++ [mkTask fm (GraphRAGService.initial_progress now fm)])%list
    /\ cache w' = cache w.
Proof.
  intros Hfm Hs. unfold IndexingApi.retry_indexing. run. rewrite Hfm. run.
  assert (Hgate : (String.eqb (FileMetadata.status fm) "error"
                   || String.eqb (FileMetadata.status fm) "cancelled")%bool = true).
  { destruct Hs as [-> | ->]; reflexivity. }
  rewrite Hgate. cbn. rewrite Hfm. cbn. unfold GraphRAGService.start_indexing. run.
  cbn. rewrite lookup_insert_eq. cbn.
  eexists. split; [reflexivity |].
  cbn. rewrite lookup_insert_eq. repeat split; reflexivity.
Qed.

Lemma accepted_retry_fails_after_starting_witness :
  exists w',
    IndexingApi.retry_indexing 7 "doc1" (sample_world "error" (Some "boom"))
    = (Raise (mkHTTPException 500 "Object of type datetime is not JSON serializable"), w')
    /\ (FileMetadata.status <$> files_data w' !! "doc1") = Some "error"
    /\ List.length (tasks w') = 1%nat.
Proof.
  destruct (accepted_retry_fails_after_starting 7 "doc1" (sample_world "error" (Some "boom"))
              (sample_file "doc1" "error" (Some "boom")) eq_refl (or_introl eq_refl))
    as (w' & Hretry & Hstatus & _ & Htasks & _).
  exists w'. split; [exact Hretry |]. split; [exact Hstatus |]. now rewrite Htasks.
Defined.

(** ** Sources of an answer *)

Lemma length_append (a b : string) :
  String.length (a ++ b) = (String.length a + String.length b)%nat.
Proof.
  induction a as [| c a IH]; [reflexivity |].
  change (String c a ++ b) with (String c (a ++ b)). cbn. now rewrite IH.
Qed.

Lemma length_take (n : nat) (s : string) :
  String.length (Text.take n s) = Nat.min n (String.length s).
Proof.
  unfold Text.take. revert s.
  induction n as [| n IH]; intros [| c s]; cbn; try reflexivity.
  now rewrite IH.
Qed.

Lemma source_content_length (value : string) :
  (String.length (GraphRAGService.source_content value) <= 203)%nat.
Proof.
  unfold GraphRAGService.source_content.
  destruct (Nat.ltb_spec 200 (String.length value)) as [Hlong | Hshort].
  - rewrite length_append, length_take. cbn [String.length]. lia.
  - lia.
Qed.

(** C9. The source entries taken from a context dictionary are, in the order
    of the dictionary, one entry for each item whose key, lower-cased,
    contains "source" or "chunk", and no other; the content of an entry is
    the value of its item when that has at most 200 characters, and
    otherwise its first 200 characters followed by "...", so it has at most
    203 characters. *)
Theorem sources_from_source_keys (context_data : context) :
  (forall items,
      context_data = CtxDict items ->
      GraphRAGService._extract_sources_from_context context_data
      = List.map
          (fun item =>
             [("type", item.1);
              ("content",
               if Nat.ltb 200 (String.length item.2)
               then Text.take 200 item.2 ++ "..." else item.2)])
          (List.filter
             (fun item => (Text.contains "source" (Text.lower item.1)
                           || Text.contains "chunk" (Text.lower item.1))%bool)
             items))
  /\ (forall entry,
        In entry (GraphRAGService._extract_sources_from_context context_data) ->
        exists items key value content,
          context_data = CtxDict items
          /\ In (key, value) items
          /\ (Text.contains "source" (Text.lower key) = true
              \/ Text.contains "chunk" (Text.lower key) = true)
          /\ entry = [("type", key); ("content", content)]
          /\ (String.length content <= 203)%nat
          /\ ((200 < String.length value)%nat ->
              content = Text.take 200 value ++ "..."
              /\ String.length (Text.take 200 value) = 200%nat
              /\ String.length content = 203%nat)
          /\ ((String.length value <= 200)%nat -> content = value)).
Proof.
  split.
  - intros items ->. cbn [GraphRAGService._extract_sources_from_context].
    induction items as [| [key value] items IH]; [reflexivity |].
    cbn [flat_map List.filter List.map fst snd].
    unfold GraphRAGService.is_source_key at 1.
    destruct (Text.contains "source" (Text.lower key)
              || Text.contains "chunk" (Text.lower key))%bool;
      cbn [List.map app fst snd]; rewrite IH; reflexivity.
  - destruct context_data as [items | other]; cbn; [| contradiction].
    intros entry Hin. apply in_flat_map in Hin.
    destruct Hin as ([key value] & Hitem & Hentry).
    destruct (GraphRAGService.is_source_key key) eqn:Hkey; [| contradiction].
    destruct Hentry as [<- | []].
    exists items, key, value, (GraphRAGService.source_content value).
    split; [reflexivity |]. split; [exact Hitem |]. split.
    { unfold GraphRAGService.is_source_key in Hkey.
      apply Bool.orb_true_iff in Hkey. exact Hkey. }
    split; [reflexivity |]. split; [apply source_content_length |].
    unfold GraphRAGService.source_content. split.
    + intros Hlong. apply Nat.ltb_lt in Hlong as Hlt. rewrite Hlt.
      split; [reflexivity |]. split; [rewrite length_take; lia |].
      rewrite length_append, length_take. cbn [String.length]. lia.
    + intros Hshort. apply Nat.ltb_ge in Hshort. rewrite Hshort. reflexivity.
Qed.

Lemma sources_from_source_keys_witness :
  GraphRAGService._extract_sources_from_context
    (CtxDict [("entities", "e"); ("Sources", long_value); ("chunk_1", "chunk text");
              ("sources_2", long_value)])
  = [[("type", "Sources"); ("content", Text.take 200 long_value ++ "...")];
     [("type", "chunk_1"); ("content", "chunk text")];
     [("type", "sources_2"); ("content", Text.take 200 long_value ++ "...")]]
  /\ String.length (Text.take 200 long_value ++ "...") = 203%nat.
Proof.
  split.
  - rewrite (proj1 (sources_from_source_keys
                      (CtxDict [("entities", "e"); ("Sources", long_value);
                                ("chunk_1", "chunk text"); ("sources_2", long_value)]))
               _ eq_refl).
    reflexivity.
  - reflexivity.
Defined.

(** ** Search without artifacts *)

Lemma load_local_no_entities (arts : gmap string ArtifactDir) (file_ids : list string) :
  (forall file_id dir,
      In file_id file_ids -> arts !! file_id = Some dir -> create_final_entities dir = None) ->
  forall acc, (GraphRAGService.load_local arts file_ids acc).1.1 = acc.1.1.
Proof.
  induction file_ids as [| file_id rest IH]; intros Hnone acc; cbn; [reflexivity |].
  destruct (arts !! file_id) as [dir |] eqn:Hdir.
  - destruct acc as [[es rs] ts].
    rewrite IH by (intros; eapply Hnone; [right |]; eassumption).
    cbn. rewrite (Hnone file_id dir) by (first [now left | assumption]).
    cbn. apply app_nil_r.
  - apply IH. intros; eapply Hnone; [right |]; eassumption.
Qed.

Lemma load_global_no_reports (arts : gmap string ArtifactDir) (file_ids : list string) :
  (forall file_id dir,
      In file_id file_ids -> arts !! file_id = Some dir ->
      create_final_community_reports dir = None) ->
  forall acc, (GraphRAGService.load_global arts file_ids acc).1 = acc.1.
Proof.
  induction file_ids as [| file_id rest IH]; intros Hnone acc; cbn; [reflexivity |].
  destruct (arts !! file_id) as [dir |] eqn:Hdir.
  - destruct acc as [cs es].
    rewrite IH by (intros; eapply Hnone; [right |]; eassumption).
    cbn. rewrite (Hnone file_id dir) by (first [now left | assumption]).
    cbn. apply app_nil_r.
  - apply IH. intros; eapply Hnone; [right |]; eassumption.
Qed.

(** C6. When none of the listed documents has an entities table among its
    artifacts, local search returns the fixed answer with no sources, does not
    raise, and so does the dispatch through [query_graph]. *)
Theorem local_search_without_entities (eng : Engines) (start_time end_time : Time)
    (query : string) (file_ids : list string) (w : World) :
  (forall file_id dir,
      In file_id file_ids -> artifacts w !! file_id = Some dir ->
      create_final_entities dir = None) ->
  GraphRAGService._local_search eng query file_ids w
  = (Return (mkSearchDict "No indexed data found for the specified files." None []), w)
  /\ GraphRAGService.query_graph eng start_time end_time query LOCAL file_ids w
     = (Return (mkQueryResult "No indexed data found for the specified files." [] []
                  (end_time - start_time) LOCAL), w).
Proof.
  intros Hnone.
  assert (Hlocal : GraphRAGService._local_search eng query file_ids w
                   = (Return (mkSearchDict "No indexed data found for the specified files."
                                None []), w)).
  { unfold GraphRAGService._local_search. run.
    pose proof (load_local_no_entities _ _ Hnone ([], [], [])) as Hload.
    destruct (GraphRAGService.load_local (artifacts w) file_ids ([], [], []))
      as [[es rs] ts].
    cbn in Hload. subst es. reflexivity. }
  split; [exact Hlocal |].
  unfold GraphRAGService.query_graph. run. rewrite Hlocal. reflexivity.
Qed.

Lemma local_search_without_entities_witness :
  GraphRAGService._local_search sample_engines "who is X" ["doc1"; "doc2"]
    (sample_world "completed" None)
  = (Return (mkSearchDict "No indexed data found for the specified files." None []),
     sample_world "completed" None)
  /\ GraphRAGService.query_graph sample_engines 10 12 "who is X" LOCAL ["doc1"; "doc2"]
       (sample_world "completed" None)
     = (Return (mkQueryResult "No indexed data found for the specified files." [] []
                  (12 - 10) LOCAL), sample_world "completed" None).
Proof.
  apply (local_search_without_entities sample_engines 10 12 "who is X" ["doc1"; "doc2"]
           (sample_world "completed" None)).
  intros file_id dir _ Hdir. cbn in Hdir. rewrite lookup_empty in Hdir. discriminate.
Defined.

(** C7. When none of the listed documents has a community report table
    among its artifacts, global search returns the fixed answer with no
    sources, and so does the dispatch through [query_graph]. *)
Theorem global_search_without_reports (eng : Engines) (start_time end_time : Time)
    (query : string) (file_ids : list string) (w : World) :
  (forall file_id dir,
      In file_id file_ids -> artifacts w !! file_id = Some dir ->
      create_final_community_reports dir = None) ->
  GraphRAGService._global_search eng query file_ids w
  = (Return (mkSearchDict "No community data found for global search." None []), w)
  /\ GraphRAGService.query_graph eng start_time end_time query GLOBAL file_ids w
     = (Return (mkQueryResult "No community data found for global search." [] []
                  (end_time - start_time) GLOBAL), w).
Proof.
  intros Hnone.
  assert (Hglobal : GraphRAGService._global_search eng query file_ids w
                    = (Return (mkSearchDict "No community data found for global search."
                                 None []), w)).
  { unfold GraphRAGService._global_search. run.
    pose proof (load_global_no_reports _ _ Hnone ([], [])) as Hload.
    destruct (GraphRAGService.load_global (artifacts w) file_ids ([], [])) as [cs es].
    cbn in Hload. subst cs. reflexivity. }
  split; [exact Hglobal |].
  unfold GraphRAGService.query_graph. run. rewrite Hglobal. reflexivity.
Qed.

Lemma global_search_without_reports_witness :
  GraphRAGService._global_search sample_engines "themes" ["doc1"]
    (sample_world "completed" None)
  = (Return (mkSearchDict "No community data found for global search." None []),
     sample_world "completed" None)
  /\ GraphRAGService.query_graph sample_engines 10 12 "themes" GLOBAL ["doc1"]
       (sample_world "completed" None)
     = (Return (mkQueryResult "No community data found for global search." [] []
                  (12 - 10) GLOBAL), sample_world "completed" None).
Proof.
  apply (global_search_without_reports sample_engines 10 12 "themes" ["doc1"]
           (sample_world "completed" None)).
  intros file_id dir _ Hdir. cbn in Hdir. rewrite lookup_empty in Hdir. discriminate.
Defined.

(** ** Chat dispatch *)

Lemma valid_file_ids_reads {E} (file_ids : list string) (w : World) :
  exists valid, ChatApi.valid_file_ids (E := E) file_ids w = (Return valid, w).
Proof.
  induction file_ids as [| file_id rest [tail IH]]; cbn.
  - eexists. reflexivity.
  - run. rewrite IH. cbn.
    destruct (files_data w !! file_id) as [m |]; cbn.
    + destruct (String.eqb (FileMetadata.status m) "completed"); eexists; reflexivity.
    + eexists. reflexivity.
Qed.

(** C10. In global mode both chat handlers hand [query_graph] the empty
    file list, whatever files the request names and whatever documents are
    completed; the search then finds no community report and the answer is
    the fixed no-community-data text with no sources. *)
Theorem global_chat_is_fixed_answer (env : ChatApi.Env) (query : ChatQuery.t) (w : World) :
  ChatQuery.mode query = GLOBAL ->
  (forall valid, ChatApi.dispatched_file_ids (ChatQuery.mode query) valid = [])
  /\ ChatApi.chat_query env query w
     = (Return (ChatResponse.mk (ChatApi.message_uuid env)
                  "No community data found for global search." GLOBAL []
                  (ChatApi.end_time env - ChatApi.start_time env)
                  (ChatApi.or_else (ChatQuery.conversation_id query)
                     (ChatApi.conversation_uuid env))), w)
  /\ ChatApi.chat_stream env query w
     = (Return [ChatStreamChunk.mk (ChatApi.chunk_uuid env) "" false [] None;
                ChatStreamChunk.mk (ChatApi.chunk_uuid env)
                  "No community data found for global search." false [] None;
                ChatStreamChunk.mk (ChatApi.chunk_uuid env) "" true [] None], w).
Proof.
  intros Hmode.
  destruct (valid_file_ids_reads (E := HTTPException) (ChatQuery.file_ids query) w)
    as [valid Hvalid].
  split; [| split].
  - intros v. rewrite Hmode. reflexivity.
  - unfold ChatApi.chat_query. rewrite Hmode. cbn [ChatApi.is_local andb].
    run. rewrite Hvalid. reflexivity.
  - unfold ChatApi.chat_stream. rewrite Hmode. cbn [ChatApi.is_local andb].
    run. rewrite Hvalid. unfold ChatApi.generate_stream. rewrite Hmode. reflexivity.
Qed.

Lemma global_chat_is_fixed_answer_witness :
  ChatApi.chat_query sample_env (ChatQuery.mk "main themes?" GLOBAL ["doc1"] None)
    indexed_world
  = (Return (ChatResponse.mk "m-1" "No community data found for global search."
               GLOBAL [] 2 "c-1"), indexed_world).
Proof.
  apply (global_chat_is_fixed_answer sample_env
           (ChatQuery.mk "main themes?" GLOBAL ["doc1"] None) indexed_world eq_refl).
Defined.

(** With the same document listed, the global search itself does answer
    from the community reports; only the chat dispatch never lists it. *)
Lemma global_search_with_reports :
  GraphRAGService.query_graph sample_engines 10 12 "main themes?" GLOBAL ["doc1"]
    indexed_world
  = (Return (mkQueryResult "global answer" [] [] 2 GLOBAL), indexed_world).
Proof. reflexivity. Qed.

(** ** The pipeline *)

Section PipelineTrace.

Import GraphRAGService Trace.

Lemma update_progress_push (step : string) (percentage : Z) (st : PState) :
  _update_progress step percentage st = (Return tt, push (step, percentage) st).
Proof. reflexivity. Qed.

Lemma monitor_loop_pushes (events : list stdout_event) :
  forall current_step st,
    monitor_loop events current_step st
    = (Return tt, pushes (monitor_updates events current_step) st).
Proof.
  induction events as [| [line | [|]] rest IH]; intros current_step st;
    cbn [monitor_loop monitor_updates].
  - reflexivity.
  - destruct (String.eqb line ""); [reflexivity |].
    destruct (dict_get (next_step (Text.strip line) current_step) step_progress)
      as [percentage |]; unfold bind.
    + rewrite update_progress_push. rewrite IH. reflexivity.
    + cbn [ret]. rewrite IH. reflexivity.
  - reflexivity.
  - apply IH.
Qed.

Lemma after_app (a b : list (string * Z)) (p : IndexingProgress.t) :
  after (a ++ b) p = after b (after a p).
Proof. apply fold_left_app. Qed.

Lemma records_app (a b : list (string * Z)) :
  forall p, records (a ++ b) p = (records a p ++ records b (after a p))%list.
Proof.
  induction a as [| u a IH]; intros p; cbn; [reflexivity |].
  now rewrite IH.
Qed.

Lemma pushes_progress (us : list (string * Z)) :
  forall st, progress (pushes us st) = after us (progress st).
Proof. induction us as [| u us IH]; intros st; cbn; [reflexivity | now rewrite IH]. Qed.

Lemma pushes_written (us : list (string * Z)) :
  forall st, written (world (pushes us st))
             = (written (world st) ++ records us (progress st))%list.
Proof.
  induction us as [| u us IH]; intros st; cbn.
  - now rewrite app_nil_r.
  - rewrite IH. cbn. now rewrite <- app_assoc.
Qed.

Lemma pushes_files_data (us : list (string * Z)) :
  forall st, files_data (world (pushes us st)) = files_data (world st).
Proof. induction us as [| u us IH]; intros st; cbn; [reflexivity | now rewrite IH]. Qed.

Lemma pushes_artifacts (us : list (string * Z)) :
  forall st, artifacts (world (pushes us st)) = artifacts (world st).
Proof. induction us as [| u us IH]; intros st; cbn; [reflexivity | now rewrite IH]. Qed.

Lemma after_file_id (us : list (string * Z)) :
  forall p, IndexingProgress.file_id (after us p) = IndexingProgress.file_id p.
Proof. induction us as [| u us IH]; intros p; cbn; [reflexivity | now rewrite IH]. Qed.

Lemma records_in (us : list (string * Z)) :
  forall p q,
    In q (records us p) ->
    IndexingProgress.status q = IndexingProgress.status p
    /\ In (IndexingProgress.current_step q, IndexingProgress.progress_percentage q) us.
Proof.
  induction us as [| [step x] us IH]; intros p q; cbn; [contradiction |].
  intros [<- | Hin].
  - split; [reflexivity | now left].
  - destruct (IH _ _ Hin) as [Hs Hu]. split; [exact Hs | now right].
Qed.

Lemma records_percentages (us : list (string * Z)) :
  forall p, List.map IndexingProgress.progress_percentage (records us p) = List.map snd us.
Proof.
  induction us as [| [step x] us IH]; intros p; cbn; [reflexivity |].
  now rewrite IH.
Qed.

(** [update_file_status] returns normally; it touches the registry only,
    and there only the record of the document it is given, if there is one. *)
Lemma update_file_status_run {E} (file_id status : string)
    (kwargs : list FileMetadata.kwarg) (w : World) :
  exists r w',
    FileService.update_file_status (E := E) file_id status kwargs w = (Return r, w')
    /\ written w' = written w
    /\ cache w' = cache w
    /\ forall m, files_data w !! file_id = Some m ->
                 files_data w' !! file_id
                 = Some (fold_left FileMetadata.set_kwarg kwargs
                           (FileMetadata.set_status status m)).
Proof.
  unfold FileService.update_file_status. run.
  destruct (files_data w !! file_id) as [m |]; cbn.
  - do 2 eexists. split; [reflexivity |]. cbn. repeat split.
    intros m' [= <-]. apply lookup_insert_eq.
  - do 2 eexists. split; [reflexivity |]. repeat split. intros m' [=].
Qed.

Lemma monitor_process_run (process : Process) (st : PState) :
  let st1 := pushes (monitor_updates (stdout process) "chunking") st in
  let st2 := mkPState (set_artifacts (leaves process (artifacts (world st1))) (world st1))
                      (progress st1) in
  _monitor_indexing_process process st
  = (if Z.eqb (returncode process) 0 then Return tt
     else Raise (Exception ("GraphRAG indexing failed: "
                            ++ (if String.eqb (stderr process) "" then "Unknown error"
                                else stderr process))),
     st2).
Proof.
  unfold _monitor_indexing_process, bind. rewrite monitor_loop_pushes.
  cbn. destruct (Z.eqb (returncode process) 0); reflexivity.
Qed.

(** The [try] block, by what it leaves: the records of its updates, and
    either the record of the success branch or, when it raises, the record
    after the last update next to an untouched registry. *)
Lemma pipeline_body_run (oc : Outcomes) (file_metadata : FileMetadata.t) (st : PState) :
  exists r st1,
    pipeline_body oc file_metadata st = (r, st1)
    /\ written (world st1)
       = (written (world st) ++ records (pipeline_updates oc) (progress st))%list
    /\ match r with
       | Raise _ =>
           progress st1 = after (pipeline_updates oc) (progress st)
           /\ files_data (world st1) = files_data (world st)
       | Return _ =>
           progress st1 = completed_record (utcnow oc) (after (pipeline_updates oc) (progress st))
           /\ IndexingProgress.current_step (progress st1) = "finalizing"
       end.
Proof.
  unfold pipeline_body, pipeline_updates.
  unfold bind at 1. rewrite update_progress_push.
  unfold bind at 1, lift_result at 1.
  destruct (config_file oc) as [cfg | e].
  2:{ do 2 eexists. split; [reflexivity |]. cbn. repeat split; reflexivity. }
  unfold bind at 1. rewrite update_progress_push.
  unfold bind at 1, lift_result at 1.
  destruct (input_dir_made oc) as [[] | e].
  2:{ do 2 eexists. split; [reflexivity |]. cbn. rewrite <- ?app_assoc. repeat split; reflexivity. }
  unfold bind at 1, lift_result at 1.
  destruct (text_content oc) as [txt | e].
  2:{ do 2 eexists. split; [reflexivity |]. cbn. rewrite <- ?app_assoc. repeat split; reflexivity. }
  unfold bind at 1, lift_result at 1.
  destruct (input_written oc) as [[] | e].
  2:{ do 2 eexists. split; [reflexivity |]. cbn. rewrite <- ?app_assoc. repeat split; reflexivity. }
  unfold bind at 1. rewrite update_progress_push.
  unfold bind at 1, lift_result at 1.
  destruct (subprocess oc) as [process | e].
  2:{ do 2 eexists. split; [reflexivity |]. cbn. rewrite <- ?app_assoc. repeat split; reflexivity. }
  unfold bind at 1. rewrite monitor_process_run.
  destruct (Z.eqb (returncode process) 0).
  2:{ do 2 eexists. split; [reflexivity |].
      cbn [world progress written files_data set_artifacts].
      rewrite pushes_written, pushes_progress, pushes_files_data.
      cbn. rewrite app_nil_r, <- !app_assoc. repeat split; reflexivity. }
  unfold bind at 1. rewrite update_progress_push.
  unfold bind at 1, get_state at 1.
  match goal with
  | |- context [artifacts ?w !! ?k] => destruct (artifacts w !! k) as [dir |]
  end.
  - unfold bind, on_progress, modify, on_world, ret. cbn [world progress].
    match goal with
    | |- context [FileService.update_file_status ?i ?s ?k ?w] =>
        destruct (update_file_status_run (E := exn) i s k w) as (r & w' & -> & Hw & _)
    end.
    do 2 eexists. split; [reflexivity |].
    cbn [world progress]. rewrite Hw. cbn [world progress written push write_status_file set_artifacts].
    rewrite pushes_written, pushes_progress.
    cbn. rewrite !records_app, !after_app. cbn. rewrite <- !app_assoc.
    repeat split; reflexivity.
  - do 2 eexists. split; [reflexivity |].
    cbn [world progress written files_data push write_status_file set_artifacts].
    rewrite pushes_written, pushes_progress, pushes_files_data.
    cbn. rewrite !records_app, !after_app. cbn. rewrite <- !app_assoc.
    repeat split; reflexivity.
Qed.

(** A run of the task never raises: it ends with one more record, the one
    of the success branch or the one of the handler, which is also what the
    progress file then holds. *)
Lemma indexing_run_spec (oc : Outcomes) (now : Time) (file_metadata : FileMetadata.t)
    (w : World) :
  let p0 := initial_progress now file_metadata in
  let us := pipeline_updates oc in
  exists w' final,
    indexing_run oc now file_metadata w = (Return tt, w')
    /\ written w' = (written w ++ records us p0 ++ [final])%list
    /\ cache w' !! FileMetadata.id file_metadata = Some (Json final)
    /\ ((final = completed_record (utcnow oc) (after us p0)
         /\ IndexingProgress.current_step final = "finalizing")
        \/ exists e, final = failed_record e (after us p0)).
Proof.
  cbv zeta.
  unfold indexing_run, run_task, _run_indexing_pipeline, try_finally, try_except.
  cbn [task_file task_progress].
  destruct (pipeline_body_run oc file_metadata
              (mkPState w (initial_progress now file_metadata)))
    as (r & st1 & -> & Hw & Hr).
  cbn [world progress] in Hw, Hr.
  destruct r as [[] | e].
  - destruct Hr as [Hr Hstep].
    do 2 eexists. split; [reflexivity |]. cbn. rewrite Hw, <- app_assoc.
    split; [reflexivity |]. split; [| left; split; assumption].
    rewrite Hr. cbn. rewrite after_file_id. apply lookup_insert_eq.
  - destruct Hr as [Hp Hf].
    unfold pipeline_handler, bind, on_progress, modify, on_world, ret.
    cbn [world progress].
    match goal with
    | |- context [FileService.update_file_status ?i ?s ?k ?w] =>
        destruct (update_file_status_run (E := exn) i s k w) as (r & w' & -> & Hw' & Hc & _)
    end.
    do 2 eexists. split; [reflexivity |]. cbn. rewrite Hw', Hw, Hp, <- app_assoc.
    split; [reflexivity |]. split; [| right; exists e; reflexivity].
    cbn. rewrite after_file_id. apply lookup_insert_eq.
Qed.

(** When the [try] block raises, the handler and the final save put the
    message on both records. *)
Lemma raised_is_recorded (oc : Outcomes) (now : Time) (file_metadata : FileMetadata.t)
    (w : World) (m0 : FileMetadata.t) (e : exn) (st1 : PState) :
  files_data w !! FileMetadata.id file_metadata = Some m0 ->
  pipeline_body oc file_metadata (mkPState w (initial_progress now file_metadata))
  = (Raise e, st1) ->
  error_recorded (FileMetadata.id file_metadata) (str e)
                 (indexing_run oc now file_metadata w).
Proof.
  intros Hm0 Hbody.
  destruct (pipeline_body_run oc file_metadata
              (mkPState w (initial_progress now file_metadata)))
    as (r & st1' & Heq & Hw & Hr).
  rewrite Hbody in Heq. injection Heq as <- <-.
  destruct Hr as [Hp Hf]. cbn [world progress] in Hp, Hf.
  unfold error_recorded, indexing_run, run_task, _run_indexing_pipeline,
    try_finally, try_except.
  cbn [task_file task_progress]. rewrite Hbody.
  unfold pipeline_handler, bind, on_progress, modify, on_world, ret.
  cbn [world progress].
  match goal with
  | |- context [FileService.update_file_status ?i ?s ?k ?w] =>
      destruct (update_file_status_run (E := exn) i s k w) as (r & w' & -> & Hw' & Hc & Hfd)
  end.
  rewrite Hf in Hfd. specialize (Hfd m0 Hm0).
  cbn. split; [reflexivity |].
  eexists _, _. rewrite Hp, after_file_id. cbn.
  split; [apply lookup_insert_eq |].
  split; [apply last_snoc |].
  split; [reflexivity |]. split; [reflexivity |].
  split; [exact Hfd |]. split; reflexivity.
Qed.

Lemma nonzero_exit_raises (oc : Outcomes) (file_metadata : FileMetadata.t) (st : PState)
    (cfg txt : string) (process : Process) :
  config_file oc = Return cfg ->
  input_dir_made oc = Return tt ->
  text_content oc = Return txt ->
  input_written oc = Return tt ->
  subprocess oc = Return process ->
  returncode process <> 0 ->
  exists st1,
    pipeline_body oc file_metadata st
    = (Raise (Exception ("GraphRAG indexing failed: "
                         ++ (if String.eqb (stderr process) "" then "Unknown error"
                             else stderr process))), st1).
Proof.
  intros Hcfg Hdir Htxt Hin Hsub Hcode. unfold pipeline_body.
  unfold bind at 1. rewrite update_progress_push.
  unfold bind at 1, lift_result at 1. rewrite Hcfg.
  unfold bind at 1. rewrite update_progress_push.
  unfold bind at 1, lift_result at 1. rewrite Hdir.
  unfold bind at 1, lift_result at 1. rewrite Htxt.
  unfold bind at 1, lift_result at 1. rewrite Hin.
  unfold bind at 1. rewrite update_progress_push.
  unfold bind at 1, lift_result at 1. rewrite Hsub.
  unfold bind at 1. rewrite monitor_process_run.
  apply Z.eqb_neq in Hcode. rewrite Hcode. eexists. reflexivity.
Qed.

Lemma missing_artifacts_raise (oc : Outcomes) (file_metadata : FileMetadata.t)
    (st : PState) (cfg txt : string) (process : Process) :
  config_file oc = Return cfg ->
  input_dir_made oc = Return tt ->
  text_content oc = Return txt ->
  input_written oc = Return tt ->
  subprocess oc = Return process ->
  returncode process = 0 ->
  leaves process (artifacts (world st)) !! FileMetadata.id file_metadata = None ->
  exists st1,
    pipeline_body oc file_metadata st
    = (Raise (Exception "Indexing completed but no artifacts found"), st1).
Proof.
  intros Hcfg Hdir Htxt Hin Hsub Hcode Hnone. unfold pipeline_body.
  unfold bind at 1. rewrite update_progress_push.
  unfold bind at 1, lift_result at 1. rewrite Hcfg.
  unfold bind at 1. rewrite update_progress_push.
  unfold bind at 1, lift_result at 1. rewrite Hdir.
  unfold bind at 1, lift_result at 1. rewrite Htxt.
  unfold bind at 1, lift_result at 1. rewrite Hin.
  unfold bind at 1. rewrite update_progress_push.
  unfold bind at 1, lift_result at 1. rewrite Hsub.
  unfold bind at 1. rewrite monitor_process_run.
  rewrite Hcode. cbn [Z.eqb].
  unfold bind at 1. rewrite update_progress_push.
  unfold bind at 1, get_state at 1.
  cbn [world push write_status_file artifacts set_artifacts].
  rewrite pushes_artifacts. cbn [world push write_status_file artifacts].
  rewrite Hnone. eexists. reflexivity.
Qed.

(** On a working disk, whatever the [try] block of the pipeline raises, the
    run of the task ends normally and the message [str(e)] is on the
    progress record and on the document record, both in status error. The
    document is one the registry holds. *)
Lemma errors_recorded_on_working_disk (oc : Outcomes) (now : Time)
    (file_metadata : FileMetadata.t) (w : World) (m0 : FileMetadata.t) :
  files_data w !! FileMetadata.id file_metadata = Some m0 ->
  (indexing_run oc now file_metadata w).1 = Return tt
  /\ (forall e st1,
         pipeline_body oc file_metadata (mkPState w (initial_progress now file_metadata))
         = (Raise e, st1) ->
         error_recorded (FileMetadata.id file_metadata) (str e)
                        (indexing_run oc now file_metadata w))
  /\ (forall cfg txt process,
         config_file oc = Return cfg ->
         input_dir_made oc = Return tt ->
         text_content oc = Return txt ->
         input_written oc = Return tt ->
         subprocess oc = Return process ->
         returncode process <> 0 ->
         error_recorded (FileMetadata.id file_metadata)
           ("GraphRAG indexing failed: "
            ++ (if String.eqb (stderr process) "" then "Unknown error" else stderr process))
           (indexing_run oc now file_metadata w))
  /\ (forall cfg txt process,
         config_file oc = Return cfg ->
         input_dir_made oc = Return tt ->
         text_content oc = Return txt ->
         input_written oc = Return tt ->
         subprocess oc = Return process ->
         returncode process = 0 ->
         leaves process (artifacts w) !! FileMetadata.id file_metadata = None ->
         error_recorded (FileMetadata.id file_metadata)
           "Indexing completed but no artifacts found"
           (indexing_run oc now file_metadata w)).
Proof.
  intros Hm0. split; [| split; [| split]].
  - destruct (indexing_run_spec oc now file_metadata w) as (w' & final & -> & _).
    reflexivity.
  - intros e st1 Hbody. eapply raised_is_recorded; eassumption.
  - intros cfg txt process Hcfg Hdir Htxt Hin Hsub Hcode.
    destruct (nonzero_exit_raises oc file_metadata
                (mkPState w (initial_progress now file_metadata))
                cfg txt process Hcfg Hdir Htxt Hin Hsub Hcode) as [st1 Hbody].
    apply (raised_is_recorded oc now file_metadata w m0 _ st1 Hm0 Hbody).
  - intros cfg txt process Hcfg Hdir Htxt Hin Hsub Hcode Hnone.
    destruct (missing_artifacts_raise oc file_metadata
                (mkPState w (initial_progress now file_metadata))
                cfg txt process Hcfg Hdir Htxt Hin Hsub Hcode Hnone) as [st1 Hbody].
    apply (raised_is_recorded oc now file_metadata w m0 _ st1 Hm0 Hbody).
Qed.

(** *** Checkpoints *)

Lemma dict_get_in {V} (key : string) (d : list (string * V)) (v : V) :
  dict_get key d = Some v -> In (key, v) d.
Proof.
  induction d as [| [k v'] d IH]; cbn; [discriminate |].
  destruct (String.eqb_spec key k) as [-> | Hne].
  - intros [= ->]. now left.
  - intros H. right. now apply IH.
Qed.

Lemma monitor_updates_in_table (events : list stdout_event) :
  forall current_step u,
    In u (monitor_updates events current_step) -> In u step_progress.
Proof.
  induction events as [| [line | [|]] rest IH]; intros current_step u;
    cbn [monitor_updates]; try contradiction.
  - destruct (String.eqb line ""); [contradiction |].
    intros Hin. apply in_app_or in Hin. destruct Hin as [Hin | Hin].
    + destruct (dict_get (next_step (Text.strip line) current_step) step_progress)
        as [x |] eqn:Hget; [| contradiction].
      destruct Hin as [<- | []]. now apply dict_get_in.
    + eapply IH. exact Hin.
  - apply IH.
Qed.

Lemma pipeline_updates_in_checkpoints (oc : Outcomes) (u : string * Z) :
  In u (pipeline_updates oc) -> In u code_checkpoints.
Proof.
  unfold pipeline_updates, code_checkpoints.
  intros [<- | Hin]; [cbn; tauto |].
  destruct (config_file oc); [| contradiction].
  destruct Hin as [<- | Hin]; [cbn; tauto |].
  destruct (input_dir_made oc); [| contradiction].
  destruct (text_content oc); [| contradiction].
  destruct (input_written oc); [| contradiction].
  destruct Hin as [<- | Hin]; [cbn; tauto |].
  destruct (subprocess oc) as [process |]; [| contradiction].
  apply in_app_or in Hin. destruct Hin as [Hin | Hin].
  - apply monitor_updates_in_table in Hin.
    apply in_or_app. right. apply in_or_app. now left.
  - destruct (Z.eqb (returncode process) 0); [| contradiction].
    destruct Hin as [<- | []]. cbn. tauto.
Qed.

(** C5, as the code has it. Every record the pipeline writes while the
    status is indexing carries one of the pairs preparing 5, copying_file 10,
    chunking 20, chunking 30, entity_extraction 60, relationship_extraction
    80, community_detection 90, finalizing 95; the pairs the monitor pushes
    are those of its own table, where chunking stands at 30; and the record
    of a completed run keeps the step finalizing at 100. *)
Theorem updates_use_code_checkpoints (oc : Outcomes) (now : Time)
    (file_metadata : FileMetadata.t) (w : World) :
  exists recs,
    written (indexing_run oc now file_metadata w).2 = (written w ++ recs)%list
    /\ (forall p, In p recs -> IndexingProgress.status p = "indexing" ->
                  In (IndexingProgress.current_step p, IndexingProgress.progress_percentage p)
                     code_checkpoints)
    /\ (forall p, In p recs -> IndexingProgress.status p = "completed" ->
                  IndexingProgress.current_step p = "finalizing"
                  /\ IndexingProgress.progress_percentage p = 100)
    /\ (forall events st,
           exists pushed,
             written (world (monitor_loop events "chunking" st).2)
             = (written (world st) ++ pushed)%list
             /\ forall p, In p pushed ->
                          In (IndexingProgress.current_step p,
                              IndexingProgress.progress_percentage p)
                             [("chunking", 30); ("entity_extraction", 60);
                              ("relationship_extraction", 80);
                              ("community_detection", 90)]).
Proof.
  destruct (indexing_run_spec oc now file_metadata w)
    as (w' & final & -> & Hw & _ & Hfinal).
  eexists. split; [exact Hw |]. split; [| split].
  - intros p Hin Hs. apply in_app_or in Hin. destruct Hin as [Hin | [<- | []]].
    + apply records_in in Hin. destruct Hin as [_ Hin].
      eapply pipeline_updates_in_checkpoints. exact Hin.
    + destruct Hfinal as [[-> _] | [e ->]]; discriminate Hs.
  - intros p Hin Hs. apply in_app_or in Hin. destruct Hin as [Hin | [<- | []]].
    + apply records_in in Hin. destruct Hin as [Hst _].
      rewrite Hs in Hst. discriminate Hst.
    + destruct Hfinal as [[-> Hstep] | [e ->]]; [| discriminate Hs].
      split; [exact Hstep | reflexivity].
  - intros events st. rewrite monitor_loop_pushes. cbn [snd].
    eexists. split; [apply pushes_written |].
    intros p Hin. apply records_in in Hin. destruct Hin as [_ Hin].
    eapply monitor_updates_in_table. exact Hin.
Qed.

(** *** Monotonicity *)

Lemma nondecreasing_cons (x y : Z) (l : list Z) :
  nondecreasing (x :: y :: l) = (Z.leb x y && nondecreasing (y :: l))%bool.
Proof. reflexivity. Qed.

Lemma nondecreasing_lower (a b : Z) (l : list Z) :
  b <= a -> nondecreasing (a :: l) = true -> nondecreasing (b :: l) = true.
Proof.
  destruct l as [| y l]; [reflexivity |].
  rewrite !nondecreasing_cons. intros Hba H. apply andb_prop in H. destruct H as [Hay Hl].
  apply Z.leb_le in Hay. rewrite Hl, Bool.andb_true_r. apply Z.leb_le. lia.
Qed.

Lemma nondecreasing_snoc (l : list Z) (b : Z) :
  nondecreasing l = true ->
  (forall x, In x l -> x <= b) ->
  nondecreasing (l ++ [b]) = true.
Proof.
  induction l as [| x l IH]; intros Hl Hb; [reflexivity |].
  destruct l as [| y l].
  - cbn. rewrite Bool.andb_true_r. apply Z.leb_le, Hb. now left.
  - rewrite nondecreasing_cons in Hl. apply andb_prop in Hl. destruct Hl as [Hxy Hl].
    change (nondecreasing (x :: y :: (l ++ [b])%list) = true).
    rewrite nondecreasing_cons, Hxy. cbn [andb].
    apply IH; [exact Hl |]. intros z Hz. apply Hb. now right.
Qed.

Lemma line_percentages_ge (events : list stdout_event) (x : Z) :
  In x (line_percentages events) -> 60 <= x.
Proof.
  induction events as [| [line | b] rest IH]; cbn [line_percentages]; [contradiction | |].
  - unfold keyword_percentage.
    repeat (destruct (Text.contains _ _)); cbn [In];
      try (intros [<- | H]; [lia | now apply IH]).
    exact IH.
  - exact IH.
Qed.

Lemma monitor_nondecreasing (events : list stdout_event) :
  forall current_step lo,
    dict_get current_step step_progress = Some lo ->
    nondecreasing (lo :: line_percentages events) = true ->
    nondecreasing (lo :: List.map snd (monitor_updates events current_step)) = true.
Proof.
  induction events as [| [line | [|]] rest IH]; intros current_step lo Hget Hsorted;
    cbn [monitor_updates line_percentages] in *; try reflexivity.
  - destruct (String.eqb line ""); [reflexivity |].
    unfold next_step, keyword_percentage in *.
    destruct (Text.contains "entity" (Text.lower (Text.strip line))).
    { rewrite nondecreasing_cons in Hsorted. apply andb_prop in Hsorted.
      destruct Hsorted as [Hle Hrest].
      cbn [dict_get step_progress String.eqb Ascii.eqb Bool.eqb andb app List.map snd].
      change (nondecreasing (lo :: 60 :: List.map snd (monitor_updates rest "entity_extraction")) = true).
      rewrite nondecreasing_cons, Hle. cbn [andb]. now apply IH. }
    destruct (Text.contains "relationship" (Text.lower (Text.strip line))).
    { rewrite nondecreasing_cons in Hsorted. apply andb_prop in Hsorted.
      destruct Hsorted as [Hle Hrest].
      change (nondecreasing (lo :: 80 :: List.map snd (monitor_updates rest "relationship_extraction")) = true).
      rewrite nondecreasing_cons, Hle. cbn [andb]. now apply IH. }
    destruct (Text.contains "community" (Text.lower (Text.strip line))).
    { rewrite nondecreasing_cons in Hsorted. apply andb_prop in Hsorted.
      destruct Hsorted as [Hle Hrest].
      change (nondecreasing (lo :: 90 :: List.map snd (monitor_updates rest "community_detection")) = true).
      rewrite nondecreasing_cons, Hle. cbn [andb]. now apply IH. }
    rewrite Hget. cbn [app List.map snd].
    rewrite nondecreasing_cons, Z.leb_refl. cbn [andb]. now apply IH.
  - now apply IH.
Qed.

Lemma pipeline_updates_nondecreasing (oc : Outcomes) :
  (forall process, subprocess oc = Return process ->
                   nondecreasing (line_percentages (stdout process)) = true) ->
  nondecreasing (List.map snd (pipeline_updates oc)) = true.
Proof.
  intros Hlines. unfold pipeline_updates.
  destruct (config_file oc); [| reflexivity].
  destruct (input_dir_made oc); [| reflexivity].
  destruct (text_content oc); [| reflexivity].
  destruct (input_written oc); [| reflexivity].
  destruct (subprocess oc) as [process |]; [| reflexivity].
  specialize (Hlines process eq_refl).
  cbn [List.map snd]. rewrite !nondecreasing_cons. cbn [Z.leb Z.compare Pos.compare Pos.compare_cont andb].
  assert (Hmon : nondecreasing
                   (30 :: List.map snd (monitor_updates (stdout process) "chunking")) = true).
  { apply monitor_nondecreasing; [reflexivity |].
    destruct (line_percentages (stdout process)) as [| x l] eqn:Hl; [reflexivity |].
    rewrite nondecreasing_cons, Hlines, Bool.andb_true_r.
    apply Z.leb_le. pose proof (line_percentages_ge (stdout process) x) as Hge.
    rewrite Hl in Hge. specialize (Hge (or_introl eq_refl)). lia. }
  rewrite List.map_app.
  assert (Hbound : forall x,
             In x (30 :: List.map snd (monitor_updates (stdout process) "chunking")) ->
             x <= 95).
  { intros x [<- | Hin]; [lia |].
    apply in_map_iff in Hin. destruct Hin as ([step y] & <- & Hin).
    apply monitor_updates_in_table in Hin. cbn in Hin.
    destruct Hin as [[= <- <-] | [[= <- <-] | [[= <- <-] | [[= <- <-] | []]]]]; cbn; lia. }
  apply (nondecreasing_lower 30 20); [lia |].
  destruct (Z.eqb (returncode process) 0).
  - change (nondecreasing
              ((30 :: List.map snd (monitor_updates (stdout process) "chunking")) ++ [95])
            = true).
    apply nondecreasing_snoc; assumption.
  - cbn [List.map]. rewrite app_nil_r. exact Hmon.
Qed.

Lemma filter_all {A} (f : A -> bool) (l : list A) :
  (forall x, In x l -> f x = true) -> List.filter f l = l.
Proof.
  induction l as [| x l IH]; intros H; cbn; [reflexivity |].
  rewrite (H x) by now left. f_equal. apply IH. intros y Hy. apply H. now right.
Qed.

(** The percentages recorded while indexing are those of the updates. *)
Lemma indexing_percentages_of_run (us : list (string * Z)) (p0 final : IndexingProgress.t) :
  IndexingProgress.status p0 = "indexing" ->
  IndexingProgress.status final <> "indexing" ->
  indexing_percentages (records us p0 ++ [final]) = List.map snd us.
Proof.
  intros Hp0 Hfinal. unfold indexing_percentages.
  rewrite List.filter_app, filter_all.
  - cbn. unfold is_indexing at 1. rewrite (string_eqb_neq _ _ Hfinal).
    rewrite app_nil_r. apply records_percentages.
  - intros q Hq. apply records_in in Hq. destruct Hq as [Hs _].
    unfold is_indexing. rewrite Hs, Hp0. reflexivity.
Qed.

(** C1, as the code has it. When the keyword lines of the child's output
    come in the order of the pipeline (no entity line after a relationship or
    community line, no relationship line after a community line), the
    percentages recorded while the status is indexing never decrease; and a
    record whose status is completed stands at exactly 100. *)
Theorem progress_monotone_in_keyword_order (oc : Outcomes) (now : Time)
    (file_metadata : FileMetadata.t) (w : World) :
  (forall process, subprocess oc = Return process ->
                   nondecreasing (line_percentages (stdout process)) = true) ->
  exists recs,
    written (indexing_run oc now file_metadata w).2 = (written w ++ recs)%list
    /\ nondecreasing (indexing_percentages recs) = true
    /\ (forall p, In p recs -> IndexingProgress.status p = "completed" ->
                  IndexingProgress.progress_percentage p = 100).
Proof.
  intros Hlines.
  destruct (indexing_run_spec oc now file_metadata w)
    as (w' & final & -> & Hw & _ & Hfinal).
  eexists. split; [exact Hw |]. split.
  - rewrite indexing_percentages_of_run.
    + now apply pipeline_updates_nondecreasing.
    + reflexivity.
    + destruct Hfinal as [[-> _] | [e ->]]; discriminate.
  - intros p Hin Hs. apply in_app_or in Hin. destruct Hin as [Hin | [<- | []]].
    + apply records_in in Hin. destruct Hin as [Hst _].
      rewrite Hs in Hst. discriminate Hst.
    + destruct Hfinal as [[-> _] | [e ->]]; [reflexivity | discriminate Hs].
Qed.

Lemma progress_monotone_in_keyword_order_witness :
  exists recs,
    written (indexing_run (sample_outcomes (indexing_process ordered_lines)) 1
               (sample_file "doc1" "indexing" None) (sample_world "indexing" None)).2
    = ([] ++ recs)%list
    /\ nondecreasing (indexing_percentages recs) = true
    /\ (forall p, In p recs -> IndexingProgress.status p = "completed" ->
                  IndexingProgress.progress_percentage p = 100).
Proof.
  apply (progress_monotone_in_keyword_order
           (sample_outcomes (indexing_process ordered_lines)) 1
           (sample_file "doc1" "indexing" None) (sample_world "indexing" None)).
  intros process [= <-]. reflexivity.
Defined.

(** The run over [ordered_lines], record by record. *)
Example ordered_run_trace :
  List.map (fun p => (IndexingProgress.status p, IndexingProgress.current_step p,
                      IndexingProgress.progress_percentage p))
    (written (indexing_run (sample_outcomes (indexing_process ordered_lines)) 1
                (sample_file "doc1" "indexing" None) (sample_world "indexing" None)).2)
  = [("indexing", "preparing", 5); ("indexing", "copying_file", 10);
     ("indexing", "chunking", 20); ("indexing", "chunking", 30);
     ("indexing", "entity_extraction", 60); ("indexing", "relationship_extraction", 80);
     ("indexing", "community_detection", 90); ("indexing", "community_detection", 90);
     ("indexing", "finalizing", 95); ("completed", "finalizing", 100)].
Proof. vm_compute. reflexivity. Qed.

(** C1 as the specification states it fails: a community line followed by an
    entity line takes the recorded percentage from 90 back to 60 while the
    status is indexing. *)
Lemma progress_can_decrease :
  indexing_percentages
    (written (indexing_run (sample_outcomes (indexing_process backwards_lines)) 1
                (sample_file "doc1" "indexing" None) (sample_world "indexing" None)).2)
  = [5; 10; 20; 90; 60; 95]
  /\ nondecreasing
       (indexing_percentages
          (written (indexing_run (sample_outcomes (indexing_process backwards_lines)) 1
                      (sample_file "doc1" "indexing" None)
                      (sample_world "indexing" None)).2))
     = false.
Proof. split; vm_compute; reflexivity. Qed.

(** C5 as the specification states it fails: on a line without a keyword
    the monitor pushes chunking at 30, a pair the listed checkpoints do not
    contain. *)
Lemma chunking_is_pushed_at_30 :
  exists p,
    In p (written (indexing_run (sample_outcomes (indexing_process ["Loading input"])) 1
                     (sample_file "doc1" "indexing" None)
                     (sample_world "indexing" None)).2)
    /\ IndexingProgress.status p = "indexing"
    /\ IndexingProgress.current_step p = "chunking"
    /\ IndexingProgress.progress_percentage p = 30
    /\ ~ In (IndexingProgress.current_step p, IndexingProgress.progress_percentage p)
           spec_checkpoints.
Proof.
  exists (IndexingProgress.mk "doc1" "indexing" "chunking" 30 None None (Some 1) None).
  split; [vm_compute; tauto |].
  repeat split. cbn. intros H.
  repeat (destruct H as [H | H]; [discriminate H |]). exact H.
Qed.

End PipelineTrace.

(** * Further properties of the code *)

(** ** What a pipeline run leaves behind *)

Section PipelineEffects.

Import GraphRAGService Trace.



(** [update_file_status] changes at most the record of its document. *)
Lemma update_file_status_frame {E} (file_id status : string)
    (kwargs : list FileMetadata.kwarg) (w : World) :
  exists r w',
    FileService.update_file_status (E := E) file_id status kwargs w = (Return r, w')
    /\ written w' = written w /\ cache w' = cache w
    /\ artifacts w' = artifacts w /\ tasks w' = tasks w
    /\ (forall other, other <> file_id -> files_data w' !! other = files_data w !! other)
    /\ (files_data w !! file_id = None -> r = None /\ w' = w)
    /\ (forall m, files_data w !! file_id = Some m ->
                  r = Some (fold_left FileMetadata.set_kwarg kwargs
                              (FileMetadata.set_status status m))
                  /\ files_data w' !! file_id = r).
Proof.
  unfold FileService.update_file_status. run.
  destruct (files_data w !! file_id) as [m |] eqn:Hm; cbn.
  - do 2 eexists. split; [reflexivity |]. cbn.
    split; [reflexivity |]. split; [reflexivity |].
    split; [reflexivity |]. split; [reflexivity |].
    split; [| split].
    + intros other Hne. apply lookup_insert_ne. congruence.
    + discriminate.
    + intros m' [= <-]. split; [reflexivity | apply lookup_insert_eq].
  - do 2 eexists. split; [reflexivity |].
    split; [reflexivity |]. split; [reflexivity |].
    split; [reflexivity |]. split; [reflexivity |].
    split; [| split].
    + reflexivity.
    + intros _. split; reflexivity.
    + discriminate.
Qed.



(** Updates change the step and the percentage only. *)
Lemma after_keeps (us : list (string * Z)) :
  forall p,
    IndexingProgress.started_at (after us p) = IndexingProgress.started_at p
    /\ IndexingProgress.completed_at (after us p) = IndexingProgress.completed_at p
    /\ IndexingProgress.error_message (after us p) = IndexingProgress.error_message p
    /\ IndexingProgress.status (after us p) = IndexingProgress.status p.
Proof.
  induction us as [| u us IH]; intros p; [repeat split |].
  change (after (u :: us) p) with (after us (updated u p)).
  destruct (IH (updated u p)) as (H1 & H2 & H3 & H4).
  rewrite H1, H2, H3, H4. repeat split.
Qed.

(** The [try] block on the success path: every collaborator returns, the
    child exits with zero and the artifact directory of the document is
    there. *)
Lemma pipeline_body_success (oc : Outcomes) (file_metadata : FileMetadata.t) (st : PState)
    (cfg txt : string) (process : Process) (dir : ArtifactDir) :
  config_file oc = Return cfg ->
  input_dir_made oc = Return tt ->
  text_content oc = Return txt ->
  input_written oc = Return tt ->
  subprocess oc = Return process ->
  returncode process = 0 ->
  leaves process (artifacts (world st)) !! FileMetadata.id file_metadata = Some dir ->
  exists st1,
    pipeline_body oc file_metadata st = (Return tt, st1)
    /\ forall m0,
         files_data (world st) !! FileMetadata.id file_metadata = Some m0 ->
         files_data (world st1) !! FileMetadata.id file_metadata
         = Some (fold_left FileMetadata.set_kwarg
                   (FileMetadata.kw_output_path
                      (output_dir ++ "/" ++ FileMetadata.id file_metadata)
                    :: _calculate_indexing_stats dir)
                   (FileMetadata.set_status "completed" m0)).
Proof.
  intros Hcfg Hdir Htxt Hin Hsub Hcode Hart. unfold pipeline_body.
  unfold bind at 1. rewrite update_progress_push.
  unfold bind at 1, lift_result at 1. rewrite Hcfg.
  unfold bind at 1. rewrite update_progress_push.
  unfold bind at 1, lift_result at 1. rewrite Hdir.
  unfold bind at 1, lift_result at 1. rewrite Htxt.
  unfold bind at 1, lift_result at 1. rewrite Hin.
  unfold bind at 1. rewrite update_progress_push.
  unfold bind at 1, lift_result at 1. rewrite Hsub.
  unfold bind at 1. rewrite monitor_process_run.
  rewrite Hcode. cbn [Z.eqb].
  unfold bind at 1. rewrite update_progress_push.
  unfold bind at 1, get_state at 1.
  cbn [world push write_status_file artifacts set_artifacts].
  rewrite pushes_artifacts. cbn [world push write_status_file artifacts].
  rewrite Hart.
  unfold bind, on_progress, modify, on_world, ret. cbn [world progress].
  match goal with
  | |- context [FileService.update_file_status ?i ?s ?k ?w] =>
      destruct (update_file_status_frame (E := exn) i s k w)
        as (r & w' & -> & _ & _ & _ & _ & _ & _ & Hm)
  end.
  eexists. split; [reflexivity |].
  intros m0 Hm0. cbn [world files_data set_artifacts write_status_file push] in Hm.
  rewrite pushes_files_data in Hm. cbn [world push write_status_file files_data] in Hm.
  destruct (Hm m0 Hm0) as [-> Hlook]. exact Hlook.
Qed.

(** On a working disk, a run whose collaborators all return, whose child
    exits with zero and leaves the artifact directory of the document, ends
    with the progress record completed at 100 with its completion time, and
    with the document record completed, pointing at the output directory and
    carrying the row counts of the four tables. *)
Lemma successful_run_on_working_disk (oc : Outcomes) (now : Time)
    (file_metadata : FileMetadata.t) (w : World) (m0 : FileMetadata.t)
    (cfg txt : string) (process : Process) (dir : ArtifactDir) :
  files_data w !! FileMetadata.id file_metadata = Some m0 ->
  config_file oc = Return cfg ->
  input_dir_made oc = Return tt ->
  text_content oc = Return txt ->
  input_written oc = Return tt ->
  subprocess oc = Return process ->
  returncode process = 0 ->
  leaves process (artifacts w) !! FileMetadata.id file_metadata = Some dir ->
  exists w' p m,
    indexing_run oc now file_metadata w = (Return tt, w')
    /\ cache w' !! FileMetadata.id file_metadata = Some (Json p)
    /\ IndexingProgress.status p = "completed"
    /\ IndexingProgress.progress_percentage p = 100
    /\ IndexingProgress.started_at p = Some now
    /\ IndexingProgress.completed_at p = Some (utcnow oc)
    /\ IndexingProgress.error_message p = None
    /\ files_data w' !! FileMetadata.id file_metadata = Some m
    /\ FileMetadata.status m = "completed"
    /\ FileMetadata.output_path m = Some (output_dir ++ "/" ++ FileMetadata.id file_metadata)
    /\ FileMetadata.chunks_count m = Some (table_len (create_final_text_units dir))
    /\ FileMetadata.entities_count m = Some (table_len (create_final_entities dir))
    /\ FileMetadata.relationships_count m
       = Some (table_len (create_final_relationships dir))
    /\ FileMetadata.communities_count m = Some (table_len (create_final_communities dir))
    /\ FileMetadata.error_message m = FileMetadata.error_message m0.
Proof.
  intros Hm0 Hcfg Hdir Htxt Hin Hsub Hcode Hart.
  destruct (pipeline_body_success oc file_metadata
              (mkPState w (initial_progress now file_metadata))
              cfg txt process dir Hcfg Hdir Htxt Hin Hsub Hcode Hart) as (st1 & Hbody & Hfiles).
  destruct (pipeline_body_run oc file_metadata
              (mkPState w (initial_progress now file_metadata)))
    as (r & st1' & Heq & _ & Hr).
  rewrite Hbody in Heq. injection Heq as <- <-. destruct Hr as [Hp _].
  specialize (Hfiles m0 Hm0).
  unfold indexing_run, run_task, _run_indexing_pipeline, try_finally, try_except.
  cbn [task_file task_progress]. rewrite Hbody.
  eexists _, _, _. split; [reflexivity |].
  cbn [world progress _save_progress modify fst snd write_status_file cache files_data].
  rewrite Hp. cbn [completed_record IndexingProgress.file_id IndexingProgress.set_completed_at
                     IndexingProgress.set_progress_percentage IndexingProgress.set_status].
  rewrite after_file_id. cbn [initial_progress IndexingProgress.file_id].
  split; [apply lookup_insert_eq |].
  split; [reflexivity |]. split; [reflexivity |].
  destruct (after_keeps (pipeline_updates oc) (initial_progress now file_metadata))
    as (Hs & _ & He & _).
  split; [exact Hs |]. split; [reflexivity |]. split; [exact He |].
  split; [exact Hfiles |]. repeat split.
Qed.





End PipelineEffects.

(** ** The pipeline task when its own operations fail *)

Section FailingPipeline.

Import Pipeline.

Lemma same_ret {A S} (a : A) : same (S := S) (ret a) (ret a).
Proof. intros s. reflexivity. Qed.

Lemma same_raise {A S} (e : exn) : same (A := A) (S := S) (raise (Exc e)) (raise e).
Proof. intros s. reflexivity. Qed.

Lemma same_bind {A B S} (c : M signal S A) (c' : M exn S A)
    (k : A -> M signal S B) (k' : A -> M exn S B) :
  same c c' -> (forall a, same (k a) (k' a)) -> same (bind c k) (bind c' k').
Proof.
  intros Hc Hk s. unfold bind. rewrite Hc.
  destruct (c' s) as [[a | e] s']; cbn; [apply Hk | reflexivity].
Qed.

Lemma same_lift_result {A S} (r : result signal A) :
  calm r -> same (S := S) (lift_result r) (lift_result (settle r)).
Proof. intros Hr s. destruct r as [a | [e | e |]]; cbn in *; (reflexivity || contradiction). Qed.

Lemma same_on_progress (f : IndexingProgress.t -> IndexingProgress.t) :
  same (on_progress f) (on_progress f).
Proof. intros s. reflexivity. Qed.

Lemma same_get_state {S} : same (S := S) get_state get_state.
Proof. intros s. reflexivity. Qed.

Lemma same_save (env : Environment) :
  (forall p w, env_save env p w = Saved) ->
  same (_save_progress env) GraphRAGService._save_progress.
Proof. intros Hsave st. unfold _save_progress. rewrite Hsave. reflexivity. Qed.

Lemma same_update (env : Environment) (step : string) (percentage : Z) :
  (forall p w, env_save env p w = Saved) ->
  same (_update_progress env step percentage)
       (GraphRAGService._update_progress step percentage).
Proof.
  intros Hsave. unfold _update_progress, GraphRAGService._update_progress.
  apply same_bind; [apply same_on_progress | intros _].
  apply same_bind; [apply same_on_progress | intros _].
  now apply same_save.
Qed.

Lemma same_monitor_loop (env : Environment) (reads : list read) :
  (forall p w, env_save env p w = Saved) ->
  clean reads = true ->
  forall current_step,
    same (monitor_loop env reads current_step)
         (GraphRAGService.monitor_loop (List.map event_of reads) current_step).
Proof.
  intros Hsave. induction reads as [| r rest IH]; intros Hclean current_step;
    [discriminate |].
  destruct r as [[text | e] | | [|] | e]; cbn [clean] in Hclean; try discriminate;
    cbn [monitor_loop GraphRAGService.monitor_loop List.map event_of].
  - apply andb_true_iff in Hclean as [Htext Hrest].
    apply negb_true_iff in Htext. rewrite Htext.
    apply same_bind; [| intros _; now apply IH].
    destruct (dict_get _ GraphRAGService.step_progress);
      [now apply same_update | apply same_ret].
  - apply same_ret.
  - apply same_ret.
  - now apply IH.
Qed.

Lemma same_monitor (env : Environment) (child : Child) :
  (forall p w, env_save env p w = Saved) ->
  child_ends child ->
  same (_monitor_indexing_process env child)
       (GraphRAGService._monitor_indexing_process (process_of child)).
Proof.
  intros Hsave [Hclean Hexit].
  unfold _monitor_indexing_process, GraphRAGService._monitor_indexing_process.
  apply same_bind; [now apply same_monitor_loop | intros _].
  intros st. unfold process_wait, GraphRAGService.process_wait, process_of.
  cbn [returncode leaves stderr].
  destruct (exit_code child) as [code |]; [| contradiction].
  unfold bind, on_world, modify, ret, raise. cbn.
  destruct (Z.eqb_spec code 0) as [-> | Hne]; [reflexivity |].
  destruct Hexit as [Hzero | [text Htext]]; [contradiction |].
  rewrite Htext. reflexivity.
Qed.

Lemma update_file_status_any {E1 E2} (file_id status : string)
    (kwargs : list FileMetadata.kwarg) (w : World) :
  exists r w',
    FileService.update_file_status (E := E1) file_id status kwargs w = (Return r, w')
    /\ FileService.update_file_status (E := E2) file_id status kwargs w = (Return r, w').
Proof.
  unfold FileService.update_file_status. run.
  destruct (files_data w !! file_id); do 2 eexists; split; reflexivity.
Qed.

Lemma same_update_file_status (env : Environment) (file_id status : string)
    (kwargs : list FileMetadata.kwarg) :
  (forall w, env_file_service env w = None) ->
  same (update_file_status env file_id status kwargs)
       (on_world (FileService.update_file_status file_id status kwargs)).
Proof.
  intros Hfs st. unfold update_file_status. rewrite Hfs. unfold on_world.
  destruct (update_file_status_any (E1 := signal) (E2 := exn) file_id status kwargs (world st))
    as (r & w' & -> & ->).
  reflexivity.
Qed.

Lemma same_body (env : Environment) (file_metadata : FileMetadata.t) :
  working env ->
  same (pipeline_body env file_metadata)
       (GraphRAGService.pipeline_body (outcomes_of env) file_metadata).
Proof.
  intros (_ & Hsave & Hfs & Hcfg & Hdir & Htxt & Hin & Hsub).
  unfold pipeline_body, GraphRAGService.pipeline_body. cbv zeta.
  apply same_bind; [now apply same_update | intros _].
  apply same_bind; [now apply same_lift_result | intros _].
  apply same_bind; [now apply same_update | intros _].
  apply same_bind; [now apply same_lift_result | intros _].
  apply same_bind; [now apply same_lift_result | intros _].
  apply same_bind; [now apply same_lift_result | intros _].
  apply same_bind; [now apply same_update | intros _].
  unfold outcomes_of at 1. cbn [subprocess].
  destruct (env_subprocess env) as [child | [e | e |]]; try contradiction.
  - change (bind (lift_result (Return child)) ?k) with (k child).
    change (bind (lift_result (Return (process_of child))) ?k) with (k (process_of child)).
    apply same_bind; [now apply same_monitor | intros _].
    apply same_bind; [now apply same_update | intros _].
    apply same_bind; [apply same_get_state | intros st].
    destruct (artifacts (world st) !! FileMetadata.id file_metadata) as [dir |];
      [| apply same_raise].
    apply same_bind; [apply same_on_progress | intros _].
    apply same_bind; [apply same_on_progress | intros _].
    apply same_bind; [apply same_on_progress | intros _].
    apply same_bind; [now apply same_update_file_status | intros _].
    apply same_ret.
  - intros st. reflexivity.
Qed.

Lemma same_handler (env : Environment) (file_metadata : FileMetadata.t) (e : exn) :
  (forall w, env_file_service env w = None) ->
  same (pipeline_handler env file_metadata e)
       (GraphRAGService.pipeline_handler file_metadata e).
Proof.
  intros Hfs. unfold pipeline_handler, GraphRAGService.pipeline_handler.
  apply same_bind; [apply same_on_progress | intros _].
  apply same_bind; [apply same_on_progress | intros _].
  apply same_bind; [now apply same_update_file_status | intros _].
  apply same_ret.
Qed.

Lemma same_try_except {A S} (body : M signal S A) (body' : M exn S A)
    (handler : exn -> M signal S A) (handler' : exn -> M exn S A) :
  same body body' -> (forall e, same (handler e) (handler' e)) ->
  same (try_except_Exception body handler) (try_except body' handler').
Proof.
  intros Hb Hh s. unfold try_except_Exception, try_except. rewrite Hb.
  destruct (body' s) as [[a | e] s']; cbn; [reflexivity | apply Hh].
Qed.

Lemma same_try_finally {A S} (body : M signal S A) (body' : M exn S A)
    (fin : M signal S unit) (fin' : M exn S unit) :
  same body body' -> same fin fin' ->
  same (try_finally_task body fin) (try_finally body' fin').
Proof.
  intros Hb Hf s. unfold try_finally_task, try_finally. rewrite Hb.
  destruct (body' s) as [[a | e] s']; cbn; rewrite Hf;
    destruct (fin' s') as [[[] | e'] s'']; reflexivity.
Qed.

(** On a working disk the task does what [GraphRAGService] says it does. *)
Lemma run_on_working_disk (env : Environment) (now : Time)
    (file_metadata : FileMetadata.t) (w : World) :
  working env ->
  Pipeline.indexing_run env now file_metadata w
  = lift_out (Trace.indexing_run (outcomes_of env) now file_metadata w).
Proof.
  intros Hw. pose proof Hw as (Hdir & Hsave & Hfs & _).
  unfold Pipeline.indexing_run, Trace.indexing_run, run_task, GraphRAGService.run_task.
  cbn [task_file task_progress].
  unfold _run_indexing_pipeline, GraphRAGService._run_indexing_pipeline.
  rewrite Hdir. change (bind (lift_result (Return tt)) ?k) with (k tt).
  rewrite (same_try_finally _ _ _ _
             (same_try_except _ _ _ _ (same_body env file_metadata Hw)
                (fun e => same_handler env file_metadata e Hfs))
             (same_save env Hsave)).
  destruct (try_finally _ _ _) as [[[] | e] st]; reflexivity.
Qed.


(** Conversely, every run of [GraphRAGService] is the run of the task in the
    environment without failures of its own, for the child whose listed
    output is followed by the end of the stream. *)
Lemma working_disk_run (oc : Outcomes) (now : Time) (file_metadata : FileMetadata.t)
    (w : World) :
  Pipeline.indexing_run (of_outcomes oc) now file_metadata w
  = lift_out (Trace.indexing_run oc now file_metadata w).
Proof.
  assert (Hsave : forall p w', env_save (of_outcomes oc) p w' = Saved) by reflexivity.
  assert (Hfs : forall w', env_file_service (of_outcomes oc) w' = None) by reflexivity.
  assert (Hup : forall (A : Type) (r : result exn A),
             same (S := PState)
                  (lift_result match r with Return a => Return a | Raise e => Raise (Exc e) end)
                  (lift_result r)).
  { intros A [a | e] st; reflexivity. }
  assert (Hloop : forall events current_step,
             same (monitor_loop (of_outcomes oc)
                     (List.map (fun ev => match ev with
                                          | Line "" => Eof
                                          | Line line => Data (Return line)
                                          | Timeout exited => Expired exited
                                          end) events ++ [Eof]) current_step)
                  (GraphRAGService.monitor_loop events current_step)).
  { induction events as [| ev events IH]; intros current_step; [apply same_ret |].
    destruct ev as [[| c line] | [|]];
      cbn [List.map app monitor_loop GraphRAGService.monitor_loop String.eqb];
      try apply same_ret; [| apply IH].
    change (String.eqb (String c line) "") with false. cbv iota.
    apply same_bind; [| intros _; apply IH].
    destruct (dict_get _ GraphRAGService.step_progress);
      [now apply same_update | apply same_ret]. }
  assert (Hbody : same (pipeline_body (of_outcomes oc) file_metadata)
                       (GraphRAGService.pipeline_body oc file_metadata)).
  { unfold pipeline_body, GraphRAGService.pipeline_body, of_outcomes. cbv zeta.
    cbn [env_config_file env_input_dir_made env_text_content env_input_written
         env_subprocess env_utcnow].
    fold (of_outcomes oc).
    apply same_bind; [now apply same_update | intros _].
    apply same_bind; [apply Hup | intros _].
    apply same_bind; [now apply same_update | intros _].
    apply same_bind; [apply Hup | intros _].
    apply same_bind; [apply Hup | intros _].
    apply same_bind; [apply Hup | intros _].
    apply same_bind; [now apply same_update | intros _].
    destruct (subprocess oc) as [process | e]; [| intros st; reflexivity].
    change (bind (lift_result (Return ?a)) ?k) with (k a). cbv beta.
    apply same_bind.
    { unfold _monitor_indexing_process, GraphRAGService._monitor_indexing_process.
      cbn [reads exit_code stderr_text child_leaves].
      apply same_bind; [apply Hloop | intros _].
      intros st. unfold process_wait, GraphRAGService.process_wait.
      cbn [exit_code child_leaves]. unfold bind, on_world, modify, ret, raise. cbn.
      destruct (Z.eqb (returncode process) 0); reflexivity. }
    intros _. apply same_bind; [now apply same_update | intros _].
    apply same_bind; [apply same_get_state | intros st].
    destruct (artifacts (world st) !! FileMetadata.id file_metadata) as [dir |];
      [| apply same_raise].
    apply same_bind; [apply same_on_progress | intros _].
    apply same_bind; [apply same_on_progress | intros _].
    apply same_bind; [apply same_on_progress | intros _].
    apply same_bind; [now apply same_update_file_status | intros _].
    apply same_ret. }
  unfold Pipeline.indexing_run, Trace.indexing_run, run_task, GraphRAGService.run_task.
  cbn [task_file task_progress].
  unfold _run_indexing_pipeline, GraphRAGService._run_indexing_pipeline.
  change (env_output_dir_made (of_outcomes oc)) with (@Return signal unit tt).
  change (bind (lift_result (Return tt)) ?k) with (k tt). cbv beta.
  rewrite (same_try_finally _ _ _ _
             (same_try_except _ _ _ _ Hbody
                (fun e => same_handler (of_outcomes oc) file_metadata e Hfs))
             (same_save (of_outcomes oc) Hsave)).
  destruct (try_finally _ _ _) as [[[] | e] st]; reflexivity.
Qed.

(** *** What every run keeps, whatever fails *)

Lemma holds_bind {A B} (pre : PState -> Prop) (c : M signal PState A)
    (k : A -> M signal PState B) (mid : result signal A -> PState -> Prop)
    (post : result signal B -> PState -> Prop) :
  holds pre c mid ->
  (forall a, holds (mid (Return a)) (k a) post) ->
  (forall s st, mid (Raise s) st -> post (Raise s) st) ->
  holds pre (bind c k) post.
Proof.
  intros Hc Hk Hraise st Hpre. specialize (Hc st Hpre). unfold bind.
  destruct (c st) as [[a | s] st']; cbn in *; [now apply Hk | now apply Hraise].
Qed.

Lemma holds_weaken {A} (pre : PState -> Prop) (c : M signal PState A)
    (post post' : result signal A -> PState -> Prop) :
  holds pre c post -> (forall r st, post r st -> post' r st) -> holds pre c post'.
Proof. intros Hc Hpost st Hpre. apply Hpost, Hc, Hpre. Qed.

Lemma keeps_bind {A B} (c : M signal PState A) (k : A -> M signal PState B) :
  keeps c -> (forall a, keeps (k a)) -> keeps (bind c k).
Proof.
  intros Hc Hk f0 file_id.
  apply (holds_bind _ _ _ (fun _ => kept f0 file_id)); [apply Hc | | auto].
  intros a. apply Hk.
Qed.

Lemma keeps_ret {A} (a : A) : keeps (ret a).
Proof. intros f0 file_id st H. exact H. Qed.

Lemma keeps_raise {A} (s : signal) : keeps (A := A) (raise s).
Proof. intros f0 file_id st H. exact H. Qed.

Lemma keeps_lift_result {A} (r : result signal A) : keeps (lift_result r).
Proof. intros f0 file_id st H. exact H. Qed.

Lemma keeps_save (env : Environment) : keeps (_save_progress env).
Proof.
  intros f0 file_id st [Hf Hid]. unfold _save_progress.
  destruct (env_save env (progress st) (world st)); split; assumption.
Qed.

Lemma keeps_update (env : Environment) (step : string) (percentage : Z) :
  keeps (_update_progress env step percentage).
Proof.
  unfold _update_progress.
  apply keeps_bind; [intros f0 file_id st H; exact H | intros _].
  apply keeps_bind; [intros f0 file_id st H; exact H | intros _].
  apply keeps_save.
Qed.

Lemma keeps_monitor_loop (env : Environment) (reads : list read) :
  forall current_step, keeps (monitor_loop env reads current_step).
Proof.
  induction reads as [| r rest IH]; intros current_step; [apply keeps_raise |].
  destruct r as [[text | e] | | [|] | e]; cbn [monitor_loop];
    try apply keeps_ret; try apply keeps_raise; [| apply IH].
  apply keeps_bind; [| intros _; apply IH].
  destruct (dict_get _ GraphRAGService.step_progress);
    [apply keeps_update | apply keeps_ret].
Qed.

Lemma keeps_monitor (env : Environment) (child : Child) :
  keeps (_monitor_indexing_process env child).
Proof.
  unfold _monitor_indexing_process.
  apply keeps_bind; [apply keeps_monitor_loop | intros _].
  apply keeps_bind.
  - unfold process_wait. destruct (exit_code child); [| apply keeps_raise].
    apply keeps_bind; [intros f0 file_id st H; exact H | intros _; apply keeps_ret].
  - intros return_code. destruct (Z.eqb return_code 0); [apply keeps_ret |].
    destruct (stderr_text child); apply keeps_raise.
Qed.

Lemma set_kwargs_status (kwargs : list FileMetadata.kwarg) :
  forall m,
    FileMetadata.status (fold_left FileMetadata.set_kwarg kwargs m) = FileMetadata.status m.
Proof.
  induction kwargs as [| k kwargs IH]; intros m; cbn [fold_left]; [reflexivity |].
  rewrite IH. destruct k; reflexivity.
Qed.

(** The [try] block either completes the document or leaves the registry as
    it found it. *)
Lemma body_outcome (env : Environment) (file_metadata : FileMetadata.t)
    (f0 : gmap string FileMetadata.t) (m0 : FileMetadata.t) :
  f0 !! FileMetadata.id file_metadata = Some m0 ->
  holds (kept f0 (FileMetadata.id file_metadata)) (pipeline_body env file_metadata)
        (fun r st => match r with
                     | Return _ => done (FileMetadata.id file_metadata) st
                     | Raise _ => kept f0 (FileMetadata.id file_metadata) st
                     end).
Proof.
  intros Hm0. set (file_id := FileMetadata.id file_metadata).
  unfold pipeline_body. cbv zeta. fold file_id.
  pose (inv := fun (_ : result signal unit) => kept f0 file_id).
  assert (Hstep : forall (A B : Type) (c : M signal PState A) (k : A -> M signal PState B) post,
             keeps c ->
             (forall a, holds (kept f0 file_id) (k a) post) ->
             (forall s st, kept f0 file_id st -> post (Raise s) st) ->
             holds (kept f0 file_id) (bind c k) post).
  { intros A B c k post Hc Hk Hr.
    apply (holds_bind _ _ _ (fun _ => kept f0 file_id)); [apply Hc | exact Hk | exact Hr]. }
  apply Hstep; [apply keeps_update | intros _ | auto].
  apply Hstep; [apply keeps_lift_result | intros _ | auto].
  apply Hstep; [apply keeps_update | intros _ | auto].
  apply Hstep; [apply keeps_lift_result | intros _ | auto].
  apply Hstep; [apply keeps_lift_result | intros _ | auto].
  apply Hstep; [apply keeps_lift_result | intros _ | auto].
  apply Hstep; [apply keeps_update | intros _ | auto].
  apply Hstep; [apply keeps_lift_result | intros child | auto].
  apply Hstep; [apply keeps_monitor | intros _ | auto].
  apply Hstep; [apply keeps_update | intros _ | auto].
  intros st [Hf Hid].
  change ((bind get_state ?k) st) with (k st st). cbv beta.
  destruct (artifacts (world st) !! file_id) as [dir |]; [| cbn; split; assumption].
  set (kwargs := FileMetadata.kw_output_path _ :: _).
  set (st3 := mkPState (world st)
                (IndexingProgress.set_completed_at (Some (env_utcnow env))
                   (IndexingProgress.set_progress_percentage 100
                      (IndexingProgress.set_status "completed" (progress st))))).
  change ((bind (on_progress ?f1) (fun _ => bind (on_progress ?f2) (fun _ =>
             bind (on_progress ?f3) (fun _ => ?k)))) st)
    with (k st3).
  unfold bind, update_file_status. change (world st3) with (world st).
  destruct (env_file_service env (world st)) as [e |]; [cbn; split; assumption |].
  unfold on_world. change (world st3) with (world st).
  destruct (update_file_status_frame (E := signal) file_id "completed" kwargs (world st))
    as (r & w' & Heq & _ & _ & _ & _ & _ & _ & Hsome).
  rewrite Heq. cbn. rewrite Hf in Hsome. destruct (Hsome m0 Hm0) as [-> Hlook].
  split; [exact Hid |]. split; [reflexivity |]. split; [reflexivity |].
  eexists. split; [exact Hlook |]. now rewrite set_kwargs_status.
Qed.

(** The handler on a registered document whose metadata can be written. *)
Lemma handler_run (env : Environment) (file_metadata : FileMetadata.t) (e : exn)
    (st1 : PState) (m : FileMetadata.t) :
  env_file_service env (world st1) = None ->
  files_data (world st1) !! FileMetadata.id file_metadata = Some m ->
  exists w2 m',
    pipeline_handler env file_metadata e st1
    = (Return tt, mkPState w2 (Trace.failed_record e (progress st1)))
    /\ files_data w2 !! FileMetadata.id file_metadata = Some m'
    /\ FileMetadata.status m' = "error"
    /\ FileMetadata.error_message m' = Some (str e)
    /\ cache w2 = cache (world st1).
Proof.
  intros Hfs Hm. unfold pipeline_handler.
  set (st2 := mkPState (world st1) (Trace.failed_record e (progress st1))).
  change ((bind (on_progress ?f1) (fun _ => bind (on_progress ?f2) (fun _ => ?k))) st1)
    with (k st2).
  unfold bind, update_file_status. change (world st2) with (world st1). rewrite Hfs.
  unfold on_world. change (world st2) with (world st1).
  destruct (update_file_status_frame (E := signal) (FileMetadata.id file_metadata) "error"
              [FileMetadata.kw_error_message (Some (str e))] (world st1))
    as (r & w2 & Heq & _ & Hcache & _ & _ & _ & _ & Hsome).
  rewrite Heq. cbn. destruct (Hsome m Hm) as [-> Hlook].
  exists w2. eexists. split; [reflexivity |]. split; [exact Hlook |].
  split; [reflexivity |]. split; [reflexivity | exact Hcache].
Qed.

(** What the task does once its directory is made. *)
Lemma run_after_mkdir (env : Environment) (now : Time) (file_metadata : FileMetadata.t)
    (w : World) :
  env_output_dir_made env = Return tt ->
  Pipeline.indexing_run env now file_metadata w
  = (let out :=
       try_finally_task
         (try_except_Exception (pipeline_body env file_metadata)
                               (pipeline_handler env file_metadata))
         (_save_progress env)
         (mkPState w (GraphRAGService.initial_progress now file_metadata)) in
     (out.1, world out.2)).
Proof.
  intros Hdir. unfold Pipeline.indexing_run, run_task, _run_indexing_pipeline.
  cbn [task_file task_progress]. rewrite Hdir.
  change (bind (lift_result (Return tt)) ?k) with (k tt). cbv beta zeta.
  destruct (try_finally_task _ _ _) as [r st]. reflexivity.
Qed.

(** An instance of [Exception] raised in the [try] block of a registered
    document is recorded, when the metadata file and the final progress
    record can be written. *)
Lemma exception_is_recorded (env : Environment) (now : Time)
    (file_metadata : FileMetadata.t) (w : World) (m0 : FileMetadata.t)
    (e : exn) (st1 : PState) :
  files_data w !! FileMetadata.id file_metadata = Some m0 ->
  env_output_dir_made env = Return tt ->
  (forall w', env_file_service env w' = None) ->
  (forall p w', IndexingProgress.status p = "error" -> env_save env p w' = Saved) ->
  pipeline_body env file_metadata
    (mkPState w (GraphRAGService.initial_progress now file_metadata))
  = (Raise (Exc e), st1) ->
  Pipeline.error_recorded (FileMetadata.id file_metadata) (str e)
    (Pipeline.indexing_run env now file_metadata w).
Proof.
  intros Hm0 Hdir Hfs Hsave Hbody.
  pose proof (body_outcome env file_metadata (files_data w) m0 Hm0
                (mkPState w (GraphRAGService.initial_progress now file_metadata))
                (conj eq_refl eq_refl)) as Hkept.
  rewrite Hbody in Hkept. cbn in Hkept. destruct Hkept as [Hf Hid].
  destruct (handler_run env file_metadata e st1 m0 (Hfs _)) as (w2 & m' & Hh & Hm' & Hs & He & _).
  { now rewrite Hf. }
  rewrite (run_after_mkdir env now file_metadata w Hdir). cbv zeta.
  unfold try_finally_task, try_except_Exception. rewrite Hbody, Hh.
  unfold _save_progress. cbn [progress world].
  rewrite (Hsave (Trace.failed_record e (progress st1)) w2 eq_refl). cbn [fst snd world].
  split; [reflexivity |].
  exists (Trace.failed_record e (progress st1)), m'.
  cbn [write_status_file cache written files_data].
  split. { unfold Trace.failed_record. cbn. rewrite Hid. apply lookup_insert_eq. }
  split. { apply last_snoc. }
  split; [reflexivity |]. split; [reflexivity |].
  split; [exact Hm' |]. split; [exact Hs | exact He].
Qed.

(** The hypotheses of a run of which every step but the child's ending is
    given add up to a working environment. *)
Lemma working_of_steps (env : Environment) (cfg txt : string) (child : Child) :
  env_output_dir_made env = Return tt ->
  (forall p w, env_save env p w = Saved) ->
  (forall w, env_file_service env w = None) ->
  env_config_file env = Return cfg ->
  env_input_dir_made env = Return tt ->
  env_text_content env = Return txt ->
  env_input_written env = Return tt ->
  env_subprocess env = Return child ->
  child_ends child ->
  working env
  /\ config_file (outcomes_of env) = Return cfg
  /\ input_dir_made (outcomes_of env) = Return tt
  /\ text_content (outcomes_of env) = Return txt
  /\ input_written (outcomes_of env) = Return tt
  /\ subprocess (outcomes_of env) = Return (process_of child).
Proof.
  intros Hdir Hsave Hfs Hcfg Hin Htxt Hw Hsub Hends.
  unfold working, outcomes_of. cbn [config_file input_dir_made text_content input_written subprocess].
  rewrite Hcfg, Hin, Htxt, Hw, Hsub. cbn [calm].
  split; [| repeat split].
  split; [exact Hdir |]. split; [exact Hsave |]. split; [exact Hfs |].
  split; [exact I |]. split; [exact I |]. split; [exact I |]. split; [exact I |].
  exact Hends.
Qed.

(** C3. An instance of [Exception] raised in the [try] block of the pipeline
    of a registered document is caught: the task ends normally and the
    message [str(e)] is on the progress record and on the document record,
    both in status error, provided the output directory was made before the
    [try], the file service can write the metadata file and the progress
    record in status error can be written. In particular, when every write
    succeeds and the child's output ends cleanly, a child that exits with a
    code other than zero is recorded with its standard error text behind
    the prefix the code puts before it (with the words "Unknown error" for an
    empty text), and a child that exits with zero without an artifact
    directory is recorded as completed without artifacts. *)
Theorem pipeline_errors_are_recorded (env : Environment) (now : Time)
    (file_metadata : FileMetadata.t) (w : World) (m0 : FileMetadata.t) :
  files_data w !! FileMetadata.id file_metadata = Some m0 ->
  env_output_dir_made env = Return tt ->
  (forall w', env_file_service env w' = None) ->
  (forall p w', IndexingProgress.status p = "error" -> env_save env p w' = Saved) ->
  (forall e st1,
      pipeline_body env file_metadata
        (mkPState w (GraphRAGService.initial_progress now file_metadata))
      = (Raise (Exc e), st1) ->
      Pipeline.error_recorded (FileMetadata.id file_metadata) (str e)
        (Pipeline.indexing_run env now file_metadata w))
  /\ (forall cfg txt child code text,
         (forall p w', env_save env p w' = Saved) ->
         env_config_file env = Return cfg ->
         env_input_dir_made env = Return tt ->
         env_text_content env = Return txt ->
         env_input_written env = Return tt ->
         env_subprocess env = Return child ->
         clean (reads child) = true ->
         exit_code child = Some code ->
         code <> 0 ->
         stderr_text child = Return text ->
         Pipeline.error_recorded (FileMetadata.id file_metadata)
           ("GraphRAG indexing failed: "
            ++ (if String.eqb text "" then "Unknown error" else text))
           (Pipeline.indexing_run env now file_metadata w))
  /\ (forall cfg txt child,
         (forall p w', env_save env p w' = Saved) ->
         env_config_file env = Return cfg ->
         env_input_dir_made env = Return tt ->
         env_text_content env = Return txt ->
         env_input_written env = Return tt ->
         env_subprocess env = Return child ->
         clean (reads child) = true ->
         exit_code child = Some 0 ->
         child_leaves child (artifacts w) !! FileMetadata.id file_metadata = None ->
         Pipeline.error_recorded (FileMetadata.id file_metadata)
           "Indexing completed but no artifacts found"
           (Pipeline.indexing_run env now file_metadata w)).
Proof.
  intros Hm0 Hdir Hfs Herr.
  split; [| split].
  - intros e st1 Hbody. now apply (exception_is_recorded env now file_metadata w m0 e st1).
  - intros cfg txt child code text Hsave Hcfg Hin Htxt Hw Hsub Hclean Hexit Hcode Htext.
    destruct (working_of_steps env cfg txt child Hdir Hsave Hfs Hcfg Hin Htxt Hw Hsub)
      as (Hworking & Hcfg' & Hin' & Htxt' & Hw' & Hsub').
    { split; [exact Hclean |]. rewrite Hexit. right. now exists text. }
    destruct (nonzero_exit_raises (outcomes_of env) file_metadata
                (mkPState w (GraphRAGService.initial_progress now file_metadata))
                cfg txt (process_of child) Hcfg' Hin' Htxt' Hw' Hsub') as [st1 Hbody].
    { unfold process_of. cbn [returncode]. now rewrite Hexit. }
    unfold process_of in Hbody. cbn [stderr] in Hbody. rewrite Htext in Hbody.
    apply (exception_is_recorded env now file_metadata w m0
             (Exception ("GraphRAG indexing failed: "
                         ++ (if String.eqb text "" then "Unknown error" else text)))
             st1 Hm0 Hdir Hfs Herr).
    rewrite (same_body env file_metadata Hworking), Hbody. reflexivity.
  - intros cfg txt child Hsave Hcfg Hin Htxt Hw Hsub Hclean Hexit Hnone.
    destruct (working_of_steps env cfg txt child Hdir Hsave Hfs Hcfg Hin Htxt Hw Hsub)
      as (Hworking & Hcfg' & Hin' & Htxt' & Hw' & Hsub').
    { split; [exact Hclean |]. rewrite Hexit. now left. }
    destruct (missing_artifacts_raise (outcomes_of env) file_metadata
                (mkPState w (GraphRAGService.initial_progress now file_metadata))
                cfg txt (process_of child) Hcfg' Hin' Htxt' Hw' Hsub') as [st1 Hbody].
    { unfold process_of. cbn [returncode]. now rewrite Hexit. }
    { exact Hnone. }
    apply (exception_is_recorded env now file_metadata w m0
             (Exception "Indexing completed but no artifacts found")
             st1 Hm0 Hdir Hfs Herr).
    rewrite (same_body env file_metadata Hworking), Hbody. reflexivity.
Qed.

Lemma pipeline_errors_are_recorded_witness :
  Pipeline.error_recorded "doc1" "GraphRAG indexing failed: boom"
    (Pipeline.indexing_run (sample_environment (sample_child ["Starting"] 1 "boom")) 1
       (sample_file "doc1" "indexing" None) (sample_world "indexing" None)).
Proof.
  pose proof (pipeline_errors_are_recorded
                (sample_environment (sample_child ["Starting"] 1 "boom")) 1
                (sample_file "doc1" "indexing" None) (sample_world "indexing" None)
                (sample_file "doc1" "indexing" None) eq_refl eq_refl
                (fun _ => eq_refl) (fun _ _ _ => eq_refl)) as (_ & Hexit & _).
  apply (Hexit "settings.yml" "some text" (sample_child ["Starting"] 1 "boom") 1 "boom");
    first [reflexivity | discriminate].
Defined.

(** What the pipeline does not record: a failure to make the output
    directory leaves the task with nothing written; a [CancelledError] in
    the [try] block passes the handler and leaves the task with both
    records still indexing; when the final write of the progress file
    fails, its exception leaves the task and the progress file does not
    show the error the document record shows; and for a document that is no
    longer registered there is no document record to write to. *)
Lemma pipeline_errors_can_go_unrecorded :
  Pipeline.indexing_run no_directory 1 (sample_file "doc1" "indexing" None)
    (sample_world "indexing" None)
  = (Raise (Exc (mkExn "PermissionError" "[Errno 13] Permission denied")),
     sample_world "indexing" None)
  /\ (let out := Pipeline.indexing_run cancelled_task 1 (sample_file "doc1" "indexing" None)
                   (sample_world "indexing" None) in
      out.1 = Raise (Base (mkExn "CancelledError" ""))
      /\ (FileMetadata.status <$> files_data out.2 !! "doc1") = Some "indexing"
      /\ (IndexingProgress.status <$> last (written out.2)) = Some "indexing")
  /\ (let out := Pipeline.indexing_run closed_cache 1 (sample_file "doc1" "indexing" None)
                   (sample_world "indexing" None) in
      out.1 = Raise (Exc (mkExn "OSError" "[Errno 28] No space left on device"))
      /\ (FileMetadata.status <$> files_data out.2 !! "doc1") = Some "error"
      /\ (IndexingProgress.status <$> last (written out.2)) = Some "indexing")
  /\ (let out := Pipeline.indexing_run missing_upload 1 (sample_file "doc1" "indexing" None)
                   (mkWorld ∅ ∅ ∅ [] []) in
      out.1 = Return tt
      /\ files_data out.2 !! "doc1" = None
      /\ (IndexingProgress.status <$> last (written out.2)) = Some "error").
Proof.
  split; [reflexivity |]. split; [| split]; cbv zeta; (split; [| split]); reflexivity.
Qed.

(** X1. A run for a registered document ends with the progress record
    completed at 100 with its completion time, and with the document record
    completed, pointing at the output directory and carrying the row counts
    of the four tables (zero for a table that is not there), when the output
    directory is made, every write of the progress file and of the metadata
    file succeeds, the collaborators all return, every line the child
    prints decodes, its output ends, and it exits with zero leaving the
    artifact directory of the document. The error message of the document
    is not touched. *)
Theorem successful_run_records_counts (env : Environment) (now : Time)
    (file_metadata : FileMetadata.t) (w : World) (m0 : FileMetadata.t)
    (cfg txt : string) (child : Child) (dir : ArtifactDir) :
  files_data w !! FileMetadata.id file_metadata = Some m0 ->
  env_output_dir_made env = Return tt ->
  (forall p w', env_save env p w' = Saved) ->
  (forall w', env_file_service env w' = None) ->
  env_config_file env = Return cfg ->
  env_input_dir_made env = Return tt ->
  env_text_content env = Return txt ->
  env_input_written env = Return tt ->
  env_subprocess env = Return child ->
  clean (reads child) = true ->
  exit_code child = Some 0 ->
  child_leaves child (artifacts w) !! FileMetadata.id file_metadata = Some dir ->
  exists w' p m,
    Pipeline.indexing_run env now file_metadata w = (Return tt, w')
    /\ cache w' !! FileMetadata.id file_metadata = Some (Json p)
    /\ IndexingProgress.status p = "completed"
    /\ IndexingProgress.progress_percentage p = 100
    /\ IndexingProgress.started_at p = Some now
    /\ IndexingProgress.completed_at p = Some (env_utcnow env)
    /\ IndexingProgress.error_message p = None
    /\ files_data w' !! FileMetadata.id file_metadata = Some m
    /\ FileMetadata.status m = "completed"
    /\ FileMetadata.output_path m
       = Some (GraphRAGService.output_dir ++ "/" ++ FileMetadata.id file_metadata)
    /\ FileMetadata.chunks_count m
       = Some (GraphRAGService.table_len (create_final_text_units dir))
    /\ FileMetadata.entities_count m
       = Some (GraphRAGService.table_len (create_final_entities dir))
    /\ FileMetadata.relationships_count m
       = Some (GraphRAGService.table_len (create_final_relationships dir))
    /\ FileMetadata.communities_count m
       = Some (GraphRAGService.table_len (create_final_communities dir))
    /\ FileMetadata.error_message m = FileMetadata.error_message m0.
Proof.
  intros Hm0 Hdir Hsave Hfs Hcfg Hin Htxt Hw Hsub Hclean Hexit Hart.
  destruct (working_of_steps env cfg txt child Hdir Hsave Hfs Hcfg Hin Htxt Hw Hsub)
    as (Hworking & Hcfg' & Hin' & Htxt' & Hw' & Hsub').
  { split; [exact Hclean |]. rewrite Hexit. now left. }
  destruct (successful_run_on_working_disk (outcomes_of env) now file_metadata w m0
              cfg txt (process_of child) dir Hm0 Hcfg' Hin' Htxt' Hw' Hsub')
    as (w' & p & m & Hrun & Hrest).
  { unfold process_of. cbn [returncode]. now rewrite Hexit. }
  { exact Hart. }
  exists w', p, m. split; [| exact Hrest].
  rewrite (run_on_working_disk env now file_metadata w Hworking), Hrun. reflexivity.
Qed.

Lemma successful_run_records_counts_witness :
  exists w',
    Pipeline.indexing_run (sample_environment (indexing_child ordered_lines)) 1
      (sample_file "doc1" "indexing" None) (sample_world "indexing" None)
    = (Return tt, w')
    /\ (FileMetadata.entities_count <$> files_data w' !! "doc1") = Some (Some 2)
    /\ (FileMetadata.communities_count <$> files_data w' !! "doc1") = Some (Some 0).
Proof.
  destruct (successful_run_records_counts
              (sample_environment (indexing_child ordered_lines)) 1
              (sample_file "doc1" "indexing" None) (sample_world "indexing" None)
              (sample_file "doc1" "indexing" None) "settings.yml" "some text"
              (indexing_child ordered_lines) sample_artifacts
              eq_refl eq_refl (fun _ _ => eq_refl) (fun _ => eq_refl)
              eq_refl eq_refl eq_refl eq_refl eq_refl eq_refl eq_refl eq_refl)
    as (w' & p & m & Hrun & _ & _ & _ & _ & _ & _ & Hm & _ & _ & _ & He & _ & Hc & _).
  exists w'. split; [exact Hrun |]. cbn in Hm. rewrite Hm. cbn.
  rewrite He, Hc. split; reflexivity.
Defined.

(** X2. The run of the task of a registered document returns normally and
    leaves the document record and the progress record in agreement on a
    terminal status (both completed, at 100, or both error with one and the
    same message), read back as such by the service and by the status
    endpoint, when the output directory is made, the [try] block ends with a
    result or with an instance of [Exception], the file service can write
    the metadata file and a progress record in a terminal status can be
    written. Writes of the progress file inside the [try] block may fail, a
    line may fail to decode. *)
Theorem run_ends_in_agreeing_terminal_status (env : Environment) (now t : Time)
    (file_metadata : FileMetadata.t) (w : World) (m0 : FileMetadata.t) :
  files_data w !! FileMetadata.id file_metadata = Some m0 ->
  env_output_dir_made env = Return tt ->
  (forall w', env_file_service env w' = None) ->
  (forall p w', terminal p -> env_save env p w' = Saved) ->
  (forall s st1,
      pipeline_body env file_metadata
        (mkPState w (GraphRAGService.initial_progress now file_metadata))
      = (Raise s, st1) ->
      exists e, s = Exc e) ->
  exists w' p m,
    Pipeline.indexing_run env now file_metadata w = (Return tt, w')
    /\ GraphRAGService.get_indexing_status (FileMetadata.id file_metadata) w'
       = (Return (Some p), w')
    /\ IndexingApi.get_indexing_status t (FileMetadata.id file_metadata) w'
       = (Return p, w')
    /\ files_data w' !! FileMetadata.id file_metadata = Some m
    /\ FileMetadata.status m = IndexingProgress.status p
    /\ ((IndexingProgress.status p = "completed"
         /\ IndexingProgress.progress_percentage p = 100)
        \/ (IndexingProgress.status p = "error"
            /\ exists msg, IndexingProgress.error_message p = Some msg
                           /\ FileMetadata.error_message m = Some msg)).
Proof.
  intros Hm0 Hdir Hfs Hsave Hends.
  assert (Hrun : exists w' p m,
             Pipeline.indexing_run env now file_metadata w = (Return tt, w')
             /\ cache w' !! FileMetadata.id file_metadata = Some (Json p)
             /\ files_data w' !! FileMetadata.id file_metadata = Some m
             /\ FileMetadata.status m = IndexingProgress.status p
             /\ ((IndexingProgress.status p = "completed"
                  /\ IndexingProgress.progress_percentage p = 100)
                 \/ (IndexingProgress.status p = "error"
                     /\ exists msg, IndexingProgress.error_message p = Some msg
                                    /\ FileMetadata.error_message m = Some msg))).
  { pose proof (body_outcome env file_metadata (files_data w) m0 Hm0
                  (mkPState w (GraphRAGService.initial_progress now file_metadata))
                  (conj eq_refl eq_refl)) as Hbody.
    destruct (pipeline_body env file_metadata
                (mkPState w (GraphRAGService.initial_progress now file_metadata)))
      as [[[] | s] st1] eqn:Heq; cbn in Hbody.
    - destruct Hbody as (Hid & Hstatus & Hpct & m & Hm & Hms).
      rewrite (run_after_mkdir env now file_metadata w Hdir). cbv zeta.
      unfold try_finally_task, try_except_Exception. rewrite Heq.
      unfold _save_progress.
      rewrite (Hsave (progress st1) (world st1) (or_introl Hstatus)). cbn [fst snd world].
      exists (write_status_file (progress st1) (world st1)), (progress st1), m.
      split; [reflexivity |]. cbn [write_status_file cache files_data].
      split. { rewrite Hid. apply lookup_insert_eq. }
      split; [exact Hm |]. split; [congruence |]. left. split; assumption.
    - destruct (Hends s st1 eq_refl) as [e ->].
      destruct (exception_is_recorded env now file_metadata w m0 e st1 Hm0 Hdir Hfs)
        as (Hret & p & m & Hcache & _ & Hps & Hpe & Hm & Hms & Hme).
      { intros p w' Hp. apply Hsave. now right. }
      { exact Heq. }
      destruct (Pipeline.indexing_run env now file_metadata w) as [r w'].
      cbn in *. subst r. exists w', p, m. split; [reflexivity |].
      split; [exact Hcache |]. split; [exact Hm |]. split; [congruence |].
      right. split; [exact Hps |]. exists (str e). split; assumption. }
  destruct Hrun as (w' & p & m & Hrun & Hcache & Hm & Hs & Hcases).
  assert (Hservice : GraphRAGService.get_indexing_status (FileMetadata.id file_metadata) w'
                     = (Return (Some p), w')).
  { unfold GraphRAGService.get_indexing_status. run. rewrite Hcache. reflexivity. }
  exists w', p, m. split; [exact Hrun |]. split; [exact Hservice |]. split.
  { unfold IndexingApi.get_indexing_status. run. rewrite Hm. run.
    rewrite Hservice. reflexivity. }
  split; [exact Hm |]. split; [exact Hs | exact Hcases].
Qed.

Lemma run_ends_in_agreeing_terminal_status_witness :
  exists w' p m,
    Pipeline.indexing_run (sample_environment garbling_child) 1
      (sample_file "doc1" "indexing" None) (sample_world "indexing" None)
    = (Return tt, w')
    /\ IndexingApi.get_indexing_status 9 "doc1" w' = (Return p, w')
    /\ files_data w' !! "doc1" = Some m
    /\ FileMetadata.status m = IndexingProgress.status p.
Proof.
  destruct (run_ends_in_agreeing_terminal_status
              (sample_environment garbling_child) 1 9
              (sample_file "doc1" "indexing" None) (sample_world "indexing" None)
              (sample_file "doc1" "indexing" None) eq_refl eq_refl
              (fun _ => eq_refl) (fun _ _ _ => eq_refl))
    as (w' & p & m & Hrun & _ & Hapi & Hm & Hs & _).
  { intros s st1 H. vm_compute in H. injection H as <- _. eexists. reflexivity. }
  exists w', p, m. auto.
Defined.

(** A push on a disk that takes every write. *)
Lemma update_saved (env : Environment) (step : string) (percentage : Z) (st : PState) :
  (forall p w, env_save env p w = Saved) ->
  _update_progress env step percentage st = (Return tt, Trace.push (step, percentage) st).
Proof.
  intros Hsave. rewrite (same_update env step percentage Hsave).
  now rewrite update_progress_push.
Qed.

(** The monitor stops at the first read that fails. *)
Lemma monitor_loop_read_error (env : Environment) (bad : read) (e : exn) (rest : list read) :
  (forall p w, env_save env p w = Saved) ->
  read_error bad = Some e ->
  forall pre current_step st,
    forallb readable pre = true ->
    exists st1,
      monitor_loop env (pre ++ bad :: rest) current_step st = (Raise (Exc e), st1).
Proof.
  intros Hsave Hbad. induction pre as [| r pre IH]; intros current_step st Hpre.
  - cbn [app]. destruct bad as [[text | e'] | | [|] | e']; try discriminate;
      injection Hbad as <-; eexists; reflexivity.
  - cbn [forallb] in Hpre. apply andb_true_iff in Hpre as [Hr Hpre].
    destruct r as [[text | e'] | | [|] | e']; try discriminate; cbn [app monitor_loop].
    + unfold bind at 1.
      destruct (dict_get _ GraphRAGService.step_progress) as [percentage |].
      * rewrite (update_saved env _ percentage _ Hsave). now apply IH.
      * now apply IH.
    + now apply IH.
Qed.

(** X28. A read of the child's output that raises, or a line whose bytes do
    not decode, ends the run of a registered document in error: the task
    returns normally and the message of that exception is on the progress
    record and on the document record, whatever exit code and artifacts the
    child would have left. The output directory is made, the writes
    succeed and the steps before the child return. *)
Theorem failed_read_is_recorded (env : Environment) (now : Time)
    (file_metadata : FileMetadata.t) (w : World) (m0 : FileMetadata.t)
    (cfg txt : string) (child : Child) (pre rest : list read) (bad : read) (e : exn) :
  files_data w !! FileMetadata.id file_metadata = Some m0 ->
  env_output_dir_made env = Return tt ->
  (forall p w', env_save env p w' = Saved) ->
  (forall w', env_file_service env w' = None) ->
  env_config_file env = Return cfg ->
  env_input_dir_made env = Return tt ->
  env_text_content env = Return txt ->
  env_input_written env = Return tt ->
  env_subprocess env = Return child ->
  reads child = (pre ++ bad :: rest)%list ->
  forallb readable pre = true ->
  read_error bad = Some e ->
  Pipeline.error_recorded (FileMetadata.id file_metadata) (str e)
    (Pipeline.indexing_run env now file_metadata w).
Proof.
  intros Hm0 Hdir Hsave Hfs Hcfg Hin Htxt Hw Hsub Hreads Hpre Hbad.
  assert (Hbody : exists st1,
             pipeline_body env file_metadata
               (mkPState w (GraphRAGService.initial_progress now file_metadata))
             = (Raise (Exc e), st1)).
  { unfold pipeline_body. cbv zeta.
    unfold bind at 1. rewrite (update_saved env _ _ _ Hsave).
    unfold bind at 1, lift_result at 1. rewrite Hcfg.
    unfold bind at 1. rewrite (update_saved env _ _ _ Hsave).
    unfold bind at 1, lift_result at 1. rewrite Hin.
    unfold bind at 1, lift_result at 1. rewrite Htxt.
    unfold bind at 1, lift_result at 1. rewrite Hw.
    unfold bind at 1. rewrite (update_saved env _ _ _ Hsave).
    unfold bind at 1, lift_result at 1. rewrite Hsub.
    unfold bind at 1. unfold _monitor_indexing_process. unfold bind at 1. rewrite Hreads.
    match goal with
    | |- context [monitor_loop env _ ?step ?st] =>
        destruct (monitor_loop_read_error env bad e rest Hsave Hbad pre step st Hpre)
          as [st1 Hloop]
    end.
    rewrite Hloop. eexists. reflexivity. }
  destruct Hbody as [st1 Hbody].
  apply (exception_is_recorded env now file_metadata w m0 e st1 Hm0 Hdir Hfs); [| exact Hbody].
  intros p w' _. apply Hsave.
Qed.

Lemma failed_read_is_recorded_witness :
  Pipeline.error_recorded "doc1"
    "'utf-8' codec can't decode byte 0xff in position 0: invalid start byte"
    (Pipeline.indexing_run (sample_environment garbling_child) 1
       (sample_file "doc1" "indexing" None) (sample_world "indexing" None)).
Proof.
  apply (failed_read_is_recorded (sample_environment garbling_child) 1
           (sample_file "doc1" "indexing" None) (sample_world "indexing" None)
           (sample_file "doc1" "indexing" None) "settings.yml" "some text" garbling_child
           [Data (Return "Loading input")] [Eof]
           (Data (Raise (mkExn "UnicodeDecodeError"
                           "'utf-8' codec can't decode byte 0xff in position 0: invalid start byte")))
           (mkExn "UnicodeDecodeError"
              "'utf-8' codec can't decode byte 0xff in position 0: invalid start byte"));
    first [reflexivity | intros; reflexivity].
Defined.

End FailingPipeline.

(** ** Strings *)

Section StringFacts.

Import Text.

Lemma length_lstrip (s : string) : (String.length (lstrip s) <= String.length s)%nat.
Proof.
  induction s as [| c s IH]; cbn; [lia |].
  destruct (is_space c); cbn; lia.
Qed.

Lemma length_rstrip (s : string) : (String.length (rstrip s) <= String.length s)%nat.
Proof.
  induction s as [| c s IH]; cbn; [lia |].
  destruct (rstrip s) eqn:Hr; [destruct (is_space c) |]; cbn in *; lia.
Qed.

Lemma length_strip (s : string) : (String.length (strip s) <= String.length s)%nat.
Proof.
  unfold strip. pose proof (length_rstrip (lstrip s)). pose proof (length_lstrip s). lia.
Qed.

Lemma rstrip_cons_keep (c : ascii) (s : string) :
  is_space c = false -> rstrip (String c s) = String c (rstrip s).
Proof. intros Hc. cbn. destruct (rstrip s); [now rewrite Hc | reflexivity]. Qed.

Lemma rstrip_idempotent (s : string) : rstrip (rstrip s) = rstrip s.
Proof.
  induction s as [| c s IH]; [reflexivity |].
  cbn. destruct (rstrip s) as [| d r] eqn:Hr.
  - destruct (is_space c) eqn:Hc; [reflexivity |]. cbn. now rewrite Hc.
  - change (rstrip (String c (String d r)) = String c (String d r)).
    cbn. cbn in IH. destruct (match rstrip r with
                              | EmptyString => if is_space d then EmptyString else String d EmptyString
                              | String a s0 => String d (String a s0)
                              end) eqn:Hd; [discriminate IH |].
    now rewrite IH.
Qed.

Lemma lstrip_starts_clean (s : string) :
  lstrip s = EmptyString \/ exists c r, lstrip s = String c r /\ is_space c = false.
Proof.
  induction s as [| c s IH]; cbn; [now left |].
  destruct (is_space c) eqn:Hc; [exact IH |]. right. now exists c, s.
Qed.

(** Stripping twice is stripping once. *)
Lemma strip_idempotent (s : string) : strip (strip s) = strip s.
Proof.
  unfold strip. destruct (lstrip_starts_clean s) as [-> | (c & r & -> & Hc)].
  - reflexivity.
  - rewrite (rstrip_cons_keep c r Hc). cbn [lstrip]. rewrite Hc.
    rewrite <- (rstrip_cons_keep c r Hc). apply rstrip_idempotent.
Qed.

Lemma length_substring (s : string) :
  forall a n, String.length (String.substring a n s) = Nat.min n (String.length s - a).
Proof.
  induction s as [| c s IH]; intros a n.
  - destruct a, n; reflexivity.
  - destruct a as [| a]; cbn.
    + destruct n as [| n]; [reflexivity |]. cbn. rewrite IH. f_equal. f_equal. lia.
    + apply IH.
Qed.

Lemma length_str_drop (n : nat) :
  forall s, String.length (Py.str_drop n s) = (String.length s - n)%nat.
Proof.
  induction n as [| n IH]; intros [| c s]; cbn; try reflexivity; try lia.
  apply IH.
Qed.

Lemma substring_str_drop (n : nat) :
  forall s a len,
    String.substring (n + a) len s = String.substring a len (Py.str_drop n s).
Proof.
  induction n as [| n IH]; intros s a len; [reflexivity |].
  destruct s as [| c s]; cbn.
  - destruct a, len; reflexivity.
  - apply IH.
Qed.

Lemma take_str_drop (n : nat) :
  forall s, String.substring 0 n s ++ Py.str_drop n s = s.
Proof.
  induction n as [| n IH]; intros [| c s]; cbn; try reflexivity.
  change (String c (String.substring 0 n s ++ Py.str_drop n s) = String c s).
  now rewrite IH.
Qed.

(** Consecutive slices of length [size] put together give the string back. *)
Lemma join_slices (size : nat) :
  (0 < size)%nat ->
  forall m s,
    (String.length s <= m * size)%nat ->
    Py.join (List.map (fun k => String.substring (k * size) size s) (List.seq 0 m)) = s.
Proof.
  intros Hsize. induction m as [| m IH]; intros s Hlen.
  - destruct s; [reflexivity | cbn in Hlen; lia].
  - cbn [List.seq List.map Py.join fold_right]. rewrite <- seq_shift, List.map_map.
    rewrite (List.map_ext _ (fun k => String.substring (k * size) size (Py.str_drop size s))).
    + change (fold_right String.append EmptyString ?l) with (Py.join l).
      rewrite IH by (rewrite length_str_drop; lia).
      apply take_str_drop.
    + intros k. cbn [Nat.mul]. apply substring_str_drop.
Qed.

Lemma slices_cover (size len : nat) :
  (0 < size)%nat -> (len <= (len + size - 1) / size * size)%nat.
Proof.
  intros Hsize. pose proof (Nat.div_mod_eq (len + size - 1) size) as Hd.
  pose proof (Nat.mod_upper_bound (len + size - 1) size). nia.
Qed.

Lemma slices_start (size len k : nat) :
  (0 < size)%nat -> (k < (len + size - 1) / size)%nat -> (k * size < len)%nat.
Proof.
  intros Hsize Hk. pose proof (Nat.div_mod_eq (len + size - 1) size) as Hd.
  pose proof (Nat.mod_upper_bound (len + size - 1) size). nia.
Qed.

(** The pieces of [Text.slices]: together they are the string, and each has
    between one and [size] characters. *)
Lemma slices_spec (size : nat) (s : string) :
  (0 < size)%nat ->
  Py.join (slices size s) = s
  /\ forall piece, In piece (slices size s) ->
                   (1 <= String.length piece <= size)%nat.
Proof.
  intros Hsize. unfold slices. split.
  - apply join_slices; [exact Hsize |]. now apply slices_cover.
  - intros piece Hin. apply in_map_iff in Hin. destruct Hin as (k & <- & Hk).
    apply in_seq in Hk. rewrite length_substring.
    pose proof (slices_start size (String.length s) k Hsize). lia.
Qed.

End StringFacts.

(** ** Chat requests *)

Section ChatFacts.

Import GraphRAGService ChatApi.

(** X5. A chat query the model accepts carries the stripped message, which
    is not empty, has at most 2000 characters and no white space at either
    end; and a local query whose file list was supplied has a file in it. *)
Theorem accepted_chat_query_is_clean (message : string) (mode : ChatMode)
    (file_ids : option (list string)) (conversation_id : option string)
    (q : ChatQuery.t) :
  ChatModels.make_chat_query message mode file_ids conversation_id = Return q ->
  ChatQuery.message q = Text.strip message
  /\ (1 <= String.length (ChatQuery.message q) <= 2000)%nat
  /\ Text.strip (ChatQuery.message q) = ChatQuery.message q
  /\ ChatQuery.mode q = mode
  /\ (forall ids, file_ids = Some ids ->
                  ChatQuery.file_ids q = ids /\ (mode = LOCAL -> ids <> [])).
Proof.
  unfold ChatModels.make_chat_query, ChatModels.validate_message.
  destruct (String.eqb message "" || Nat.eqb (String.length (Text.strip message)) 0)%bool
    eqn:Hempty.
  { destruct file_ids as [[| ? ?] |]; destruct mode; discriminate. }
  destruct (Nat.ltb_spec 2000 (String.length message)) as [Hlong | Hshort].
  { destruct file_ids as [[| ? ?] |]; destruct mode; discriminate. }
  apply Bool.orb_false_iff in Hempty. destruct Hempty as [_ Hlen].
  apply Nat.eqb_neq in Hlen. pose proof (length_strip message) as Hle.
  assert (Hq : forall ids,
             @Return (list exn) _ (ChatQuery.mk (Text.strip message) mode ids conversation_id)
             = Return q ->
             ChatQuery.message q = Text.strip message
             /\ (1 <= String.length (ChatQuery.message q) <= 2000)%nat
             /\ Text.strip (ChatQuery.message q) = ChatQuery.message q
             /\ ChatQuery.mode q = mode /\ ChatQuery.file_ids q = ids).
  { intros ids [= <-]. cbn. split; [reflexivity |]. split; [lia |].
    split; [apply strip_idempotent |]. split; reflexivity. }
  destruct file_ids as [ids |]; cbn.
  - destruct mode, ids as [| i ids]; cbn; try discriminate; intros Hret;
      destruct (Hq _ Hret) as (H1 & H2 & H3 & H4 & H5);
      (split; [exact H1 |]; split; [exact H2 |]; split; [exact H3 |]; split; [exact H4 |]);
      intros ids' [= <-]; (split; [exact H5 |]); intros Hm; discriminate.
  - intros Hret. destruct (Hq _ Hret) as (H1 & H2 & H3 & H4 & H5).
    split; [exact H1 |]. split; [exact H2 |]. split; [exact H3 |]. split; [exact H4 |].
    intros ids' [=].
Qed.

Lemma accepted_chat_query_is_clean_witness :
  ChatQuery.message (ChatQuery.mk "hello" LOCAL ["doc1"] None) = Text.strip "  hello  "
  /\ Text.strip "hello" = "hello".
Proof.
  destruct (accepted_chat_query_is_clean "  hello  " LOCAL (Some ["doc1"]) None
              (ChatQuery.mk "hello" LOCAL ["doc1"] None) eq_refl)
    as (Hm & _ & Hs & _).
  split; [exact Hm | exact Hs].
Defined.

(** X6. When a local query leaves the file list out, the validator of the
    model does not run: the query is built with an empty list, and it is the
    handlers that refuse it, with status 400 and without touching the stores
    or the engines. *)
Theorem omitted_file_ids_reach_the_handler (env : Env) (message : string)
    (conversation_id : option string) (q : ChatQuery.t) (w : World) :
  ChatModels.make_chat_query message LOCAL None conversation_id = Return q ->
  ChatQuery.file_ids q = []
  /\ chat_query env q w
     = (Raise (mkHTTPException 400 "Local mode requires at least one file_id"), w)
  /\ chat_stream env q w
     = (Raise (mkHTTPException 400 "Local mode requires at least one file_id"), w).
Proof.
  unfold ChatModels.make_chat_query.
  destruct (ChatModels.validate_message message) as [m | e]; [| discriminate].
  intros [= <-]. repeat split.
Qed.

Lemma omitted_file_ids_reach_the_handler_witness :
  chat_query sample_env (ChatQuery.mk "hi" LOCAL [] None) indexed_world
  = (Raise (mkHTTPException 400 "Local mode requires at least one file_id"), indexed_world).
Proof.
  destruct (omitted_file_ids_reach_the_handler sample_env "hi" None
              (ChatQuery.mk "hi" LOCAL [] None) indexed_world eq_refl)
    as (_ & Hq & _).
  exact Hq.
Defined.

Lemma valid_file_ids_filter {E} (file_ids : list string) (w : World) :
  valid_file_ids (E := E) file_ids w = (Return (List.filter (is_completed w) file_ids), w).
Proof.
  induction file_ids as [| file_id rest IH]; cbn; [reflexivity |].
  run. rewrite IH. cbn.
  change (is_completed w file_id)
    with (match files_data w !! file_id with
          | Some m => String.eqb (FileMetadata.status m) "completed"
          | None => false
          end).
  destruct (files_data w !! file_id) as [m |]; cbn; [| reflexivity].
  destruct (String.eqb (FileMetadata.status m) "completed"); reflexivity.
Qed.

(** The file and the name every converted source is attributed to. *)
Lemma convert_sources_map {E} (valid : list string)
    (sources : list (list (string * string))) (w : World) :
  convert_sources (E := E) valid sources w
  = (Return
       (List.map
          (fun source_data =>
             ChatSource.mk
               (match valid with first :: _ => first | [] => "unknown" end)
               (match valid with
                | first :: _ =>
                    match files_data w !! first with
                    | Some f => FileMetadata.original_filename f
                    | None => "unknown"
                    end
                | [] => "unknown"
                end)
               (dict_get "chunk_id" source_data)
               (dict_get "score" source_data))
          sources), w).
Proof.
  induction sources as [| source_data rest IH]; cbn; [reflexivity |].
  destruct valid as [| first valid']; run; rewrite IH; reflexivity.
Qed.

Lemma extract_entry_shape (context_data : context) (entry : list (string * string)) :
  In entry (_extract_sources_from_context context_data) ->
  exists key content, entry = [("type", key); ("content", content)].
Proof.
  destruct context_data as [items | other]; cbn; [| contradiction].
  intros Hin. apply in_flat_map in Hin. destruct Hin as ([key value] & _ & Hentry).
  destruct (is_source_key key); [| contradiction].
  destruct Hentry as [<- | []]. eauto.
Qed.

(** [query_graph] reads the stores only; its sources are entries of
    [_extract_sources_from_context], and what it raises is the wrapped
    message. *)
Lemma query_graph_outcome (eng : Engines) (start_time end_time : Time) (query : string)
    (mode : ChatMode) (file_ids : list string) (w : World) :
  exists r,
    query_graph eng start_time end_time query mode file_ids w = (r, w)
    /\ match r with
       | Return res =>
           processing_time res = end_time - start_time
           /\ forall entry, In entry (sources res) ->
                            exists key content, entry = [("type", key); ("content", content)]
       | Raise e => exists e0, e = Exception ("Error querying graph: " ++ str e0)
       end.
Proof.
  unfold query_graph. run. destruct mode.
  - unfold _local_search. run.
    destruct (load_local (artifacts w) file_ids ([], [], [])) as [[es rs] ts].
    destruct es as [| e0 es].
    + cbn. eexists. split; [reflexivity |]. cbn. split; [reflexivity | contradiction].
    + run. destruct (local_asearch eng query _ _ _) as [[resp ctx] | e]; cbn.
      * destruct ctx as [items | [items |]]; cbn.
        -- eexists. split; [reflexivity |]. cbn. split; [reflexivity |].
           intros entry Hin.
           eapply extract_entry_shape with (context_data := CtxDict items). exact Hin.
        -- eexists. split; [reflexivity |]. cbn. split; [reflexivity | contradiction].
        -- eexists. split; [reflexivity |].
           exists GraphRAGService.context_data_error.
           reflexivity.
      * eexists. split; [reflexivity |]. eexists. reflexivity.
  - unfold _global_search. run.
    destruct (load_global (artifacts w) file_ids ([], [])) as [cs es].
    destruct cs as [| c0 cs].
    + cbn. eexists. split; [reflexivity |]. cbn. split; [reflexivity | contradiction].
    + run. destruct (global_asearch eng query _ _) as [[resp ctx] | e]; cbn.
      * destruct ctx as [items | [items |]]; cbn.
        -- eexists. split; [reflexivity |]. cbn. split; [reflexivity |].
           intros entry Hin.
           eapply extract_entry_shape with (context_data := CtxDict items). exact Hin.
        -- eexists. split; [reflexivity |]. cbn. split; [reflexivity | contradiction].
        -- eexists. split; [reflexivity |].
           exists GraphRAGService.context_data_error.
           reflexivity.
      * eexists. split; [reflexivity |]. eexists. reflexivity.
Qed.

(** X7. The sources of a chat answer never carry a chunk id or a relevance
    score, and all of them are attributed to the first of the listed files
    that is registered and completed, under its original name, whichever
    document the text came from. The stores are left as they were. *)
Theorem chat_sources_name_the_first_file (env : Env) (query : ChatQuery.t) (w w' : World)
    (r : ChatResponse.t) :
  chat_query env query w = (Return r, w') ->
  w' = w
  /\ ChatResponse.processing_time r = end_time env - start_time env
  /\ forall s, In s (ChatResponse.sources r) ->
               ChatSource.chunk_id s = None
               /\ ChatSource.relevance_score s = None
               /\ exists rest m,
                    List.filter (is_completed w) (ChatQuery.file_ids query)
                    = ChatSource.file_id s :: rest
                    /\ files_data w !! ChatSource.file_id s = Some m
                    /\ FileMetadata.status m = "completed"
                    /\ ChatSource.filename s = FileMetadata.original_filename m.
Proof.
  unfold chat_query.
  destruct (is_local (ChatQuery.mode query) && bool_decide (ChatQuery.file_ids query = []))%bool;
    [discriminate |].
  run. rewrite valid_file_ids_filter.
  set (valid := List.filter (is_completed w) (ChatQuery.file_ids query)).
  assert (Hvalid : forall x, In x valid ->
                             exists m, files_data w !! x = Some m
                                       /\ FileMetadata.status m = "completed").
  { intros x Hx. apply filter_In in Hx. destruct Hx as [_ Hx]. unfold is_completed in Hx.
    destruct (files_data w !! x) as [m |]; [| discriminate].
    exists m. split; [reflexivity |]. now apply String.eqb_eq. }
  destruct (is_local (ChatQuery.mode query) && bool_decide (valid = []))%bool eqn:Hgate;
    [discriminate |].
  destruct (ChatQuery.mode query) eqn:Hmode.
  - destruct (query_graph_outcome (engines env) (start_time env) (end_time env)
                (ChatQuery.message query) LOCAL (dispatched_file_ids LOCAL valid) w)
      as (res & -> & Hres).
    destruct res as [res | e]; [| discriminate].
    destruct Hres as [Htime Hshape].
    rewrite convert_sources_map. intros [= <- <-].
    split; [reflexivity |]. split; [exact Htime |].
    cbn [ChatResponse.sources]. intros s Hs. apply in_map_iff in Hs.
    destruct Hs as (source_data & <- & Hin).
    destruct (Hshape _ Hin) as (key & content & ->). cbn.
    split; [reflexivity |]. split; [reflexivity |].
    destruct valid as [| first rest] eqn:Hv; [cbn in Hgate; discriminate |].
    destruct (Hvalid first (or_introl eq_refl)) as (m & Hm & Hst).
    exists rest, m. rewrite Hm. repeat split; assumption.
  - cbn. intros [= <- <-]. split; [reflexivity |]. split; [reflexivity |].
    cbn. contradiction.
Qed.

Lemma chat_sources_name_the_first_file_witness :
  exists r,
    chat_query sample_env (ChatQuery.mk "who is X" LOCAL ["doc1"] None) indexed_world
    = (Return r, indexed_world)
    /\ ChatResponse.processing_time r = 2.
Proof.
  eexists. split; [reflexivity |].
  refine (proj1 (proj2 (chat_sources_name_the_first_file sample_env
                          (ChatQuery.mk "who is X" LOCAL ["doc1"] None)
                          indexed_world indexed_world _ eq_refl))).
Defined.

(** X8. A request in local mode that names no file, or none that is
    registered and completed, is refused with status 400 by both handlers;
    the engines are not asked and the stores are left as they were. *)
Theorem local_chat_needs_a_completed_file (env : Env) (query : ChatQuery.t) (w : World) :
  ChatQuery.mode query = LOCAL ->
  (forall file_id, In file_id (ChatQuery.file_ids query) -> is_completed w file_id = false) ->
  let detail :=
    match ChatQuery.file_ids query with
    | [] => "Local mode requires at least one file_id"
    | _ :: _ => "No valid completed files found for local search"
    end in
  chat_query env query w = (Raise (mkHTTPException 400 detail), w)
  /\ chat_stream env query w = (Raise (mkHTTPException 400 detail), w).
Proof.
  intros Hmode Hnone. cbv zeta. unfold chat_query, chat_stream. rewrite Hmode.
  cbn [is_local andb].
  destruct (ChatQuery.file_ids query) as [| file_id rest] eqn:Hids.
  - split; reflexivity.
  - rewrite bool_decide_eq_false_2 by discriminate.
    run. rewrite !valid_file_ids_filter.
    assert (Hf : List.filter (is_completed w) (file_id :: rest) = []).
    { clear -Hnone. induction (file_id :: rest) as [| x l IH]; [reflexivity |].
      cbn. rewrite (Hnone x) by now left. apply IH. intros y Hy. apply Hnone. now right. }
    rewrite Hf. split; reflexivity.
Qed.

Lemma local_chat_needs_a_completed_file_witness :
  chat_query sample_env (ChatQuery.mk "who is X" LOCAL ["doc1"] None)
    (sample_world "indexing" None)
  = (Raise (mkHTTPException 400 "No valid completed files found for local search"),
     sample_world "indexing" None).
Proof.
  refine (proj1 (local_chat_needs_a_completed_file sample_env
                   (ChatQuery.mk "who is X" LOCAL ["doc1"] None)
                   (sample_world "indexing" None) eq_refl _)).
  intros file_id [<- | []]. reflexivity.
Defined.

(** X9. Whatever makes [query_graph] raise reaches the client of
    [chat_query] as status 500 with the message wrapped twice ("Chat query
    failed: Error querying graph: ..."), and the client of [chat_stream] as
    a single final chunk after the opening one, whose error is the message
    wrapped once; the stores are left as they were. *)
Theorem query_failure_reaches_the_client (env : Env) (query : ChatQuery.t) (w w1 : World)
    (e : exn) :
  let valid := List.filter (is_completed w) (ChatQuery.file_ids query) in
  (ChatQuery.mode query = LOCAL -> valid <> []) ->
  query_graph (engines env) (start_time env) (end_time env) (ChatQuery.message query)
    (ChatQuery.mode query) (dispatched_file_ids (ChatQuery.mode query) valid) w
  = (Raise e, w1) ->
  exists e0,
    str e = "Error querying graph: " ++ str e0
    /\ chat_query env query w
       = (Raise (mkHTTPException 500
                   ("Chat query failed: " ++ ("Error querying graph: " ++ str e0))), w)
    /\ chat_stream env query w
       = (Return [ChatStreamChunk.mk (chunk_uuid env) "" false [] None;
                  ChatStreamChunk.mk (chunk_uuid env) "" true []
                    (Some ("Error querying graph: " ++ str e0))], w).
Proof.
  cbv zeta. intros Hvalid Hraise.
  destruct (query_graph_outcome (engines env) (start_time env) (end_time env)
              (ChatQuery.message query) (ChatQuery.mode query)
              (dispatched_file_ids (ChatQuery.mode query)
                 (List.filter (is_completed w) (ChatQuery.file_ids query))) w)
    as (r & Hq & Hr).
  rewrite Hq in Hraise. injection Hraise as -> <-.
  destruct Hr as [e0 ->]. exists e0. split; [reflexivity |].
  assert (Hgate1 : (is_local (ChatQuery.mode query)
                    && bool_decide (ChatQuery.file_ids query = []))%bool = false).
  { destruct (ChatQuery.mode query); [| reflexivity]. cbn.
    apply bool_decide_eq_false_2. intros Hnil. apply Hvalid; [reflexivity |].
    now rewrite Hnil. }
  assert (Hgate2 : (is_local (ChatQuery.mode query)
                    && bool_decide (List.filter (is_completed w) (ChatQuery.file_ids query)
                                    = []))%bool = false).
  { destruct (ChatQuery.mode query); [| reflexivity]. cbn.
    apply bool_decide_eq_false_2. now apply Hvalid. }
  unfold chat_query, chat_stream. rewrite Hgate1. run. rewrite !valid_file_ids_filter.
  rewrite Hgate2. unfold generate_stream. rewrite Hq. split; reflexivity.
Qed.

Lemma query_failure_reaches_the_client_witness :
  exists e0,
    chat_query failing_env (ChatQuery.mk "who is X" LOCAL ["doc1"] None) indexed_world
    = (Raise (mkHTTPException 500
                ("Chat query failed: " ++ ("Error querying graph: " ++ str e0))),
       indexed_world).
Proof.
  destruct (query_failure_reaches_the_client failing_env
              (ChatQuery.mk "who is X" LOCAL ["doc1"] None) indexed_world indexed_world
              (mkExn "Exception" "Error querying graph: engine down"))
    as (e0 & _ & Hq & _).
  - intros _. discriminate.
  - reflexivity.
  - exists e0. exact Hq.
Defined.

(** X10. What [chat_stream] sends once the query has an answer: an opening
    chunk, the answer cut into pieces of one to fifty characters that put
    together are the answer again, and one closing chunk, the only one
    marked final, which carries the sources. *)
Theorem stream_rebuilds_the_answer (env : Env) (query : ChatQuery.t) (valid : list string)
    (w w1 : World) (res : GraphRAGQueryResult) :
  query_graph (engines env) (start_time env) (end_time env) (ChatQuery.message query)
    (ChatQuery.mode query) (dispatched_file_ids (ChatQuery.mode query) valid) w
  = (Return res, w1) ->
  exists pieces last,
    generate_stream env query valid w
    = (ChatStreamChunk.mk (chunk_uuid env) "" false [] None
       :: List.map (fun piece => ChatStreamChunk.mk (chunk_uuid env) piece false [] None) pieces
       ++ [last])%list
    /\ Py.join pieces = response res
    /\ (forall piece, In piece pieces -> (1 <= String.length piece <= 50)%nat)
    /\ ChatStreamChunk.is_final last = true
    /\ ChatStreamChunk.content last = ""
    /\ ChatStreamChunk.error last = None
    /\ List.length (ChatStreamChunk.sources last) = List.length (sources res).
Proof.
  intros Hq. unfold generate_stream. rewrite Hq.
  destruct (query_graph_outcome (engines env) (start_time env) (end_time env)
              (ChatQuery.message query) (ChatQuery.mode query)
              (dispatched_file_ids (ChatQuery.mode query) valid) w) as (r & Hq' & _).
  rewrite Hq in Hq'. injection Hq' as _ ->.
  rewrite convert_sources_map.
  destruct (slices_spec 50 (response res)) as [Hjoin Hlen]; [lia |].
  eexists _, _. split; [reflexivity |].
  split; [exact Hjoin |]. split; [exact Hlen |].
  cbn. repeat split. apply length_map.
Qed.

Lemma stream_rebuilds_the_answer_witness :
  exists pieces last,
    generate_stream sample_env (ChatQuery.mk "who is X" LOCAL ["doc1"] None) ["doc1"]
      indexed_world
    = (ChatStreamChunk.mk "k-1" "" false [] None
       :: List.map (fun piece => ChatStreamChunk.mk "k-1" piece false [] None) pieces
       ++ [last])%list
    /\ Py.join pieces = "local answer".
Proof.
  destruct (stream_rebuilds_the_answer sample_env
              (ChatQuery.mk "who is X" LOCAL ["doc1"] None) ["doc1"]
              indexed_world _ _ eq_refl)
    as (pieces & last & Hs & Hj & _).
  exists pieces, last. split; [exact Hs | exact Hj].
Defined.

End ChatFacts.

(** ** Lists the Python way *)

Section PyFacts.

Context {A : Type}.

Lemma slice_nonneg (a b : Z) (l : list A) :
  0 <= a <= b ->
  Py.slice a b l = List.firstn (Z.to_nat (b - a)) (List.skipn (Z.to_nat a) l).
Proof.
  intros Hab. unfold Py.slice.
  destruct (Z.ltb_spec a 0) as [? | _]; [lia |].
  destruct (Z.ltb_spec b 0) as [? | _]; [lia |].
  set (n := Z.of_nat (List.length l)).
  destruct (Z.le_gt_cases n a) as [Hge | Hlt].
  - rewrite (Z.min_r a n) by lia.
    rewrite !(List.skipn_all2 l) by (subst n; lia).
    now rewrite !List.firstn_nil.
  - rewrite (Z.min_l a n) by lia.
    destruct (Z.le_gt_cases b n) as [Hbn | Hbn].
    + now rewrite (Z.min_l b n) by lia.
    + rewrite (Z.min_r b n) by lia.
      rewrite !List.firstn_all2; [reflexivity | |]; rewrite List.length_skipn; subst n; lia.
Qed.

(** Consecutive runs of [n] elements put together give the list back. *)
Lemma concat_runs (n : nat) :
  (0 < n)%nat ->
  forall m (l : list A),
    (List.length l <= m * n)%nat ->
    List.concat (List.map (fun k => List.firstn n (List.skipn (k * n) l)) (List.seq 0 m)) = l.
Proof.
  intros Hn. induction m as [| m IH]; intros l Hlen.
  - destruct l; [reflexivity | cbn in Hlen; lia].
  - cbn [List.seq List.map List.concat]. rewrite <- seq_shift, List.map_map.
    rewrite (List.map_ext _ (fun k => List.firstn n (List.skipn (k * n) (List.skipn n l)))).
    + rewrite IH by (rewrite List.length_skipn; lia).
      cbn [Nat.mul List.skipn]. apply List.firstn_skipn.
    + intros k. cbn [Nat.mul]. rewrite List.skipn_skipn. do 2 f_equal. lia.
Qed.

Variable key : A -> Z.

Lemma insert_desc_perm (x : A) (l : list A) :
  Permutation (Py.insert_desc key x l) (x :: l).
Proof.
  induction l as [| y l IH]; cbn; [reflexivity |].
  destruct (Z.ltb (key x) (key y)); [| reflexivity].
  rewrite IH. apply perm_swap.
Qed.

Lemma sorted_desc_perm (l : list A) : Permutation (Py.sorted_desc key l) l.
Proof.
  induction l as [| x l IH]; cbn; [reflexivity |].
  rewrite insert_desc_perm. now constructor.
Qed.

Lemma insert_desc_sorted (x : A) (l : list A) :
  StronglySorted (fun a b => key b <= key a) l ->
  StronglySorted (fun a b => key b <= key a) (Py.insert_desc key x l).
Proof.
  induction l as [| y l IH]; intros Hs; cbn.
  - repeat constructor.
  - inversion Hs as [| ? ? Hl Hy]; subst.
    destruct (Z.ltb_spec (key x) (key y)) as [Hlt | Hge].
    + constructor; [now apply IH |].
      apply Forall_forall. intros z Hz.
      rewrite (insert_desc_perm x l) in Hz.
      apply elem_of_cons in Hz. destruct Hz as [-> | Hz]; [lia |].
      rewrite Forall_forall in Hy. now apply Hy.
    + constructor; [exact Hs |].
      constructor; [lia |].
      rewrite Forall_forall in Hy |- *. intros z Hz. specialize (Hy z Hz). lia.
Qed.

Lemma sorted_desc_sorted (l : list A) :
  StronglySorted (fun a b => key b <= key a) (Py.sorted_desc key l).
Proof.
  induction l as [| x l IH]; cbn; [constructor | now apply insert_desc_sorted].
Qed.

(** The sort is stable: the elements of any one key keep their order. *)
Lemma insert_desc_stable (d : Z) (x : A) (l : list A) :
  List.filter (fun a => Z.eqb (key a) d) (Py.insert_desc key x l)
  = List.filter (fun a => Z.eqb (key a) d) (x :: l).
Proof.
  induction l as [| y l IH]; [reflexivity |].
  cbn [Py.insert_desc]. destruct (Z.ltb_spec (key x) (key y)) as [Hlt | Hge]; [| reflexivity].
  cbn [List.filter] in *. rewrite IH.
  destruct (Z.eqb_spec (key x) d) as [Hx | Hx], (Z.eqb_spec (key y) d) as [Hy | Hy];
    try reflexivity.
  lia.
Qed.

Lemma sorted_desc_stable (d : Z) (l : list A) :
  List.filter (fun a => Z.eqb (key a) d) (Py.sorted_desc key l)
  = List.filter (fun a => Z.eqb (key a) d) l.
Proof.
  induction l as [| x l IH]; [reflexivity |].
  cbn [Py.sorted_desc fold_right]. rewrite insert_desc_stable.
  cbn [List.filter]. fold (Py.sorted_desc key l). now rewrite IH.
Qed.

End PyFacts.

(** ** Listing the files *)

Section FileCatalogFacts.

Import FileCatalog.

(** X11. For a page size of at least one, page [p] of the listing is the
    run of [per_page] records that starts after the first [(p-1) * per_page]
    of the filtered, sorted records; no page is longer than [per_page], the
    pages after [total_pages] are empty, and the pages 1 to [total_pages]
    put together are exactly the filtered, sorted records. *)
Theorem listing_pages_partition (all_files : list FileMetadata.t)
    (status_filter : option string) (per_page : Z) :
  1 <= per_page ->
  let records := listed all_files status_filter in
  let pages := (Z.of_nat (List.length records) + per_page - 1) / per_page in
  (forall page,
      1 <= page ->
      get_file_list all_files page per_page status_filter
      = Return (mkListing
                  (List.firstn (Z.to_nat per_page)
                     (List.skipn (Z.to_nat ((page - 1) * per_page)) records))
                  (Z.of_nat (List.length records)) page per_page pages)
      /\ Z.of_nat (List.length (page_files all_files page per_page status_filter)) <= per_page
      /\ (pages < page -> page_files all_files page per_page status_filter = []))
  /\ List.concat
       (List.map (fun k => page_files all_files (Z.of_nat k + 1) per_page status_filter)
                 (List.seq 0 (Z.to_nat pages)))
     = records.
Proof.
  intros Hpp records pages.
  assert (Hcover : Z.of_nat (List.length records) <= pages * per_page).
  { subst pages. pose proof (Z.div_mod (Z.of_nat (List.length records) + per_page - 1) per_page).
    pose proof (Z.mod_pos_bound (Z.of_nat (List.length records) + per_page - 1) per_page).
    nia. }
  assert (Hpages : 0 <= pages).
  { subst pages. apply Z.div_pos; lia. }
  assert (Hget : forall page,
             1 <= page ->
             get_file_list all_files page per_page status_filter
             = Return (mkListing
                         (List.firstn (Z.to_nat per_page)
                            (List.skipn (Z.to_nat ((page - 1) * per_page)) records))
                         (Z.of_nat (List.length records)) page per_page pages)).
  { intros page Hpage. unfold get_file_list. fold records.
    destruct (Z.eqb_spec per_page 0) as [? | _]; [lia |].
    rewrite slice_nonneg by nia. do 3 f_equal. lia. }
  split.
  - intros page Hpage. split; [now apply Hget |].
    unfold page_files. rewrite (Hget page Hpage). cbn [files]. split.
    + rewrite List.length_firstn. lia.
    + intros Hbeyond. rewrite List.skipn_all2; [apply List.firstn_nil |]. nia.
  - rewrite (List.map_ext_in _
               (fun k => List.firstn (Z.to_nat per_page)
                           (List.skipn (k * Z.to_nat per_page) records))).
    + apply concat_runs; [lia |]. nia.
    + intros k _. unfold page_files. rewrite Hget by lia. cbn [files].
      do 2 f_equal. nia.
Qed.

Lemma listing_pages_partition_witness :
  List.concat
    (List.map (fun k => page_files
                          [sample_file "a" "completed" None; sample_file "b" "error" None;
                           sample_file "c" "completed" None]
                          (Z.of_nat k + 1) 2 None)
              (List.seq 0 (Z.to_nat ((Z.of_nat 3 + 2 - 1) / 2))))
  = listed [sample_file "a" "completed" None; sample_file "b" "error" None;
            sample_file "c" "completed" None] None.
Proof.
  apply (listing_pages_partition
           [sample_file "a" "completed" None; sample_file "b" "error" None;
            sample_file "c" "completed" None] None 2).
  lia.
Defined.

(** X12. The records a listing is cut from are those of the metadata file
    that pass the status filter (all of them when the filter is absent or
    empty), each as often as it is stored, newest first, and records of the
    same date in the order of the metadata file. A page size of zero makes
    the call raise, whatever the page. *)
Theorem listing_is_filtered_and_sorted (all_files : list FileMetadata.t)
    (status_filter : option string) :
  let keeps (m : FileMetadata.t) :=
    match status_filter with
    | Some f => if String.eqb f "" then true else String.eqb (FileMetadata.status m) f
    | None => true
    end in
  Permutation (listed all_files status_filter) (List.filter keeps all_files)
  /\ StronglySorted
       (fun a b => FileMetadata.upload_date b <= FileMetadata.upload_date a)
       (listed all_files status_filter)
  /\ (forall d,
         List.filter (fun m => Z.eqb (FileMetadata.upload_date m) d)
                     (listed all_files status_filter)
         = List.filter (fun m => Z.eqb (FileMetadata.upload_date m) d)
                       (List.filter keeps all_files))
  /\ (forall page,
         exists e, get_file_list all_files page 0 status_filter = Raise e
                   /\ exn_class e = "ZeroDivisionError").
Proof.
  cbv zeta.
  assert (Hfilter : (match status_filter with
                     | Some f =>
                         if String.eqb f "" then all_files
                         else List.filter (fun m => String.eqb (FileMetadata.status m) f)
                                all_files
                     | None => all_files
                     end)
                    = List.filter
                        (fun m => match status_filter with
                                  | Some f => if String.eqb f "" then true
                                              else String.eqb (FileMetadata.status m) f
                                  | None => true
                                  end) all_files).
  { destruct status_filter as [f |]; [destruct (String.eqb f "") |];
      try reflexivity; symmetry; apply filter_all; reflexivity. }
  unfold listed. rewrite Hfilter.
  split; [apply sorted_desc_perm |]. split; [apply sorted_desc_sorted |].
  split; [intros d; apply sorted_desc_stable |].
  intros page. eexists. split; reflexivity.
Qed.

End FileCatalogFacts.

(** ** Uploading, deleting and reading files *)

Section FileStoreFacts.

Import FileStore.

Ltac run_disk :=
  repeat (progress (cbv beta iota delta
            [bind ret raise get_state modify lift_result try_except try_finally
             in_world write_file unlink_if_exists _save_metadata
             FileService._load_metadata FileService._save_metadata_dict
             FileService.get_file_by_id]; cbn [fst snd disk_world uploads])).

Lemma is_allowed_extension_spec (ext : string) :
  is_allowed_extension ext = true <-> In ext [".txt"; ".pdf"; ".docx"; ".doc"].
Proof.
  unfold is_allowed_extension. rewrite List.existsb_exists. split.
  - intros (x & Hx & Heq). apply String.eqb_eq in Heq. subst x. exact Hx.
  - intros Hin. exists ext. split; [exact Hin | apply String.eqb_refl].
Qed.

(** X13. The validation of an upload decides by the declared size and by
    the extension of the file name alone: it accepts exactly the files that
    are not declared larger than 100 MB and whose lower-cased extension is
    .txt, .pdf, .docx or .doc, answers 413 for the first fault and 400 for
    the second, and never refuses a file for its content type, whatever the
    detection of the type says or raises. *)
Theorem upload_validation_by_size_and_extension (pf : Platform) (file : UploadFile.t) :
  let too_large :=
    match UploadFile.size file with
    | Some s => upload_max_size < s
    | None => False
    end in
  let extension := Text.lower (path_suffix pf (UploadFile.filename file)) in
  (_validate_file pf file = Return tt
   <-> ~ too_large /\ In extension [".txt"; ".pdf"; ".docx"; ".doc"])
  /\ (forall h, _validate_file pf file = Raise h ->
                (status_code h = 413 /\ too_large)
                \/ (status_code h = 400 /\ ~ too_large
                    /\ ~ In extension [".txt"; ".pdf"; ".docx"; ".doc"])).
Proof.
  cbv zeta. unfold _validate_file.
  assert (Hsize : (match UploadFile.size file with
                   | Some s => (negb (Z.eqb s 0) && Z.ltb upload_max_size s)%bool
                   | None => false
                   end) = true
                  <-> match UploadFile.size file with
                      | Some s => upload_max_size < s
                      | None => False
                      end).
  { destruct (UploadFile.size file) as [s |]; [| split; [discriminate | contradiction]].
    rewrite Bool.andb_true_iff, Bool.negb_true_iff, Z.eqb_neq, Z.ltb_lt.
    unfold upload_max_size. lia. }
  destruct (match UploadFile.size file with
            | Some s => (negb (Z.eqb s 0) && Z.ltb upload_max_size s)%bool
            | None => false
            end) eqn:Hbig.
  { apply proj1 in Hsize. specialize (Hsize eq_refl). split.
    - split; [discriminate | intros [Hno _]; contradiction].
    - intros h [= <-]. left. split; [reflexivity | exact Hsize]. }
  assert (Hsmall : ~ match UploadFile.size file with
                     | Some s => upload_max_size < s
                     | None => False
                     end).
  { intros Hlarge. apply Hsize in Hlarge. discriminate. }
  destruct (is_allowed_extension (Text.lower (path_suffix pf (UploadFile.filename file))))
    eqn:Hext; cbn [negb].
  - apply is_allowed_extension_spec in Hext.
    assert (Hok : match UploadFile.content_type file with
                  | Some ct =>
                      if (negb (String.eqb ct "") && negb (is_supported_type ct))%bool
                      then match detect_type pf file with
                           | Return _ => Return tt
                           | Raise _ => Return tt
                           end
                      else Return tt
                  | None => Return tt
                  end = @Return HTTPException unit tt).
    { destruct (UploadFile.content_type file) as [ct |]; [| reflexivity].
      destruct (negb (String.eqb ct "") && negb (is_supported_type ct))%bool; [| reflexivity].
      destruct (detect_type pf file); reflexivity. }
    rewrite Hok. split; [split; [intros _; split; assumption | reflexivity] | discriminate].
  - assert (Hbad : ~ In (Text.lower (path_suffix pf (UploadFile.filename file)))
                        [".txt"; ".pdf"; ".docx"; ".doc"]).
    { intros Hin. apply is_allowed_extension_spec in Hin. congruence. }
    split.
    + split; [discriminate | intros [_ Hin]; contradiction].
    + intros h [= <-]. right. split; [reflexivity |]. split; assumption.
Qed.

(** The path a new upload is stored under. *)
Lemma upload_outcome (pf : Platform) (file : UploadFile.t) (d : Disk) :
  let stored_filename := uuid4 pf ++ path_suffix pf (UploadFile.filename file) in
  let file_path := upload_dir ++ "/" ++ stored_filename in
  let built :=
    new_file_metadata pf (uuid4 pf) stored_filename (UploadFile.filename file)
      (Z.of_nat (String.length (UploadFile.content file))) (UploadFile.content_type file)
      (upload_time pf) "uploaded" file_path in
  upload_file pf file d
  = match _validate_file pf file with
    | Raise h => (Raise h, d)
    | Return _ =>
        match built with
        | Return fm =>
            (Return fm,
             mkDisk (set_files_data (<[FileMetadata.id fm := fm]> (files_data (disk_world d)))
                       (disk_world d))
                    (<[file_path := UploadFile.content file]> (uploads d)))
        | Raise e =>
            (Raise (mkHTTPException 500 ("Error saving file: " ++ str e)),
             mkDisk (disk_world d) (delete file_path (uploads d)))
        end
    end.
Proof.
  cbv zeta. unfold upload_file.
  destruct (_validate_file pf file) as [[] | h]; [| reflexivity].
  run_disk.
  destruct (new_file_metadata pf _ _ _ _ _ _ _ _) as [fm | e]; run_disk.
  - reflexivity.
  - now rewrite delete_insert_eq.
Qed.

(** X14. An upload that passes the validation, has content, declares a
    content type and gets a stored name that is not blank is kept: its
    content is stored under the new path, and the registry holds, under the
    fresh id, a record in status uploaded with the length of the content,
    the original name and no counts; the other records are untouched. The
    endpoint answers with that record and leaves one indexing job for it. *)
Theorem upload_stores_the_file (pf : Platform) (file : UploadFile.t) (d : Disk)
    (ct : string) :
  let stored_filename := uuid4 pf ++ path_suffix pf (UploadFile.filename file) in
  let file_path := upload_dir ++ "/" ++ stored_filename in
  _validate_file pf file = Return tt ->
  UploadFile.content file <> "" ->
  UploadFile.content_type file = Some ct ->
  Text.strip stored_filename <> "" ->
  exists d',
    let fm :=
      FileMetadata.mk (uuid4 pf) (Text.strip stored_filename) (UploadFile.filename file)
        (Z.of_nat (String.length (UploadFile.content file))) ct (upload_time pf)
        "uploaded" None None None None None file_path None in
    upload_file pf file d = (Return fm, d')
    /\ FilesApi.upload_file pf file d
       = (Return (FilesApi.mkFileUploadResponse (uuid4 pf) (UploadFile.filename file)
                    (Z.of_nat (String.length (UploadFile.content file))) "uploaded"
                    (upload_time pf) "File uploaded successfully. Indexing started.",
                  [uuid4 pf]), d')
    /\ files_data (disk_world d') !! uuid4 pf = Some fm
    /\ uploads d' !! file_path = Some (UploadFile.content file)
    /\ (forall other, other <> uuid4 pf ->
                      files_data (disk_world d') !! other = files_data (disk_world d) !! other)
    /\ cache (disk_world d') = cache (disk_world d)
    /\ artifacts (disk_world d') = artifacts (disk_world d)
    /\ tasks (disk_world d') = tasks (disk_world d).
Proof.
  cbv zeta. intros Hvalid Hcontent Hct Hname.
  pose proof (upload_outcome pf file d) as Hup. cbv zeta in Hup.
  rewrite Hvalid in Hup. unfold new_file_metadata in Hup. rewrite Hct in Hup.
  assert (Hn : (String.eqb (uuid4 pf ++ path_suffix pf (UploadFile.filename file)) ""
                || Nat.eqb (String.length
                              (Text.strip (uuid4 pf ++ path_suffix pf (UploadFile.filename file))))
                     0)%bool = false).
  { apply Bool.orb_false_iff. split.
    - apply String.eqb_neq. intros Heq. apply Hname. now rewrite Heq.
    - apply Nat.eqb_neq. intros Hlen. apply Hname.
      destruct (Text.strip _); [reflexivity | discriminate]. }
  assert (Hs : Z.leb (Z.of_nat (String.length (UploadFile.content file))) 0 = false).
  { apply Z.leb_gt. destruct (UploadFile.content file); [congruence | cbn; lia]. }
  rewrite Hn, Hs in Hup. cbn [app] in Hup.
  eexists. split; [exact Hup |]. split.
  { unfold FilesApi.upload_file, try_except, bind, ret. rewrite Hup. reflexivity. }
  cbn. split; [apply lookup_insert_eq |]. split; [apply lookup_insert_eq |].
  split; [intros other Hne; apply lookup_insert_ne; congruence |].
  repeat split.
Qed.

Lemma upload_stores_the_file_witness :
  exists d',
    (FileStore.upload_file sample_platform
       (sample_upload "some text" (Some "text/plain")) empty_disk).2 = d'
    /\ uploads d' !! "data/uploads/u-1.txt" = Some "some text"
    /\ (FileMetadata.status <$> files_data (disk_world d') !! "u-1") = Some "uploaded"
    /\ tasks (disk_world d') = [].
Proof.
  destruct (upload_stores_the_file sample_platform
              (sample_upload "some text" (Some "text/plain")) empty_disk "text/plain")
    as (d' & Hup & _ & Hfm & Hfile & _ & _ & _ & Htasks);
    [reflexivity | discriminate | reflexivity | discriminate |].
  exists d'. split; [now rewrite Hup |]. split; [exact Hfile |].
  split; [| exact Htasks].
  now rewrite (Hfm : files_data (disk_world d') !! "u-1" = _).
Defined.



(** X16. A file without content, or without a declared content type, cannot
    be uploaded even when it passes the validation: building the record
    fails, the file just written is removed again, the service raises 500
    and the endpoint answers 400. *)
Theorem empty_upload_is_refused (pf : Platform) (file : UploadFile.t) (d : Disk) :
  _validate_file pf file = Return tt ->
  UploadFile.content file = "" \/ UploadFile.content_type file = None ->
  exists e,
    upload_file pf file d
    = (Raise (mkHTTPException 500 ("Error saving file: " ++ str e)),
       mkDisk (disk_world d)
         (delete (upload_dir ++ "/"
                  ++ (uuid4 pf ++ path_suffix pf (UploadFile.filename file))) (uploads d)))
    /\ FilesApi.upload_file pf file d
       = (Raise (mkHTTPException 400
                   (http_str pf (mkHTTPException 500 ("Error saving file: " ++ str e)))),
          mkDisk (disk_world d)
            (delete (upload_dir ++ "/"
                     ++ (uuid4 pf ++ path_suffix pf (UploadFile.filename file))) (uploads d))).
Proof.
  intros Hvalid Hempty.
  pose proof (upload_outcome pf file d) as Hup. cbv zeta in Hup. rewrite Hvalid in Hup.
  assert (Hfail : exists e,
             new_file_metadata pf (uuid4 pf)
               (uuid4 pf ++ path_suffix pf (UploadFile.filename file))
               (UploadFile.filename file)
               (Z.of_nat (String.length (UploadFile.content file)))
               (UploadFile.content_type file) (upload_time pf) "uploaded"
               (upload_dir ++ "/" ++ (uuid4 pf ++ path_suffix pf (UploadFile.filename file)))
             = Raise e).
  { unfold new_file_metadata. destruct Hempty as [Hc | Hc]; rewrite Hc.
    - cbn [String.length Z.of_nat Z.leb Z.compare].
      destruct (String.eqb _ "" || Nat.eqb _ 0)%bool;
        destruct (UploadFile.content_type file); cbn; eexists; reflexivity.
    - destruct (String.eqb _ "" || Nat.eqb _ 0)%bool; destruct (Z.leb _ 0);
        cbn; eexists; reflexivity. }
  destruct Hfail as [e He]. rewrite He in Hup. exists e. split; [exact Hup |].
  unfold FilesApi.upload_file, try_except, bind, ret. rewrite Hup. reflexivity.
Qed.

Lemma empty_upload_is_refused_witness :
  exists e,
    (FileStore.upload_file sample_platform (sample_upload "" (Some "text/plain"))
       sample_disk).1
    = Raise (mkHTTPException 500 ("Error saving file: " ++ str e))
    /\ (FilesApi.upload_file sample_platform (sample_upload "" (Some "text/plain"))
          sample_disk).1
       = Raise (mkHTTPException 400
                  (detail (mkHTTPException 500 ("Error saving file: " ++ str e)))).
Proof.
  destruct (empty_upload_is_refused sample_platform (sample_upload "" (Some "text/plain"))
              sample_disk) as (e & Hservice & Hapi);
    [reflexivity | left; reflexivity |].
  exists e. rewrite Hservice, Hapi. split; reflexivity.
Defined.

(** X17. Deleting a registered file through the endpoint removes its
    record, its stored content and its artifacts, and nothing of any other
    document; the progress file is not removed, so the service still reads
    the old progress record while the status endpoint, like a second
    delete, now answers 404. *)
Theorem delete_keeps_the_progress_file (pf : Platform) (now : Time) (file_id : string)
    (d : Disk) (fm : FileMetadata.t) :
  files_data (disk_world d) !! file_id = Some fm ->
  exists d',
    FilesApi.delete_file pf file_id d
    = (Return (FilesApi.mkFileDeleteResponse file_id (FileMetadata.original_filename fm)
                 true "File deleted successfully"), d')
    /\ files_data (disk_world d') !! file_id = None
    /\ artifacts (disk_world d') !! file_id = None
    /\ uploads d' !! FileMetadata.file_path fm = None
    /\ (forall other, other <> file_id ->
                      files_data (disk_world d') !! other = files_data (disk_world d) !! other
                      /\ artifacts (disk_world d') !! other
                         = artifacts (disk_world d) !! other)
    /\ (forall path, path <> FileMetadata.file_path fm ->
                     uploads d' !! path = uploads d !! path)
    /\ cache (disk_world d') = cache (disk_world d)
    /\ tasks (disk_world d') = tasks (disk_world d)
    /\ (GraphRAGService.get_indexing_status file_id (disk_world d')).1
       = (GraphRAGService.get_indexing_status file_id (disk_world d)).1
    /\ IndexingApi.get_indexing_status now file_id (disk_world d')
       = (Raise (mkHTTPException 404 "File not found"), disk_world d')
    /\ FilesApi.delete_file pf file_id d'
       = (Raise (mkHTTPException 404 "File not found"), d').
Proof.
  intros Hfm. unfold FilesApi.delete_file, delete_file. run_disk.
  rewrite Hfm. run_disk. rewrite Hfm. run_disk. cbn [files_data set_artifacts].
  rewrite Hfm. run_disk.
  eexists. split; [reflexivity |]. cbn.
  split; [apply lookup_delete_eq |]. split; [apply lookup_delete_eq |].
  split; [apply lookup_delete_eq |].
  split; [intros other Hne; split; apply lookup_delete_ne; congruence |].
  split; [intros path Hne; apply lookup_delete_ne; congruence |].
  split; [reflexivity |]. split; [reflexivity |].
  split.
  { unfold GraphRAGService.get_indexing_status. run. cbn [cache set_files_data set_artifacts].
    destruct (cache (disk_world d) !! file_id) as [f |]; [| reflexivity].
    run. destruct (GraphRAGService.load_status_file f); reflexivity. }
  split.
  - unfold IndexingApi.get_indexing_status. run. cbn. rewrite lookup_delete_eq. reflexivity.
  - rewrite lookup_delete_eq. reflexivity.
Qed.

Lemma delete_keeps_the_progress_file_witness :
  exists d',
    FilesApi.delete_file sample_platform "doc1" sample_disk
    = (Return (FilesApi.mkFileDeleteResponse "doc1" "notes.txt" true
                 "File deleted successfully"), d')
    /\ files_data (disk_world d') !! "doc1" = None
    /\ uploads d' !! "data/uploads/doc1.txt" = None
    /\ cache (disk_world d') = cache (disk_world sample_disk).
Proof.
  destruct (delete_keeps_the_progress_file sample_platform 7 "doc1" sample_disk
              (sample_file "doc1" "completed" None) eq_refl)
    as (d' & Hdel & Hgone & _ & Hfile & _ & _ & Hcache & _).
  exists d'. repeat split; assumption.
Defined.

(** X18. [extract_text_content] fails in two ways only. A stored file that
    is missing raises [FileNotFoundError] as it is; every other failure is
    an HTTP error 500 whose detail begins "Error extracting text: ": for an
    extension other than .txt, .pdf, .docx and .doc it names the unsupported
    type, and for a PDF or DOCX the reader refuses it carries the reader's
    message behind a second prefix. *)
Theorem extraction_failures (pf : Platform) (stored : gmap string string)
    (file_metadata : FileMetadata.t) (r : raised) :
  extract_text_content pf stored file_metadata = Raise r ->
  let file_path := FileMetadata.file_path file_metadata in
  let extension := Text.lower (path_suffix pf file_path) in
  (stored !! file_path = None
   /\ r = Plain (mkExn "FileNotFoundError" ("File not found: " ++ file_path)))
  \/ (exists content msg,
        stored !! file_path = Some content
        /\ r = Http (mkHTTPException 500 ("Error extracting text: " ++ msg))
        /\ (extension = ".txt"
            -> exists e, read_utf8 pf content = Raise e /\ msg = str e)
        /\ (extension = ".pdf"
            -> exists e, pdf_pages pf content = Raise e
                         /\ msg = "Error reading PDF: " ++ str e)
        /\ (extension = ".docx" \/ extension = ".doc"
            -> exists e, docx_paragraphs pf content = Raise e
                         /\ msg = "Error reading DOCX: " ++ str e)
        /\ (~ In extension [".txt"; ".pdf"; ".docx"; ".doc"]
            -> msg = "Unsupported file type: " ++ extension)).
Proof.
  cbv zeta. unfold extract_text_content.
  destruct (stored !! FileMetadata.file_path file_metadata) as [content |] eqn:Hstored.
  2:{ intros [= <-]. left. split; reflexivity. }
  set (ext := Text.lower (path_suffix pf (FileMetadata.file_path file_metadata))).
  intros Hr. right. exists content.
  destruct (String.eqb_spec ext ".txt") as [Htxt | Htxt].
  { destruct (read_utf8 pf content) as [t | e] eqn:Hread; [discriminate |].
    injection Hr as <-. exists (str e). split; [reflexivity |]. split; [reflexivity |].
    split; [intros _; exists e; split; reflexivity |].
    rewrite Htxt. split; [discriminate |]. split; [intros [? | ?]; discriminate |].
    intros Hnot. exfalso. apply Hnot. now left. }
  destruct (String.eqb_spec ext ".pdf") as [Hpdf | Hpdf].
  { unfold _extract_pdf_text in Hr.
    destruct (pdf_pages pf content) as [t | e] eqn:Hread; [discriminate |].
    injection Hr as <-. eexists. split; [reflexivity |]. split; [reflexivity |].
    rewrite Hpdf. split; [discriminate |].
    split; [intros _; exists e; split; reflexivity |].
    split; [intros [? | ?]; discriminate |].
    intros Hnot. exfalso. apply Hnot. right. now left. }
  destruct (String.eqb ext ".docx" || String.eqb ext ".doc")%bool eqn:Hdoc.
  { unfold _extract_docx_text in Hr.
    destruct (docx_paragraphs pf content) as [t | e] eqn:Hread; [discriminate |].
    injection Hr as <-. eexists. split; [reflexivity |]. split; [reflexivity |].
    split; [intros Heq; contradiction |]. split; [intros Heq; contradiction |].
    split; [intros _; exists e; split; reflexivity |].
    intros Hnot. exfalso. apply Hnot. apply Bool.orb_true_iff in Hdoc.
    destruct Hdoc as [H | H]; apply String.eqb_eq in H; rewrite H; cbn; tauto. }
  injection Hr as <-. eexists. split; [reflexivity |]. split; [reflexivity |].
  apply Bool.orb_false_iff in Hdoc. destruct Hdoc as [Hdocx Hdoc].
  apply String.eqb_neq in Hdocx, Hdoc.
  split; [intros Heq; contradiction |]. split; [intros Heq; contradiction |].
  split; [intros [Heq | Heq]; contradiction |]. reflexivity.
Qed.

Lemma extraction_failures_witness :
  exists msg,
    extract_text_content sample_platform {[ "data/uploads/blob" := "some text" ]}
      (FileMetadata.mk "doc1" "blob" "blob" 9 "text/plain" 0 "uploaded" None None None None
         None "data/uploads/blob" None)
    = Raise (Http (mkHTTPException 500 ("Error extracting text: " ++ msg)))
    /\ msg = "Unsupported file type: ".
Proof.
  destruct (extraction_failures sample_platform {[ "data/uploads/blob" := "some text" ]}
              (FileMetadata.mk "doc1" "blob" "blob" 9 "text/plain" 0 "uploaded" None None
                 None None None "data/uploads/blob" None)
              (Http (mkHTTPException 500 "Error extracting text: Unsupported file type: ")))
    as [[Hnone _] | (content & msg & _ & Hr & _ & _ & _ & Hother)].
  - vm_compute. reflexivity.
  - vm_compute in Hnone. discriminate Hnone.
  - exists msg. split.
    + rewrite <- Hr. vm_compute. reflexivity.
    + apply Hother. cbn. intros [H | [H | [H | [H | []]]]]; discriminate H.
Defined.

End FileStoreFacts.

(** ** Starting the indexing in the background *)

Section BackgroundFacts.

Import FilesApi.

Lemma background_start_known (now : Time) (file_id : string) (w : World)
    (fm : FileMetadata.t) :
  files_data w !! file_id = Some fm ->
  _start_indexing_background now file_id w
  = (Return tt,
     add_task (mkTask fm (GraphRAGService.initial_progress now fm))
       (set_files_data (<[file_id := FileMetadata.set_status "indexing" fm]> (files_data w))
          w)).
Proof.
  intros Hfm. unfold _start_indexing_background, GraphRAGService.start_indexing. run.
  rewrite Hfm. run. rewrite Hfm. reflexivity.
Qed.

(** X19. The background job that starts the indexing never raises. For an
    unknown file it changes nothing: the error it means to record has no
    record to go to. For a registered file it sets the status to indexing,
    leaves the error message of the record as it was, and creates one task
    that holds the record as it was read before that change. *)
Theorem background_start_never_raises (now : Time) (file_id : string) (w : World) :
  match files_data w !! file_id with
  | None => _start_indexing_background now file_id w = (Return tt, w)
  | Some fm =>
      exists w',
        _start_indexing_background now file_id w = (Return tt, w')
        /\ files_data w' !! file_id = Some (FileMetadata.set_status "indexing" fm)
        /\ tasks w' = (tasks w ++ [mkTask fm (GraphRAGService.initial_progress now fm)])%list
        /\ cache w' = cache w
        /\ forall other, other <> file_id -> files_data w' !! other = files_data w !! other
  end.
Proof.
  destruct (files_data w !! file_id) as [fm |] eqn:Hfm.
  - rewrite (background_start_known now file_id w fm Hfm).
    eexists. split; [reflexivity |]. cbn.
    split; [apply lookup_insert_eq |]. split; [reflexivity |]. split; [reflexivity |].
    intros other Hne. apply lookup_insert_ne. congruence.
  - unfold _start_indexing_background. run. rewrite Hfm. run. rewrite Hfm. reflexivity.
Qed.

(** X20. Re-indexing has no status gate: for a registered document in any
    status, one that is being indexed included, the endpoint sets the
    status to indexing, clears the error message and leaves a background
    job, and that job creates one more pipeline task. *)
Theorem reindex_has_no_status_gate (now : Time) (file_id : string) (w : World)
    (fm : FileMetadata.t) :
  files_data w !! file_id = Some fm ->
  let fm' := FileMetadata.set_kwarg (FileMetadata.set_status "indexing" fm)
               (FileMetadata.kw_error_message None) in
  exists w1 w2,
    reindex_file file_id w
    = (Return ([("message", "Reindexing started"); ("file_id", file_id);
                ("status", "indexing")], [file_id]), w1)
    /\ files_data w1 !! file_id = Some fm'
    /\ tasks w1 = tasks w
    /\ _start_indexing_background now file_id w1 = (Return tt, w2)
    /\ (FileMetadata.status <$> files_data w2 !! file_id) = Some "indexing"
    /\ (FileMetadata.error_message <$> files_data w2 !! file_id) = Some None
    /\ tasks w2 = (tasks w ++ [mkTask fm' (GraphRAGService.initial_progress now fm')])%list.
Proof.
  intros Hfm. cbv zeta. unfold reindex_file. run. rewrite Hfm. run. rewrite Hfm. run.
  eexists _, _. split; [reflexivity |]. cbn [files_data set_files_data tasks].
  split; [apply lookup_insert_eq |]. split; [reflexivity |].
  split.
  { apply background_start_known. cbn. apply lookup_insert_eq. }
  cbn. rewrite lookup_insert_eq. repeat split.
Qed.

Lemma reindex_has_no_status_gate_witness :
  exists w1 w2,
    reindex_file "doc1" (sample_world "completed" None)
    = (Return ([("message", "Reindexing started"); ("file_id", "doc1");
                ("status", "indexing")], ["doc1"]), w1)
    /\ _start_indexing_background 7 "doc1" w1 = (Return tt, w2)
    /\ (FileMetadata.status <$> files_data w2 !! "doc1") = Some "indexing"
    /\ List.length (tasks w2) = 1%nat.
Proof.
  destruct (reindex_has_no_status_gate 7 "doc1" (sample_world "completed" None)
              (sample_file "doc1" "completed" None) eq_refl)
    as (w1 & w2 & Hre & _ & _ & Hstart & Hstatus & _ & Htasks).
  exists w1, w2. split; [exact Hre |]. split; [exact Hstart |].
  split; [exact Hstatus |]. now rewrite Htasks.
Defined.

(** X26. [update_file_status], with the keyword arguments the callers in this
    code base pass, stores on a registered file the record it returns, and
    [get_file_by_id] reads that record back: it is the stored record with
    the status given and then each keyword applied in order, so its status
    is the one given whatever the keywords; every other record reads as
    before. On a file that is not registered it returns nothing and writes
    nothing. *)
Theorem update_then_get_file (file_id status : string)
    (kwargs : list FileMetadata.kwarg) (w : World) :
  match files_data w !! file_id with
  | None =>
      FileService.update_file_status (E := exn) file_id status kwargs w = (Return None, w)
  | Some m =>
      exists m' w',
        FileService.update_file_status (E := exn) file_id status kwargs w
        = (Return (Some m'), w')
        /\ FileService.get_file_by_id (E := exn) file_id w' = (Return (Some m'), w')
        /\ m' = fold_left FileMetadata.set_kwarg kwargs (FileMetadata.set_status status m)
        /\ FileMetadata.status m' = status
        /\ cache w' = cache w
        /\ tasks w' = tasks w
        /\ forall other,
             other <> file_id ->
             FileService.get_file_by_id (E := exn) other w'
             = (Return (files_data w !! other), w')
  end.
Proof.
  unfold FileService.update_file_status, FileService.get_file_by_id. run.
  destruct (files_data w !! file_id) as [m |] eqn:Hm; [| reflexivity].
  cbn. do 2 eexists. split; [reflexivity |]. cbn.
  split; [now rewrite lookup_insert_eq |]. split; [reflexivity |].
  split; [now rewrite set_kwargs_status |]. split; [reflexivity |]. split; [reflexivity |].
  intros other Hne. rewrite lookup_insert_ne by congruence. reflexivity.
Qed.

End BackgroundFacts.

(** ** Graph data *)

Section GraphFacts.

Import GraphService.

Lemma append_rows_acc {A} (decode : Row -> result exn A) (rows : list Row) :
  forall acc,
    append_rows decode rows acc
    = match append_rows decode rows [] with
      | Return l => Return (acc ++ l)%list
      | Raise e => Raise e
      end.
Proof.
  induction rows as [| row rest IH]; intros acc; cbn.
  - now rewrite app_nil_r.
  - destruct (decode row) as [a | e]; [| reflexivity].
    rewrite (IH (acc ++ [a])%list), (IH [a]).
    destruct (append_rows decode rest []) as [l | e]; [| reflexivity].
    now rewrite <- app_assoc.
Qed.

Lemma append_table_acc {A} (decode : Row -> result exn A) (table : option DataFrame)
    (acc : list A) :
  append_table decode table acc
  = match append_table decode table [] with
    | Return l => Return (acc ++ l)%list
    | Raise e => Raise e
    end.
Proof.
  destruct table as [df |]; cbn; [apply append_rows_acc | now rewrite app_nil_r].
Qed.

Lemma load_file_acc (dec : Decoders) (file_id : string) (dir : ArtifactDir) (acc : Acc) :
  load_file dec file_id dir acc
  = match load_file dec file_id dir ([], [], [], []) with
    | Return l => Return (merge_acc acc l)
    | Raise e => Raise e
    end.
Proof.
  destruct acc as [[[es rs] cs] ts]. unfold load_file, merge_acc.
  rewrite (append_table_acc _ _ es).
  destruct (append_table (entity_of_row dec) _ []) as [es' |]; [| reflexivity].
  rewrite (append_table_acc _ _ rs).
  destruct (append_table (relationship_of_row dec) _ []) as [rs' |]; [| reflexivity].
  rewrite (append_table_acc _ _ cs).
  destruct (append_table (community_of_row dec) _ []) as [cs' |]; [| reflexivity].
  rewrite (append_table_acc _ _ ts).
  destruct (append_table (chunk_of_row dec file_id) _ []) as [ts' |]; reflexivity.
Qed.

Lemma load_files_acc (dec : Decoders) (dirs : gmap string ArtifactDir)
    (file_ids : list string) :
  forall acc,
    load_files dec dirs file_ids acc
    = match load_files dec dirs file_ids ([], [], [], []) with
      | Return l => Return (merge_acc acc l)
      | Raise e => Raise e
      end.
Proof.
  induction file_ids as [| file_id rest IH]; intros acc; cbn [load_files].
  - destruct acc as [[[es rs] cs] ts]. unfold merge_acc. cbn. now rewrite !app_nil_r.
  - destruct (dirs !! file_id) as [dir |]; [| apply IH].
    rewrite (load_file_acc dec file_id dir acc).
    destruct (load_file dec file_id dir ([], [], [], [])) as [l |]; [| reflexivity].
    rewrite (IH (merge_acc acc l)), (IH l).
    destruct (load_files dec dirs rest ([], [], [], [])) as [l' |]; [| reflexivity].
    destruct acc as [[[es rs] cs] ts], l as [[[es1 rs1] cs1] ts1],
      l' as [[[es2 rs2] cs2] ts2]. unfold merge_acc. cbn. now rewrite <- !app_assoc.
Qed.

Lemma load_files_app (dec : Decoders) (dirs : gmap string ArtifactDir)
    (a b : list string) :
  forall acc,
    load_files dec dirs (a ++ b) acc
    = match load_files dec dirs a acc with
      | Return acc' => load_files dec dirs b acc'
      | Raise e => Raise e
      end.
Proof.
  induction a as [| file_id a IH]; intros acc; cbn [load_files app]; [reflexivity |].
  destruct (dirs !! file_id) as [dir |]; [| apply IH].
  destruct (load_file dec file_id dir acc); [apply IH | reflexivity].
Qed.

(** X21. A file without an artifact directory is passed over by
    [get_graph_data]: the result, or the exception, is that for the listed
    files that have one, and a list none of whose files has a directory
    gives the empty graph. *)
Theorem graph_data_skips_missing_directories (dec : Decoders)
    (dirs : gmap string ArtifactDir) (now : Time) (file_ids : list string) :
  get_graph_data dec dirs now file_ids
  = get_graph_data dec dirs now
      (List.filter (fun file_id => bool_decide (is_Some (dirs !! file_id))) file_ids)
  /\ ((forall file_id, In file_id file_ids -> dirs !! file_id = None) ->
      get_graph_data dec dirs now file_ids = Return (GraphData.mk [] [] [] [] now)).
Proof.
  assert (Hskip : forall acc,
             load_files dec dirs file_ids acc
             = load_files dec dirs
                 (List.filter (fun file_id => bool_decide (is_Some (dirs !! file_id)))
                    file_ids) acc).
  { induction file_ids as [| file_id rest IH]; intros acc;
      cbn [load_files List.filter]; [reflexivity |].
    destruct (dirs !! file_id) as [dir |] eqn:Hdir.
    - rewrite bool_decide_eq_true_2 by eauto. cbn [load_files]. rewrite Hdir.
      destruct (load_file dec file_id dir acc); [apply IH | reflexivity].
    - rewrite bool_decide_eq_false_2 by (intros [? ?]; discriminate). apply IH. }
  split.
  - unfold get_graph_data. now rewrite Hskip.
  - intros Hnone. unfold get_graph_data.
    assert (Hempty : forall acc, load_files dec dirs file_ids acc = Return acc).
    { clear Hskip. induction file_ids as [| file_id rest IH]; intros acc;
        cbn [load_files]; [reflexivity |].
      rewrite (Hnone file_id) by now left. apply IH.
      intros x Hx. apply Hnone. now right. }
    now rewrite Hempty.
Qed.

(** X22. The graph of two lists of files one after the other is the graph
    of the first followed, table by table, by the graph of the second. *)
Theorem graph_data_of_appended_lists (dec : Decoders) (dirs : gmap string ArtifactDir)
    (now : Time) (a b : list string) (ga gb : GraphData.t) :
  get_graph_data dec dirs now a = Return ga ->
  get_graph_data dec dirs now b = Return gb ->
  get_graph_data dec dirs now (a ++ b)
  = Return (GraphData.mk
              (GraphData.entities ga ++ GraphData.entities gb)
              (GraphData.relationships ga ++ GraphData.relationships gb)
              (GraphData.communities ga ++ GraphData.communities gb)
              (GraphData.chunks ga ++ GraphData.chunks gb) now).
Proof.
  unfold get_graph_data. rewrite load_files_app.
  destruct (load_files dec dirs a ([], [], [], [])) as [[[[es rs] cs] ts] | e];
    [| discriminate].
  intros [= <-]. rewrite (load_files_acc dec dirs b (es, rs, cs, ts)).
  destruct (load_files dec dirs b ([], [], [], [])) as [[[[es' rs'] cs'] ts'] | e];
    [| discriminate].
  intros [= <-]. reflexivity.
Qed.

Lemma graph_data_of_appended_lists_witness :
  exists g,
    get_graph_data sample_decoders sample_dirs 5 (["doc1"] ++ ["doc2"]) = Return g
    /\ List.map Entity.id (GraphData.entities g) = ["e1"; "e2"; "e3"]
    /\ List.map Relationship.id (GraphData.relationships g) = ["r1"; "r2"].
Proof.
  eexists. split.
  - apply (graph_data_of_appended_lists sample_decoders sample_dirs 5 ["doc1"] ["doc2"]
             _ _ eq_refl eq_refl).
  - split; reflexivity.
Defined.

End GraphFacts.

(** ** The handlers of [app/api/graph.py] *)

Section GraphApiFacts.

Import GraphApi.

Lemma known_completed_spec (file_ids valid : list string) (w : World) :
  known_completed file_ids valid w
  = (match List.find
             (fun file_id =>
                match files_data w !! file_id with None => true | Some _ => false end)
             file_ids with
     | Some file_id => Raise (mkHTTPException 404 ("File not found: " ++ file_id))
     | None => Return (valid ++ List.filter (is_completed w) file_ids)%list
     end, w).
Proof.
  revert valid. induction file_ids as [| file_id rest IH]; intros valid;
    cbn [known_completed List.find List.filter].
  - run. now rewrite app_nil_r.
  - run. unfold is_completed at 1.
    destruct (files_data w !! file_id) as [m |]; [| reflexivity].
    destruct (String.eqb (FileMetadata.status m) "completed"); rewrite IH.
    + destruct (List.find _ rest); [reflexivity |]. now rewrite <- app_assoc.
    + reflexivity.
Qed.

(** X23. What [get_graph_data] of the graph API answers: 404 naming the
    first listed file that is not registered, whatever the other files are;
    otherwise 400 when no listed file is completed; otherwise the graph of
    the completed files in their listed order, without its chunks when they
    are not asked for, or 500 carrying the text of the exception of the
    loader. The registry is left as it was. *)
Theorem graph_data_endpoint_outcome (dec : Decoders) (dirs : gmap string ArtifactDir)
    (now : Time) (file_ids : list string) (include_chunks : bool) (w : World) :
  get_graph_data dec dirs now file_ids include_chunks w
  = (match List.find
             (fun file_id =>
                match files_data w !! file_id with None => true | Some _ => false end)
             file_ids with
     | Some file_id => Raise (mkHTTPException 404 ("File not found: " ++ file_id))
     | None =>
         match List.filter (is_completed w) file_ids with
         | [] => Raise (mkHTTPException 400 "No valid completed files found")
         | valid =>
             match GraphService.get_graph_data dec dirs now valid with
             | Return g =>
                 Return (GraphData.mk (GraphData.entities g) (GraphData.relationships g)
                           (GraphData.communities g)
                           (if include_chunks then GraphData.chunks g else [])
                           (GraphData.generated_at g))
             | Raise e => Raise (mkHTTPException 500 ("Error getting graph data: " ++ str e))
             end
         end
     end, w).
Proof.
  unfold get_graph_data. unfold bind at 1. rewrite known_completed_spec.
  destruct (List.find _ file_ids) as [file_id |]; [reflexivity |].
  cbn [app]. destruct (List.filter (is_completed w) file_ids) as [| v vs]; [reflexivity |].
  destruct (GraphService.get_graph_data dec dirs now (v :: vs)) as [g | e];
    [| reflexivity].
  destruct include_chunks, g; reflexivity.
Qed.

Lemma In_firstn {A} (n : nat) (l : list A) (x : A) : In x (List.firstn n l) -> In x l.
Proof.
  revert l. induction n as [| n IH]; intros [| y l]; cbn; try tauto.
  intros [-> | H]; [now left | right; now apply IH].
Qed.

Lemma StronglySorted_firstn {A} (R : A -> A -> Prop) (n : nat) (l : list A) :
  StronglySorted R l -> StronglySorted R (List.firstn n l).
Proof.
  revert l. induction n as [| n IH]; intros [| y l] Hs; cbn; try constructor.
  - inversion Hs; subst. now apply IH.
  - inversion Hs as [| ? ? _ Hy]; subst.
    rewrite List.Forall_forall in *. intros x Hx. apply Hy. eapply In_firstn, Hx.
Qed.

Lemma score_le_3 (query_lower : string) (entity : Entity.t) :
  score query_lower entity <= 3.
Proof.
  unfold score.
  destruct (Text.contains query_lower (Text.lower (Entity.name entity)));
    destruct (Entity.description entity) as [d |];
    try destruct (negb (String.eqb d "") && Text.contains query_lower (Text.lower d))%bool;
    lia.
Qed.

(** X24. A search that answers returns at most [limit] entities, in
    non-increasing order of their scores; each score is that of the entity
    for the lower-cased query and lies between 1 and 3, no entity is of an
    excluded type, and every relationship returned has its source or its
    target among the returned entities. The files searched are the listed
    files that are completed, and the registry is left as it was. *)
Theorem search_results_are_ranked_and_bounded (dec : Decoders)
    (dirs : gmap string ArtifactDir) (now : Time) (query : string)
    (file_ids : list string) (entity_types : option (list string)) (limit : Z)
    (w w' : World) (c : SearchContent) :
  0 <= limit ->
  search_graph dec dirs now query file_ids entity_types limit w = (Return c, w') ->
  w' = w
  /\ sc_file_ids c = List.filter (is_completed w) file_ids
  /\ sc_total_matches c = Z.of_nat (List.length (sc_entities c))
  /\ sc_total_matches c <= limit
  /\ StronglySorted (fun a b => snd b <= snd a) (sc_entities c)
  /\ (forall entity s,
        In (entity, s) (sc_entities c) ->
        s = score (Text.lower query) entity /\ 1 <= s <= 3
        /\ type_excluded entity_types entity = false)
  /\ (forall rel,
        In rel (sc_relationships c) ->
        exists entity s,
          In (entity, s) (sc_entities c)
          /\ (Relationship.source_id rel = Entity.id entity
              \/ Relationship.target_id rel = Entity.id entity)).
Proof.
  intros Hlimit. unfold search_graph. unfold bind at 1.
  rewrite valid_file_ids_filter.
  destruct (List.filter (is_completed w) file_ids) as [| v vs] eqn:Hvalid;
    [discriminate |].
  destruct (GraphService.get_graph_data dec dirs now (v :: vs)) as [g | e];
    [| discriminate].
  cbv zeta. rewrite slice_nonneg by lia.
  rewrite Z.sub_0_r. change (Z.to_nat 0) with O. rewrite drop_0.
  set (ranked := List.firstn (Z.to_nat limit)
                   (Py.sorted_desc snd (matching query entity_types (GraphData.entities g)))).
  intros [= <- <-]. cbn [sc_file_ids sc_total_matches sc_entities sc_relationships].
  assert (Hin : forall entity s,
             In (entity, s) ranked ->
             s = score (Text.lower query) entity /\ 0 < s
             /\ type_excluded entity_types entity = false).
  { intros entity s H. apply In_firstn in H.
    apply (Permutation_in _ (sorted_desc_perm snd _)) in H.
    unfold matching in H. apply in_flat_map in H as (x & _ & H).
    destruct (type_excluded entity_types x) eqn:Hex; [destruct H |].
    destruct (Z.ltb_spec 0 (score (Text.lower query) x)) as [Hpos | _]; [| destruct H].
    destruct H as [[= <- <-] | []]. auto. }
  split; [reflexivity |]. split; [reflexivity |]. split; [reflexivity |].
  split; [| split; [| split]].
  - subst ranked. pose proof (List.firstn_le_length (Z.to_nat limit)
      (Py.sorted_desc snd (matching query entity_types (GraphData.entities g)))). lia.
  - apply StronglySorted_firstn, sorted_desc_sorted.
  - intros entity s H. destruct (Hin entity s H) as (-> & Hpos & Hex).
    pose proof (score_le_3 (Text.lower query) entity). repeat split; [lia | lia | exact Hex].
  - intros rel H. apply List.filter_In in H as [_ H]. unfold touches in H.
    assert (Hid : forall id,
               List.existsb (String.eqb id)
                 (List.map (fun item => Entity.id (fst item)) ranked) = true ->
               exists entity s, In (entity, s) ranked /\ id = Entity.id entity).
    { intros id Hid. apply List.existsb_exists in Hid as (y & Hy & Heq).
      apply String.eqb_eq in Heq. subst y.
      apply List.in_map_iff in Hy as ([entity s] & Hy & Hitem).
      exists entity, s. split; [exact Hitem | now rewrite <- Hy]. }
    apply orb_true_iff in H as [H | H]; apply Hid in H as (entity & s & Hitem & Heq);
      exists entity, s; split; auto.
Qed.

Lemma search_results_are_ranked_and_bounded_witness :
  exists c,
    search_graph sample_decoders sample_dirs 5 "Ada" ["doc1"; "doc2"] None 20 indexed_world
    = (Return c, indexed_world)
    /\ sc_total_matches c <= 20
    /\ StronglySorted (fun a b => snd b <= snd a) (sc_entities c).
Proof.
  eexists. split; [reflexivity |].
  destruct (search_results_are_ranked_and_bounded sample_decoders sample_dirs 5 "Ada"
              ["doc1"; "doc2"] None 20 indexed_world _ _ ltac:(lia) eq_refl)
    as (_ & _ & _ & Hle & Hsorted & _).
  split; [exact Hle | exact Hsorted].
Defined.

(** X25. The filter of [export_graph]. With a non-empty list of types the
    entities kept are those of a listed type and the relationships kept are
    those whose two ends are both kept entities, so no relationship of the
    export leads outside it; communities are never filtered. Without a list,
    or with an empty one, entities and relationships stay as loaded. The
    chunks are dropped exactly when they are not asked for. *)
Theorem export_filter_keeps_a_closed_subgraph (filter_entities : option (list string))
    (include_chunks : bool) (g : GraphData.t) :
  let g' := export_filter filter_entities include_chunks g in
  GraphData.communities g' = GraphData.communities g
  /\ GraphData.chunks g' = (if include_chunks then GraphData.chunks g else [])
  /\ match filter_entities with
     | Some (t :: ts) =>
         (forall entity,
            In entity (GraphData.entities g')
            <-> In entity (GraphData.entities g) /\ In (Entity.type entity) (t :: ts))
         /\ (forall rel,
               In rel (GraphData.relationships g')
               <-> In rel (GraphData.relationships g)
                   /\ (exists a, In a (GraphData.entities g')
                                 /\ Entity.id a = Relationship.source_id rel)
                   /\ (exists b, In b (GraphData.entities g')
                                 /\ Entity.id b = Relationship.target_id rel))
     | _ =>
         GraphData.entities g' = GraphData.entities g
         /\ GraphData.relationships g' = GraphData.relationships g
     end.
Proof.
  cbv zeta.
  assert (Hmem : forall (x : string) (l : list string),
             List.existsb (String.eqb x) l = true <-> In x l).
  { intros x l. rewrite List.existsb_exists. split.
    - intros (y & Hy & Heq). apply String.eqb_eq in Heq. now subst.
    - intros H. exists x. split; [exact H | apply String.eqb_refl]. }
  destruct filter_entities as [[| t ts] |].
  - destruct include_chunks; repeat split.
  - split; [destruct include_chunks; reflexivity |].
    split; [destruct include_chunks; reflexivity |].
    assert (He : forall entity,
               In entity (GraphData.entities (export_filter (Some (t :: ts)) include_chunks g))
               <-> In entity (GraphData.entities g) /\ In (Entity.type entity) (t :: ts)).
    { intros entity. unfold export_filter. destruct include_chunks; cbn [GraphData.entities];
        now rewrite List.filter_In, Hmem. }
    split; [exact He |].
    intros rel.
    assert (Hids : forall id,
               In id (List.map Entity.id
                        (GraphData.entities
                           (export_filter (Some (t :: ts)) include_chunks g)))
               <-> exists a,
                   In a (GraphData.entities (export_filter (Some (t :: ts)) include_chunks g))
                   /\ Entity.id a = id).
    { intros id. rewrite List.in_map_iff. split; intros (a & H1 & H2); exists a; auto. }
    rewrite <- !Hids.
    unfold export_filter. destruct include_chunks;
      cbn [GraphData.entities GraphData.relationships];
      now rewrite List.filter_In, andb_true_iff, !Hmem.
  - destruct include_chunks; repeat split.
Qed.

End GraphApiFacts.
